(** * Alpaca trading engine: the decision pipeline

    A shallow embedding of the three core components of the trading MVP

      - [strategy/moving_average.py]  (signal generation),
      - [risk/risk_engine.py]         (risk vetting and sizing),
      - [execution/executor.py]       (order sizing and submission),

    together with the cycle of [main.py] that wires them, the broker
    adapter, the market data provider and the log formatter, and the
    properties the design document states about them.

    Numbers.  Python's [float] is an IEEE 754 binary64 value.  [pyfloat]
    holds a rational, or one of nan, +inf, -inf; the two zeros are one
    value (the code compares floats and never divides by a zero).  The
    functions that compute with floats are embedded twice.

      - [Rounded] computes as the code does.  Its arithmetic, [Binary64],
        rounds the exact result of every operation to the nearest binary64
        value, ties to even, with overflow to an infinity and with
        subnormal values, and rounds to decimals as CPython's [round]
        does.  What rests on the value of a float is stated of [Rounded]:
        which rule of the risk chain fires, the quantity of an order, the
        verdict and the confidence of a signal.

      - The modules named after the classes ([RiskEngine],
        [TradeExecutor], [MovingAverageCrossoverStrategy], [Main]) leave
        the rounding of the single operation out: arithmetic on finite
        values is exact there.  They carry the properties that do not rest
        on it: the order of checks and effects, what a nan does, signs,
        monotonicity.

    Libraries.  Of pandas the code uses the rolling mean of a column and
    positional indexing from the end (an error outside the frame).  In
    [Rounded] the rolling mean is a parameter, and the theorems hold for
    whatever series it returns.  In the class-named modules it is nan until
    the window is full, an error for a negative window, and the exact mean
    of the window from then on.

    Effects.  The wall clock is an argument.  The broker and the market
    data source are given by what they answer; a cycle records, in order,
    the calls it makes and the log records it writes. *)

From Stdlib Require Import ZArith QArith Qpower Qabs Qround Bool List String Ascii Lia Psatz.
Import ListNotations.

Local Open Scope string_scope.
Local Open Scope Z_scope.

(** ** Python values, exceptions and effects *)

Module Py.

(** An exception: its class and the message [str(exc)] returns. *)
Inductive exn : Type :=
| Exn (cls : string) (msg : string).

Definition ValueError (msg : string) : exn := Exn "ValueError" msg.
Definition IndexError (msg : string) : exn := Exn "IndexError" msg.
Definition ZeroDivisionError (msg : string) : exn := Exn "ZeroDivisionError" msg.

Definition str_exn (e : exn) : string :=
  match e with Exn _ msg => msg end.

(** A computation that returns a value or raises. *)
Inductive result (A : Type) : Type :=
| Ok (a : A)
| Raise (e : exn).

Arguments Ok {A} a.
Arguments Raise {A} e.

Definition bind {A B : Type} (m : result A) (k : A -> result B) : result B :=
  match m with
  | Ok a => k a
  | Raise e => Raise e
  end.

(** *** Floats *)

Inductive pyfloat : Type :=
| Fin (q : Q)
| PInf
| NInf
| NaN.

(** A float literal; a finite value is kept in lowest terms, so that equal
    values are equal terms. *)
Definition lit (q : Q) : pyfloat := Fin (Qred q).

Definition Qlt_bool (a b : Q) : bool := negb (Qle_bool b a).

Definition Qsgn (q : Q) : comparison := (q ?= 0)%Q.

(** The infinity of a given sign; [inf * 0] and the like are nan. *)
Definition inf_of_sign (c : comparison) : pyfloat :=
  match c with
  | Gt => PInf
  | Lt => NInf
  | Eq => NaN
  end.

Definition fopp (x : pyfloat) : pyfloat :=
  match x with
  | Fin q => Fin (Qred (- q))
  | PInf => NInf
  | NInf => PInf
  | NaN => NaN
  end.

(** [abs(x)] *)
Definition fabs (x : pyfloat) : pyfloat :=
  match x with
  | Fin q => Fin (Qred (Qabs q))
  | PInf | NInf => PInf
  | NaN => NaN
  end.

(** [x + y] *)
Definition fadd (x y : pyfloat) : pyfloat :=
  match x, y with
  | NaN, _ | _, NaN => NaN
  | Fin a, Fin b => Fin (Qred (a + b))
  | PInf, NInf | NInf, PInf => NaN
  | PInf, _ | _, PInf => PInf
  | NInf, _ | _, NInf => NInf
  end.

(** [x - y] *)
Definition fsub (x y : pyfloat) : pyfloat := fadd x (fopp y).

(** [x * y] *)
Definition fmul (x y : pyfloat) : pyfloat :=
  match x, y with
  | NaN, _ | _, NaN => NaN
  | Fin a, Fin b => Fin (Qred (a * b))
  | Fin a, PInf | PInf, Fin a => inf_of_sign (Qsgn a)
  | Fin a, NInf | NInf, Fin a => inf_of_sign (CompOpp (Qsgn a))
  | PInf, PInf | NInf, NInf => PInf
  | PInf, NInf | NInf, PInf => NInf
  end.

(** [x == 0], which is also [not x]. *)
Definition is_zero (x : pyfloat) : bool :=
  match x with
  | Fin q => Qeq_bool q 0
  | _ => false
  end.

(** Truth value of a float in a condition: [if x]. *)
Definition truthy (x : pyfloat) : bool := negb (is_zero x).

(** The quotient [x / y] for a divisor that is not zero. *)
Definition fdiv_nz (x y : pyfloat) : pyfloat :=
  match x, y with
  | NaN, _ | _, NaN => NaN
  | Fin a, Fin b => Fin (Qred (a / b))
  | Fin _, (PInf | NInf) => Fin 0
  | PInf, Fin b => inf_of_sign (Qsgn b)
  | NInf, Fin b => inf_of_sign (CompOpp (Qsgn b))
  | (PInf | NInf), (PInf | NInf) => NaN
  end.

(** [x / y]: raises on a zero divisor. *)
Definition fdiv (x y : pyfloat) : result pyfloat :=
  if is_zero y then Raise (ZeroDivisionError "float division by zero")
  else Ok (fdiv_nz x y).

(** [x < y]; false as soon as one side is nan. *)
Definition flt (x y : pyfloat) : bool :=
  match x, y with
  | NaN, _ | _, NaN => false
  | Fin a, Fin b => Qlt_bool a b
  | NInf, (Fin _ | PInf) => true
  | Fin _, PInf => true
  | _, _ => false
  end.

(** [x <= y] *)
Definition fle (x y : pyfloat) : bool :=
  match x, y with
  | NaN, _ | _, NaN => false
  | Fin a, Fin b => Qle_bool a b
  | NInf, _ => true
  | _, PInf => true
  | _, _ => false
  end.

(** [x > y] and [x >= y] *)
Definition fgt (x y : pyfloat) : bool := flt y x.
Definition fge (x y : pyfloat) : bool := fle y x.

(** The builtin [min(a, b)]: the first argument, unless the second is
    strictly smaller. *)
Definition pymin (a b : pyfloat) : pyfloat :=
  if flt b a then b else a.

(** The integer nearest to [q], a tie going to the even one. *)
Definition round_half_even (q : Q) : Z :=
  let n := Qnum q in
  let d := Zpos (Qden q) in
  let k := n / d in
  match (2 * (n mod d) ?= d) with
  | Lt => k
  | Gt => k + 1
  | Eq => if Z.even k then k else k + 1
  end.

Definition round_ndigits (q : Q) (ndigits : Z) : Q :=
  if 0 <=? ndigits then
    let s := inject_Z (10 ^ ndigits) in
    Qred (inject_Z (round_half_even (q * s)) / s)
  else
    let s := inject_Z (10 ^ (- ndigits)) in
    Qred (inject_Z (round_half_even (q / s)) * s).

(** [round(x, ndigits)]: nan and the infinities round to themselves. *)
Definition pyround (x : pyfloat) (ndigits : Z) : pyfloat :=
  match x with
  | Fin q => Fin (round_ndigits q ndigits)
  | _ => x
  end.

(** [float(n)] for an integer. *)
Definition of_Z (n : Z) : pyfloat := Fin (inject_Z n).

(** [str(x)] of an optional string: [None] prints as "None". *)
Definition str_opt (o : option string) : string :=
  match o with
  | Some s => s
  | None => "None"
  end.

(** *** Sequences *)

(** What pandas raises for a position outside the frame. *)
Definition out_of_bounds : exn :=
  IndexError "single positional indexer is out-of-bounds".

(** [xs.iloc[i]]: a negative index counts from the end. *)
Definition iloc {A : Type} (xs : list A) (i : Z) : result A :=
  let n := Z.of_nat (List.length xs) in
  let j := if i <? 0 then n + i else i in
  if (j <? 0) || (n <=? j)
  then Raise out_of_bounds
  else match nth_error xs (Z.to_nat j) with
       | Some a => Ok a
       | None => Raise out_of_bounds
       end.

End Py.

Export Py.

Notation "'do' x <- m ; k" := (Py.bind m (fun x => k))
  (at level 10, x name, m at level 100, k at level 200).
Notation "'do' ' p <- m ; k" := (Py.bind m (fun x => match x with p => k end))
  (at level 10, p pattern, m at level 100, k at level 200).

(** ** The arithmetic of the code: binary64 *)

(** Python's [float] is an IEEE 754 binary64 value: 53 significant bits,
    exponents from -1074 (the smallest subnormal is [2^-1074]) up to
    [2^1024] exclusive.  Each operation returns the exact result rounded to
    the nearest such value, a tie going to the even significand, and an
    infinity when the rounded result reaches [2^1024]. *)
Module Binary64.

Definition pow2 (e : Z) : Q := (2 ^ e)%Q.

(** For [q > 0], the exponent [k] with [2^k <= q < 2^(k+1)]: the integer
    logarithms of numerator and denominator give it up to one. *)
Definition ilog2 (q : Q) : Z :=
  let k := Z.log2 (Qnum q) - Z.log2 (Zpos (Qden q)) in
  if Qle_bool (pow2 k) q then k else k - 1.

(** The exponent of the last significant bit of the values around [q]:
    53 bits below the leading one, and never below the subnormal step. *)
Definition quantum (q : Q) : Z := Z.max (ilog2 q - 52) (-1074).

(** For [q > 0], the multiple of [2^quantum] nearest to [q], ties to even. *)
Definition nearest (q : Q) : Q :=
  let e := quantum q in
  (inject_Z (round_half_even (q / pow2 e)) * pow2 e)%Q.

Definition overflow (v : Q) : pyfloat :=
  if Qle_bool (pow2 1024) v then PInf else Fin (Qred v).

(** The binary64 value nearest to [q]. *)
Definition rnd (q : Q) : pyfloat :=
  match Qsgn q with
  | Eq => Fin 0
  | Gt => overflow (nearest q)
  | Lt => fopp (overflow (nearest (- q)))
  end.

(** The value an operation returns, given its exact result. *)
Definition finish (x : pyfloat) : pyfloat :=
  match x with
  | Fin q => rnd q
  | _ => x
  end.

(** A decimal literal such as [0.03] denotes the nearest binary64 value. *)
Definition lit (q : Q) : pyfloat := rnd q.

(** [x + y], [x - y], [x * y] *)
Definition add (x y : pyfloat) : pyfloat := finish (fadd x y).
Definition sub (x y : pyfloat) : pyfloat := finish (fsub x y).
Definition mul (x y : pyfloat) : pyfloat := finish (fmul x y).

(** [x / y]: the quotient for a divisor that is not zero, and the division
    that raises on a zero divisor. *)
Definition div_nz (x y : pyfloat) : pyfloat := finish (fdiv_nz x y).
Definition div (x y : pyfloat) : result pyfloat :=
  if is_zero y then Raise (ZeroDivisionError "float division by zero")
  else Ok (div_nz x y).

(** [round(x, ndigits)] for [ndigits >= 0], as CPython computes it: the
    exact value of [x] is rounded to [ndigits] decimals, half to even, and
    the binary64 value nearest to that decimal is returned; nan and the
    infinities round to themselves. *)
Definition round (x : pyfloat) (ndigits : nat) : pyfloat :=
  match x with
  | Fin q => rnd (round_ndigits q (Z.of_nat ndigits))
  | _ => x
  end.

End Binary64.

(** [time.sleep(secs)], as far as CPython 3.11 checks its argument.  The
    seconds are turned into nanoseconds and rounded away from zero; a nan is
    refused, and so are a count beyond [2^63] on either side and a negative
    one.  The count [2^63] itself wraps around to a negative one.  [-0.0]
    is accepted.  What the operating system does with a pause of centuries
    is left out. *)
Module Time.

Definition away_from_zero (q : Q) : Z :=
  if Qle_bool 0 q then Qceiling q else Qfloor q.

(** The pause in nanoseconds, when it fits. *)
Definition nanoseconds (secs : pyfloat) : option Z :=
  match Binary64.mul secs (Fin 1000000000) with
  | Fin q =>
      let d := away_from_zero q in
      if (- 2 ^ 63 <=? d) && (d <=? 2 ^ 63)
      then Some (if d =? 2 ^ 63 then - 2 ^ 63 else d)
      else None
  | _ => None
  end.

Definition sleep (secs : pyfloat) : result unit :=
  match secs with
  | NaN => Raise (ValueError "Invalid value NaN (not a number)")
  | _ =>
      match nanoseconds secs with
      | None =>
          Raise (Exn "OverflowError" "timestamp too large to convert to C _PyTime_t")
      | Some timeout =>
          if timeout <? 0
          then Raise (ValueError "sleep length must be non-negative")
          else Ok tt
      end
  end.

End Time.

(** ** Data contracts *)

(** One OHLCV row of the price history ([data/market_data.py]). *)
Module PriceBar.
Record t : Type := make {
  Open : pyfloat;
  High : pyfloat;
  Low : pyfloat;
  Close : pyfloat;
  Volume : pyfloat
}.
End PriceBar.

(** The price history: the rows of the DataFrame, oldest first. *)
Definition DataFrame : Type := list PriceBar.t.

Module StrategySignal.
Record t : Type := make {
  symbol : string;
  signal : string;
  confidence : pyfloat;
  timestamp : string
}.
End StrategySignal.

Module RiskDecision.
Record t : Type := make {
  approved : bool;
  reason : string;
  max_position_value : pyfloat;
  stop_loss_pct : pyfloat
}.
End RiskDecision.

Module ExecutionResult.
Record t : Type := make {
  executed : bool;
  reason : string;
  qty : pyfloat;
  order_id : option string
}.
End ExecutionResult.

(** ** Signal generation ([strategy/moving_average.py]) *)

Module MovingAverageCrossoverStrategy.

Record t : Type := make {
  short_window : Z;
  long_window : Z
}.

(** [__init__] *)
Definition init (short_window long_window : Z) : result t :=
  if short_window >=? long_window
  then Raise (ValueError "short_window must be < long_window")
  else Ok (make short_window long_window).

Definition is_nan (x : pyfloat) : bool :=
  match x with
  | NaN => true
  | _ => false
  end.

(** The [window] observations that end at position [i]. *)
Definition window_at (window : Z) (xs : list pyfloat) (i : nat) : list pyfloat :=
  firstn (Z.to_nat window) (skipn (i + 1 - Z.to_nat window) xs).

(** One value of pandas' [Series.rolling(window).mean()] (with the default
    [min_periods = window]): the mean of the [window] observations ending at
    position [i]; nan while fewer than [window] observations exist, when one
    of them is nan, and for an empty window. *)
Definition sma (window : Z) (xs : list pyfloat) (i : nat) : pyfloat :=
  if (window <=? 0) || (Z.of_nat i + 1 <? window) then NaN
  else
    let w := window_at window xs i in
    if existsb is_nan w then NaN
    else fdiv_nz (fold_left fadd w (Fin 0)) (of_Z window).

(** What pandas raises for a negative window. *)
Definition negative_window : exn :=
  ValueError "window must be an integer 0 or greater".

(** [xs.rolling(window=window).mean()] *)
Definition rolling_mean (window : Z) (xs : list pyfloat) : result (list pyfloat) :=
  if window <? 0
  then Raise negative_window
  else Ok (map (sma window xs) (seq 0 (List.length xs))).

(** [generate_signal]; [now] is the wall-clock reading stamped on the result. *)
Definition generate_signal (self : t) (symbol : string) (data : DataFrame)
    (now : string) : result StrategySignal.t :=
  if Z.of_nat (List.length data) <? long_window self
  then Raise (ValueError "Insufficient data for long SMA window")
  else
    let close := map PriceBar.Close data in
    do sma_short <- rolling_mean (short_window self) close;
    do sma_long <- rolling_mean (long_window self) close;
    let df := combine sma_short sma_long in
    do ' (prev_short, prev_long) <- iloc df (-2);
    do ' (curr_short, curr_long) <- iloc df (-1);
    let signal :=
      if fle prev_short prev_long && fgt curr_short curr_long then "BUY"
      else if fge prev_short prev_long && flt curr_short curr_long then "SELL"
      else "HOLD" in
    do spread <-
      (if truthy curr_long
       then fdiv (fabs (fsub curr_short curr_long)) curr_long
       else Ok (Fin 0));
    let confidence :=
      if negb (signal =? "HOLD")%string
      then pymin (lit 0.99) (pyround (fadd (lit 0.5) (fmul spread (Fin 10))) 2)
      else lit 0.5 in
    Ok (StrategySignal.make symbol signal confidence now).

End MovingAverageCrossoverStrategy.

(** ** Risk vetting ([risk/risk_engine.py]) *)

(** Calendar dates and timestamps, as far as the fill count reads them. *)
Module Datetime.

Record date : Type := make_date {
  year : Z;
  month : Z;
  day : Z
}.

Record t : Type := make {
  on : date;
  hour : Z;
  minute : Z;
  second : Z
}.

(** [dt.date()] *)
Definition date_of (dt : t) : date := on dt.

(** [d1 == d2] on dates *)
Definition date_eqb (d1 d2 : date) : bool :=
  (year d1 =? year d2) && (month d1 =? month d2) && (day d1 =? day d2).

End Datetime.

(** A broker order, as far as the core reads it: [filled_at] is [None]
    when the attribute is missing or unset. *)
Module OrderRecord.
Record t : Type := make {
  filled_at : option Datetime.t
}.
End OrderRecord.

Module RiskEngine.

Record t : Type := make {
  max_capital_per_position : pyfloat;
  max_trades_per_day : Z;
  stop_loss_pct : pyfloat;
  max_daily_loss_pct : pyfloat
}.

(** The constructor's defaults. *)
Definition default : t := make (lit 0.05) 2 (lit 0.02) (lit 0.03).

(** [evaluate] *)
Definition evaluate (self : t) (signal : string) (equity : pyfloat)
    (today_trades : Z) (daily_pnl : pyfloat) : result RiskDecision.t :=
  if (signal =? "HOLD")%string
  then Ok (RiskDecision.make false "Signal is HOLD" (Fin 0) (stop_loss_pct self))
  else
  if today_trades >=? max_trades_per_day self
  then Ok (RiskDecision.make false "Daily trade limit reached" (Fin 0) (stop_loss_pct self))
  else
  let daily_loss := fabs (pymin daily_pnl (Fin 0)) in
  do loss_exceeded <-
    (if fgt equity (Fin 0)
     then do ratio <- fdiv daily_loss equity;
          Ok (fgt ratio (max_daily_loss_pct self))
     else Ok false);
  if (loss_exceeded : bool)
  then Ok (RiskDecision.make false "Daily loss limit exceeded" (Fin 0) (stop_loss_pct self))
  else
  let max_position_value := fmul equity (max_capital_per_position self) in
  if fle max_position_value (Fin 0)
  then Ok (RiskDecision.make false "Invalid position sizing from equity" (Fin 0)
             (stop_loss_pct self))
  else Ok (RiskDecision.make true "Approved" max_position_value (stop_loss_pct self)).

(** [count_today_filled_trades]; [today] is the reading of
    [datetime.now(timezone.utc).date()]. *)
Definition count_today_filled_trades (today : Datetime.date)
    (orders : list OrderRecord.t) : Z :=
  fold_left
    (fun total order =>
       match OrderRecord.filled_at order with
       | Some filled_at =>
           if Datetime.date_eqb (Datetime.date_of filled_at) today
           then total + 1
           else total
       | None => total
       end)
    orders 0.

End RiskEngine.

(** ** Effects: the broker, the market data source and the log *)

(** What the broker answers to [submit_order]. *)
Module OrderHandle.
Record t : Type := make {
  id : option string
}.
End OrderHandle.

Module AccountSnapshot.
Record t : Type := make {
  equity : pyfloat;
  unrealized_pl : option pyfloat;
  realized_pl : option pyfloat
}.
End AccountSnapshot.

(** The broker collaborator ([broker/alpaca_adapter.py]) seen from the core:
    what each call returns or raises during one cycle. *)
Module Broker.
Record t : Type := make {
  get_account : result AccountSnapshot.t;
  get_open_orders : result (list OrderRecord.t);
  submit_order : string -> pyfloat -> string -> result OrderHandle.t
}.
End Broker.

(** What a cycle does to the outside world, in order. *)
Inductive event : Type :=
| FetchedOhlcv (symbol period : string)
| FetchedAccount
| FetchedOpenOrders
| SubmittedOrder (symbol : string) (qty : pyfloat) (side : string)
| LoggedOrderSubmitted (symbol side : string) (qty : pyfloat) (order_id : string)
| LoggedOrderSubmissionFailed (error symbol : string)
| LoggedSignal (s : StrategySignal.t)
| LoggedRiskDecision (d : RiskDecision.t)
| LoggedExecutionResult (r : ExecutionResult.t).

(** An effectful computation: it extends the trace of events and returns
    or raises. *)
Definition Run (A : Type) : Type := list event -> result A * list event.

Definition ret {A : Type} (a : A) : Run A := fun tr => (Ok a, tr).

Definition Run_bind {A B : Type} (m : Run A) (k : A -> Run B) : Run B :=
  fun tr =>
    match m tr with
    | (Ok a, tr') => k a tr'
    | (Raise e, tr') => (Raise e, tr')
    end.

(** A pure computation inside an effectful one. *)
Definition lift {A : Type} (r : result A) : Run A := fun tr => (r, tr).

(** A call to a collaborator: the call is recorded, then it returns or raises. *)
Definition call {A : Type} (e : event) (answer : result A) : Run A :=
  fun tr => (answer, (tr ++ [e])%list).

(** A log record. *)
Definition log (e : event) : Run unit := fun tr => (Ok tt, (tr ++ [e])%list).

(** [try: body  except: handler(exc)], a handler that takes every exception. *)
Definition try_except {A : Type} (body : Run A) (handler : exn -> Run A) : Run A :=
  fun tr =>
    match body tr with
    | (Ok a, tr') => (Ok a, tr')
    | (Raise exc, tr') => handler exc tr'
    end.

(** The builtin classes that derive from [BaseException] and not from
    [Exception].  A class is known by its name; every other class counts as
    a subclass of [Exception]. *)
Definition outside_Exception : list string :=
  ["BaseException"; "KeyboardInterrupt"; "SystemExit"; "GeneratorExit";
   "BaseExceptionGroup"].

(** [isinstance(exc, Exception)] *)
Definition is_Exception (exc : exn) : bool :=
  match exc with
  | Exn cls _ => negb (existsb (String.eqb cls) outside_Exception)
  end.

(** [try: body  except Exception as exc: handler(exc)]: an exception that
    is no [Exception] leaves the statement as it came. *)
Definition try_except_Exception {A : Type} (body : Run A) (handler : exn -> Run A) :
    Run A :=
  fun tr =>
    match body tr with
    | (Ok a, tr') => (Ok a, tr')
    | (Raise exc, tr') => if is_Exception exc then handler exc tr' else (Raise exc, tr')
    end.

Notation "'perform' x <- m ; k" := (Run_bind m (fun x => k))
  (at level 10, x name, m at level 100, k at level 200).
Notation "'step' m ; k" := (Run_bind m (fun _ => k))
  (at level 10, m at level 100, k at level 200).

(** ** Order execution ([execution/executor.py]) *)

Module TradeExecutor.

Record t : Type := make {
  broker : Broker.t
}.

(** [execute] *)
Definition execute (self : t) (signal : StrategySignal.t)
    (risk_decision : RiskDecision.t) (last_price : pyfloat) : Run ExecutionResult.t :=
  if negb (RiskDecision.approved risk_decision)
  then ret (ExecutionResult.make false (RiskDecision.reason risk_decision) (Fin 0) None)
  else
  if negb ((StrategySignal.signal signal =? "BUY")%string
           || (StrategySignal.signal signal =? "SELL")%string)
  then ret (ExecutionResult.make false
              ("Unsupported signal " ++ StrategySignal.signal signal) (Fin 0) None)
  else
  if fle last_price (Fin 0)
  then ret (ExecutionResult.make false "Invalid market price" (Fin 0) None)
  else
  perform ratio <- lift (fdiv (RiskDecision.max_position_value risk_decision) last_price);
  let qty := pyround ratio 4 in
  if fle qty (Fin 0)
  then ret (ExecutionResult.make false "Calculated quantity is zero" (Fin 0) None)
  else
  try_except
    (perform order <-
       call (SubmittedOrder (StrategySignal.symbol signal) qty (StrategySignal.signal signal))
            (Broker.submit_order (broker self)
               (StrategySignal.symbol signal) qty (StrategySignal.signal signal));
     step log (LoggedOrderSubmitted (StrategySignal.symbol signal)
                    (StrategySignal.signal signal) qty
                    (match OrderHandle.id order with Some i => i | None => "" end));
     ret (ExecutionResult.make true "Order submitted" qty
            (Some (str_opt (OrderHandle.id order)))))
    (fun exc =>
       step log (LoggedOrderSubmissionFailed (str_exn exc) (StrategySignal.symbol signal));
       ret (ExecutionResult.make false (str_exn exc) qty None)).

End TradeExecutor.

(** ** One cycle ([main.py]) *)

Module Settings.
Record t : Type := make {
  alpaca_api_key : string;
  alpaca_secret_key : string;
  default_symbol : string;
  history_period : string;
  short_window : Z;
  long_window : Z;
  max_capital_per_position : pyfloat;
  max_trades_per_day : Z;
  stop_loss_pct : pyfloat;
  max_daily_loss_pct : pyfloat
}.
End Settings.

(** The two wall-clock readings of a cycle. *)
Module Clock.
Record t : Type := make {
  now_iso : string;
  today : Datetime.date
}.
End Clock.

Module Main.

(** [getattr(account, name, 0.0)] *)
Definition getattr_or_zero (o : option pyfloat) : pyfloat :=
  match o with
  | Some x => x
  | None => Fin 0
  end.

(** [run]: [get_ohlcv] is the market data collaborator (it raises when no
    data comes back).  Setting up the log handlers is left out. *)
Definition run (settings : Settings.t)
    (get_ohlcv : string -> string -> result DataFrame)
    (broker : Broker.t) (clock : Clock.t) : Run unit :=
  perform keys_present <- lift
    (if (Settings.alpaca_api_key settings =? "")%string
        || (Settings.alpaca_secret_key settings =? "")%string
     then Raise (ValueError "ALPACA_API_KEY and ALPACA_SECRET_KEY are required.")
     else Ok tt);
  perform strategy <- lift
    (MovingAverageCrossoverStrategy.init
       (Settings.short_window settings) (Settings.long_window settings));
  let risk_engine :=
    RiskEngine.make (Settings.max_capital_per_position settings)
      (Settings.max_trades_per_day settings) (Settings.stop_loss_pct settings)
      (Settings.max_daily_loss_pct settings) in
  let executor := TradeExecutor.make broker in
  perform data <-
    call (FetchedOhlcv (Settings.default_symbol settings) (Settings.history_period settings))
         (get_ohlcv (Settings.default_symbol settings) (Settings.history_period settings));
  perform signal <- lift
    (MovingAverageCrossoverStrategy.generate_signal strategy
       (Settings.default_symbol settings) data (Clock.now_iso clock));
  step log (LoggedSignal signal);
  perform account <- call FetchedAccount (Broker.get_account broker);
  let equity := AccountSnapshot.equity account in
  let daily_pnl :=
    fadd (getattr_or_zero (AccountSnapshot.unrealized_pl account))
         (getattr_or_zero (AccountSnapshot.realized_pl account)) in
  perform open_orders <- call FetchedOpenOrders (Broker.get_open_orders broker);
  let today_trades :=
    RiskEngine.count_today_filled_trades (Clock.today clock) open_orders in
  perform risk_decision <- lift
    (RiskEngine.evaluate risk_engine (StrategySignal.signal signal)
       equity today_trades daily_pnl);
  step log (LoggedRiskDecision risk_decision);
  perform last_price <- lift (iloc (map PriceBar.Close data) (-1));
  perform execution_result <-
    TradeExecutor.execute executor signal risk_decision last_price;
  step log (LoggedExecutionResult execution_result);
  ret tt.

End Main.

(** ** The design document's wording of the rule chains *)

(** Rules tried in order: the first whose condition holds gives the outcome. *)
Fixpoint first_match {A : Type} (rules : list (bool * A)) (otherwise : A) : A :=
  match rules with
  | [] => otherwise
  | (condition, outcome) :: rest =>
      if condition then outcome else first_match rest otherwise
  end.

Module RiskRules.

Definition reject (self : RiskEngine.t) (why : string) : RiskDecision.t :=
  RiskDecision.make false why (Fin 0) (RiskEngine.stop_loss_pct self).

(** [daily_loss = |min(daily_pnl, 0)|] *)
Definition daily_loss (daily_pnl : pyfloat) : pyfloat :=
  fabs (pymin daily_pnl (Fin 0)).

(** [max_position_value = equity * max_capital_per_position] *)
Definition sizing (self : RiskEngine.t) (equity : pyfloat) : pyfloat :=
  fmul equity (RiskEngine.max_capital_per_position self).

(** Rules 1 to 4 of the Risk Evaluator, then rule 5. *)
Definition evaluate_rules (self : RiskEngine.t) (signal : string) (equity : pyfloat)
    (today_trades : Z) (daily_pnl : pyfloat) : RiskDecision.t :=
  first_match
    [ ((signal =? "HOLD")%string,
       reject self "Signal is HOLD");
      (RiskEngine.max_trades_per_day self <=? today_trades,
       reject self "Daily trade limit reached");
      (fgt equity (Fin 0)
       && fgt (fdiv_nz (daily_loss daily_pnl) equity) (RiskEngine.max_daily_loss_pct self),
       reject self "Daily loss limit exceeded");
      (fle (sizing self equity) (Fin 0),
       reject self "Invalid position sizing from equity") ]
    (RiskDecision.make true "Approved" (sizing self equity) (RiskEngine.stop_loss_pct self)).

End RiskRules.

Module ExecutionRules.

Definition decline (why : string) : ExecutionResult.t :=
  ExecutionResult.make false why (Fin 0) None.

(** [qty = round(max_position_value / last_price, 4)] *)
Definition sized_qty (risk_decision : RiskDecision.t) (last_price : pyfloat) : pyfloat :=
  pyround (fdiv_nz (RiskDecision.max_position_value risk_decision) last_price) 4.

Definition tradable (signal : string) : bool :=
  (signal =? "BUY")%string || (signal =? "SELL")%string.

(** Steps 1 to 4 of the Executor: the decline, if one of them applies. *)
Definition declined (signal : StrategySignal.t) (risk_decision : RiskDecision.t)
    (last_price : pyfloat) : option ExecutionResult.t :=
  first_match
    [ (negb (RiskDecision.approved risk_decision),
       Some (decline (RiskDecision.reason risk_decision)));
      (negb (tradable (StrategySignal.signal signal)),
       Some (decline ("Unsupported signal " ++ StrategySignal.signal signal)));
      (fle last_price (Fin 0),
       Some (decline "Invalid market price"));
      (fle (sized_qty risk_decision last_price) (Fin 0),
       Some (decline "Calculated quantity is zero")) ]
    None.

(** Step 5: the order goes to the broker, and its answer decides the result. *)
Definition submitted (broker : Broker.t) (signal : StrategySignal.t) (qty : pyfloat)
    (tr : list event) : result ExecutionResult.t * list event :=
  let symbol := StrategySignal.symbol signal in
  let side := StrategySignal.signal signal in
  let sent := (tr ++ [SubmittedOrder symbol qty side])%list in
  match Broker.submit_order broker symbol qty side with
  | Ok order =>
      (Ok (ExecutionResult.make true "Order submitted" qty
             (Some (str_opt (OrderHandle.id order)))),
       (sent ++ [LoggedOrderSubmitted symbol side qty
                  (match OrderHandle.id order with Some i => i | None => "" end)])%list)
  | Raise exc =>
      (Ok (ExecutionResult.make false (str_exn exc) qty None),
       (sent ++ [LoggedOrderSubmissionFailed (str_exn exc) symbol])%list)
  end.

End ExecutionRules.

(** The relative spread [|short - long| / long], taken as 0 when [long] is 0. *)
Definition relative_spread (short long : pyfloat) : pyfloat :=
  if is_zero long then Fin 0 else fdiv_nz (fabs (fsub short long)) long.

(** [min(0.99, round(0.5 + spread * 10, 2))] *)
Definition confidence_of_spread (spread : pyfloat) : pyfloat :=
  pymin (lit 0.99) (pyround (fadd (lit 0.5) (fmul spread (Fin 10))) 2).

(** The four moving averages the crossover test reads: the short and long
    SMA of the bar before the last, and of the last bar. *)
Module Crossover.
Section Averages.
Variable self : MovingAverageCrossoverStrategy.t.
Variable data : DataFrame.

Let close : list pyfloat := map PriceBar.Close data.
Let n : nat := List.length data.

Definition prev_short : pyfloat :=
  MovingAverageCrossoverStrategy.sma (MovingAverageCrossoverStrategy.short_window self)
    close (n - 2).
Definition prev_long : pyfloat :=
  MovingAverageCrossoverStrategy.sma (MovingAverageCrossoverStrategy.long_window self)
    close (n - 2).
Definition curr_short : pyfloat :=
  MovingAverageCrossoverStrategy.sma (MovingAverageCrossoverStrategy.short_window self)
    close (n - 1).
Definition curr_long : pyfloat :=
  MovingAverageCrossoverStrategy.sma (MovingAverageCrossoverStrategy.long_window self)
    close (n - 1).

(** Upward cross, downward cross. *)
Definition crosses_up : bool := fle prev_short prev_long && fgt curr_short curr_long.
Definition crosses_down : bool := fge prev_short prev_long && flt curr_short curr_long.

(** BUY on an upward cross, SELL on a downward cross, otherwise HOLD. *)
Definition verdict : string :=
  if crosses_up then "BUY" else if crosses_down then "SELL" else "HOLD".

Definition spread : pyfloat := relative_spread curr_short curr_long.

(** 0.5 for HOLD, the spread formula for BUY and SELL. *)
Definition confidence : pyfloat :=
  if (verdict =? "HOLD")%string then lit 0.5 else confidence_of_spread spread.

End Averages.
End Crossover.

(** The design document's names for the two validation failures. *)
Definition ConfigError : exn := ValueError "short_window must be < long_window".
Definition InsufficientDataError : exn := ValueError "Insufficient data for long SMA window".

(** An order record that has a fill timestamp whose date is [today]. *)
Definition filled_on (today : Datetime.date) (order : OrderRecord.t) : bool :=
  match OrderRecord.filled_at order with
  | Some filled_at => Datetime.date_eqb (Datetime.date_of filled_at) today
  | None => false
  end.

(** ** The functions that compute with floats, in binary64 *)

(** [evaluate], [execute], [generate_signal] and [run] once more, this time
    with the arithmetic of [Binary64], so that every float they return is
    the one the code returns.  Of pandas, [generate_signal] takes the
    rolling mean as a parameter: [rolling_mean window xs] stands for
    [xs.rolling(window=window).mean()], a series over the index of [xs], or
    the exception pandas raises. *)
Module Rounded.

(** The defaults of [RiskEngine.__init__]. *)
Definition default_engine : RiskEngine.t :=
  RiskEngine.make (Binary64.lit 0.05) 2 (Binary64.lit 0.02) (Binary64.lit 0.03).

(** [RiskEngine.evaluate] *)
Definition evaluate (self : RiskEngine.t) (signal : string) (equity : pyfloat)
    (today_trades : Z) (daily_pnl : pyfloat) : result RiskDecision.t :=
  if (signal =? "HOLD")%string
  then Ok (RiskDecision.make false "Signal is HOLD" (Fin 0) (RiskEngine.stop_loss_pct self))
  else
  if today_trades >=? RiskEngine.max_trades_per_day self
  then Ok (RiskDecision.make false "Daily trade limit reached" (Fin 0)
             (RiskEngine.stop_loss_pct self))
  else
  let daily_loss := fabs (pymin daily_pnl (Fin 0)) in
  do loss_exceeded <-
    (if fgt equity (Fin 0)
     then do ratio <- Binary64.div daily_loss equity;
          Ok (fgt ratio (RiskEngine.max_daily_loss_pct self))
     else Ok false);
  if (loss_exceeded : bool)
  then Ok (RiskDecision.make false "Daily loss limit exceeded" (Fin 0)
             (RiskEngine.stop_loss_pct self))
  else
  let max_position_value :=
    Binary64.mul equity (RiskEngine.max_capital_per_position self) in
  if fle max_position_value (Fin 0)
  then Ok (RiskDecision.make false "Invalid position sizing from equity" (Fin 0)
             (RiskEngine.stop_loss_pct self))
  else Ok (RiskDecision.make true "Approved" max_position_value
             (RiskEngine.stop_loss_pct self)).

(** [TradeExecutor.execute] *)
Definition execute (self : TradeExecutor.t) (signal : StrategySignal.t)
    (risk_decision : RiskDecision.t) (last_price : pyfloat) : Run ExecutionResult.t :=
  if negb (RiskDecision.approved risk_decision)
  then ret (ExecutionResult.make false (RiskDecision.reason risk_decision) (Fin 0) None)
  else
  if negb ((StrategySignal.signal signal =? "BUY")%string
           || (StrategySignal.signal signal =? "SELL")%string)
  then ret (ExecutionResult.make false
              ("Unsupported signal " ++ StrategySignal.signal signal) (Fin 0) None)
  else
  if fle last_price (Fin 0)
  then ret (ExecutionResult.make false "Invalid market price" (Fin 0) None)
  else
  perform ratio <-
    lift (Binary64.div (RiskDecision.max_position_value risk_decision) last_price);
  let qty := Binary64.round ratio 4%nat in
  if fle qty (Fin 0)
  then ret (ExecutionResult.make false "Calculated quantity is zero" (Fin 0) None)
  else
  try_except_Exception
    (perform order <-
       call (SubmittedOrder (StrategySignal.symbol signal) qty (StrategySignal.signal signal))
            (Broker.submit_order (TradeExecutor.broker self)
               (StrategySignal.symbol signal) qty (StrategySignal.signal signal));
     step log (LoggedOrderSubmitted (StrategySignal.symbol signal)
                    (StrategySignal.signal signal) qty
                    (match OrderHandle.id order with Some i => i | None => "" end));
     ret (ExecutionResult.make true "Order submitted" qty
            (Some (str_opt (OrderHandle.id order)))))
    (fun exc =>
       step log (LoggedOrderSubmissionFailed (str_exn exc) (StrategySignal.symbol signal));
       ret (ExecutionResult.make false (str_exn exc) qty None)).

(** [MovingAverageCrossoverStrategy.generate_signal]; [now] is the
    wall-clock reading stamped on the result. *)
Definition generate_signal (rolling_mean : Z -> list pyfloat -> result (list pyfloat))
    (self : MovingAverageCrossoverStrategy.t) (symbol : string) (data : DataFrame)
    (now : string) : result StrategySignal.t :=
  if Z.of_nat (List.length data) <? MovingAverageCrossoverStrategy.long_window self
  then Raise (ValueError "Insufficient data for long SMA window")
  else
    let close := map PriceBar.Close data in
    do sma_short <- rolling_mean (MovingAverageCrossoverStrategy.short_window self) close;
    do sma_long <- rolling_mean (MovingAverageCrossoverStrategy.long_window self) close;
    let df := combine sma_short sma_long in
    do ' (prev_short, prev_long) <- iloc df (-2);
    do ' (curr_short, curr_long) <- iloc df (-1);
    let signal :=
      if fle prev_short prev_long && fgt curr_short curr_long then "BUY"
      else if fge prev_short prev_long && flt curr_short curr_long then "SELL"
      else "HOLD" in
    do spread <-
      (if truthy curr_long
       then Binary64.div (fabs (Binary64.sub curr_short curr_long)) curr_long
       else Ok (Fin 0));
    let confidence :=
      if negb (signal =? "HOLD")%string
      then pymin (Binary64.lit 0.99)
             (Binary64.round (Binary64.add (Binary64.lit 0.5) (Binary64.mul spread (Fin 10)))
                2%nat)
      else Binary64.lit 0.5 in
    Ok (StrategySignal.make symbol signal confidence now).

(** [run] of [main.py]; setting up the log handlers is left out. *)
Definition run (settings : Settings.t)
    (get_ohlcv : string -> string -> result DataFrame)
    (rolling_mean : Z -> list pyfloat -> result (list pyfloat))
    (broker : Broker.t) (clock : Clock.t) : Run unit :=
  perform keys_present <- lift
    (if (Settings.alpaca_api_key settings =? "")%string
        || (Settings.alpaca_secret_key settings =? "")%string
     then Raise (ValueError "ALPACA_API_KEY and ALPACA_SECRET_KEY are required.")
     else Ok tt);
  perform strategy <- lift
    (MovingAverageCrossoverStrategy.init
       (Settings.short_window settings) (Settings.long_window settings));
  let risk_engine :=
    RiskEngine.make (Settings.max_capital_per_position settings)
      (Settings.max_trades_per_day settings) (Settings.stop_loss_pct settings)
      (Settings.max_daily_loss_pct settings) in
  let executor := TradeExecutor.make broker in
  perform data <-
    call (FetchedOhlcv (Settings.default_symbol settings) (Settings.history_period settings))
         (get_ohlcv (Settings.default_symbol settings) (Settings.history_period settings));
  perform signal <- lift
    (generate_signal rolling_mean strategy
       (Settings.default_symbol settings) data (Clock.now_iso clock));
  step log (LoggedSignal signal);
  perform account <- call FetchedAccount (Broker.get_account broker);
  let equity := AccountSnapshot.equity account in
  let daily_pnl :=
    Binary64.add (Main.getattr_or_zero (AccountSnapshot.unrealized_pl account))
                 (Main.getattr_or_zero (AccountSnapshot.realized_pl account)) in
  perform open_orders <- call FetchedOpenOrders (Broker.get_open_orders broker);
  let today_trades :=
    RiskEngine.count_today_filled_trades (Clock.today clock) open_orders in
  perform risk_decision <- lift
    (evaluate risk_engine (StrategySignal.signal signal) equity today_trades daily_pnl);
  step log (LoggedRiskDecision risk_decision);
  perform last_price <- lift (iloc (map PriceBar.Close data) (-1));
  perform execution_result <- execute executor signal risk_decision last_price;
  step log (LoggedExecutionResult execution_result);
  ret tt.

(** *** The design document's wording, in the same arithmetic *)

(** [max_position_value = equity * max_capital_per_position] *)
Definition sizing (self : RiskEngine.t) (equity : pyfloat) : pyfloat :=
  Binary64.mul equity (RiskEngine.max_capital_per_position self).

(** [daily_loss / equity] *)
Definition loss_ratio (daily_pnl equity : pyfloat) : pyfloat :=
  Binary64.div_nz (RiskRules.daily_loss daily_pnl) equity.

(** Rules 1 to 4 of the Risk Evaluator, then rule 5. *)
Definition evaluate_rules (self : RiskEngine.t) (signal : string) (equity : pyfloat)
    (today_trades : Z) (daily_pnl : pyfloat) : RiskDecision.t :=
  first_match
    [ ((signal =? "HOLD")%string,
       RiskRules.reject self "Signal is HOLD");
      (RiskEngine.max_trades_per_day self <=? today_trades,
       RiskRules.reject self "Daily trade limit reached");
      (fgt equity (Fin 0)
       && fgt (loss_ratio daily_pnl equity) (RiskEngine.max_daily_loss_pct self),
       RiskRules.reject self "Daily loss limit exceeded");
      (fle (sizing self equity) (Fin 0),
       RiskRules.reject self "Invalid position sizing from equity") ]
    (RiskDecision.make true "Approved" (sizing self equity) (RiskEngine.stop_loss_pct self)).

(** [qty = round(max_position_value / last_price, 4)] *)
Definition sized_qty (risk_decision : RiskDecision.t) (last_price : pyfloat) : pyfloat :=
  Binary64.round
    (Binary64.div_nz (RiskDecision.max_position_value risk_decision) last_price) 4%nat.

(** Steps 1 to 4 of the Executor: the decline, if one of them applies. *)
Definition declined (signal : StrategySignal.t) (risk_decision : RiskDecision.t)
    (last_price : pyfloat) : option ExecutionResult.t :=
  first_match
    [ (negb (RiskDecision.approved risk_decision),
       Some (ExecutionRules.decline (RiskDecision.reason risk_decision)));
      (negb (ExecutionRules.tradable (StrategySignal.signal signal)),
       Some (ExecutionRules.decline
               ("Unsupported signal " ++ StrategySignal.signal signal)));
      (fle last_price (Fin 0),
       Some (ExecutionRules.decline "Invalid market price"));
      (fle (sized_qty risk_decision last_price) (Fin 0),
       Some (ExecutionRules.decline "Calculated quantity is zero")) ]
    None.

(** Step 5: the order goes to the broker, and its answer decides the
    result; an exception that is no [Exception] is not caught. *)
Definition submitted (broker : Broker.t) (signal : StrategySignal.t) (qty : pyfloat)
    (tr : list event) : result ExecutionResult.t * list event :=
  let symbol := StrategySignal.symbol signal in
  let side := StrategySignal.signal signal in
  let sent := (tr ++ [SubmittedOrder symbol qty side])%list in
  match Broker.submit_order broker symbol qty side with
  | Ok order =>
      (Ok (ExecutionResult.make true "Order submitted" qty
             (Some (str_opt (OrderHandle.id order)))),
       (sent ++ [LoggedOrderSubmitted symbol side qty
                  (match OrderHandle.id order with Some i => i | None => "" end)])%list)
  | Raise exc =>
      if is_Exception exc
      then (Ok (ExecutionResult.make false (str_exn exc) qty None),
            (sent ++ [LoggedOrderSubmissionFailed (str_exn exc) symbol])%list)
      else (Raise exc, sent)
  end.

(** Upward cross, downward cross, and the verdict on the four averages the
    code reads: the short and the long one of the bar before the last, and
    of the last bar. *)
Definition crosses_up (prev_short prev_long curr_short curr_long : pyfloat) : bool :=
  fle prev_short prev_long && fgt curr_short curr_long.
Definition crosses_down (prev_short prev_long curr_short curr_long : pyfloat) : bool :=
  fge prev_short prev_long && flt curr_short curr_long.
Definition verdict (prev_short prev_long curr_short curr_long : pyfloat) : string :=
  if crosses_up prev_short prev_long curr_short curr_long then "BUY"
  else if crosses_down prev_short prev_long curr_short curr_long then "SELL"
  else "HOLD".

(** The relative spread [|short - long| / long], taken as 0 when [long] is 0. *)
Definition relative_spread (short long : pyfloat) : pyfloat :=
  if is_zero long then Fin 0
  else Binary64.div_nz (fabs (Binary64.sub short long)) long.

(** [min(0.99, round(0.5 + spread * 10, 2))] *)
Definition confidence_of_spread (spread : pyfloat) : pyfloat :=
  pymin (Binary64.lit 0.99)
    (Binary64.round (Binary64.add (Binary64.lit 0.5) (Binary64.mul spread (Fin 10))) 2%nat).

(** 0.5 for HOLD, the spread formula for BUY and SELL. *)
Definition confidence (verdict : string) (curr_short curr_long : pyfloat) : pyfloat :=
  if (verdict =? "HOLD")%string then Binary64.lit 0.5
  else confidence_of_spread (relative_spread curr_short curr_long).

End Rounded.

(** ** Sample inputs *)

(** Bars that close at the given prices. *)
Definition bars (closes : list Q) : DataFrame :=
  map (fun c => PriceBar.make (lit c) (lit c) (lit c) (lit c) (Fin 1000)) closes.

(** A timestamp for the samples. *)
Definition sample_now : string := "2024-01-02T15:00:00+00:00".

(** The smallest configuration the constructor accepts around a window of
    one bar, and two ordinary ones. *)
Definition windows_0_1 : MovingAverageCrossoverStrategy.t :=
  MovingAverageCrossoverStrategy.make 0 1.
Definition windows_1_2 : MovingAverageCrossoverStrategy.t :=
  MovingAverageCrossoverStrategy.make 1 2.

(** The defaults of [config/settings.py], with credentials filled in. *)
Definition sample_settings : Settings.t :=
  Settings.make "key" "secret" "SPY" "6mo" 20 50 (lit 0.05) 2 (lit 0.02) (lit 0.03).

Definition sample_account : AccountSnapshot.t :=
  AccountSnapshot.make (Fin 100000) (Some (Fin 0)) (Some (Fin 0)).

(** A broker that accepts every order, and one that refuses every order. *)
Definition accepting_broker : Broker.t :=
  Broker.make (Ok sample_account) (Ok [])
    (fun _ _ _ => Ok (OrderHandle.make (Some "order-1"))).
Definition refusing_broker : Broker.t :=
  Broker.make (Ok sample_account) (Ok [])
    (fun _ _ _ => Raise (Exn "APIError" "insufficient buying power")).

Definition sample_hold : StrategySignal.t :=
  StrategySignal.make "SPY" "HOLD" (lit 0.5) sample_now.
Definition sample_approval : RiskDecision.t :=
  RiskDecision.make true "Approved" (Fin 5000) (lit 0.02).

Definition sample_clock : Clock.t :=
  Clock.make sample_now (Datetime.make_date 2024 1 2).

(** A market data source with two bars only, and one whose last bar makes
    the one-bar average cross above the two-bar average at a price of 100. *)
Definition short_feed (symbol period : string) : result DataFrame :=
  Ok (bars [100; 101]%Q).
Definition crossing_feed (symbol period : string) : result DataFrame :=
  Ok (bars [99; 99; 100]%Q).
Definition crossing_settings : Settings.t :=
  Settings.make "key" "secret" "SPY" "6mo" 1 2 (lit 0.05) 2 (lit 0.02) (lit 0.03).

(** Samples in binary64: bars that close at the given decimal prices, a BUY
    signal, an approval of a given position value, and the settings of the
    one- and two-bar averages. *)
Definition decimal_bars (closes : list Q) : DataFrame :=
  map (fun c => PriceBar.make (Binary64.lit c) (Binary64.lit c) (Binary64.lit c)
                  (Binary64.lit c) (Fin 1000)) closes.
Definition buy_signal : StrategySignal.t :=
  StrategySignal.make "SPY" "BUY" (Binary64.lit 0.55) sample_now.
Definition approval_of (max_position_value : pyfloat) : RiskDecision.t :=
  RiskDecision.make true "Approved" max_position_value (Binary64.lit 0.02).
Definition decimal_settings : Settings.t :=
  Settings.make "key" "secret" "SPY" "6mo" 1 2 (Binary64.lit 0.05) 2
    (Binary64.lit 0.02) (Binary64.lit 0.03).

(** A rolling mean for the samples: nan until the window is full, then the
    bars of the window added up in binary64, oldest first, and divided by
    their number.  On the sample histories every such sum is exact, so that
    any way of adding gives these means. *)
Definition windowed_mean (window : Z) (xs : list pyfloat) : result (list pyfloat) :=
  if window <? 0
  then Raise MovingAverageCrossoverStrategy.negative_window
  else
    Ok (map
          (fun i =>
             if (window <=? 0) || (Z.of_nat i + 1 <? window) then NaN
             else
               let w := MovingAverageCrossoverStrategy.window_at window xs i in
               if existsb MovingAverageCrossoverStrategy.is_nan w then NaN
               else Binary64.div_nz (fold_left Binary64.add w (Fin 0)) (of_Z window))
          (seq 0 (List.length xs))).

(** A broker whose [submit_order] is interrupted from the keyboard. *)
Definition interrupted_broker : Broker.t :=
  Broker.make (Ok sample_account) (Ok [])
    (fun _ _ _ => Raise (Exn "KeyboardInterrupt" "")).

(** ** The broker adapter ([broker/alpaca_adapter.py]) *)

Module AlpacaAdapter.

(** [s.upper()] and [s.lower()] on ASCII letters; other characters are
    kept. *)
Definition upper_char (c : ascii) : ascii :=
  let n := nat_of_ascii c in
  if ((97 <=? n) && (n <=? 122))%nat then ascii_of_nat (n - 32) else c.
Definition lower_char (c : ascii) : ascii :=
  let n := nat_of_ascii c in
  if ((65 <=? n) && (n <=? 90))%nat then ascii_of_nat (n + 32) else c.

Fixpoint upper (s : string) : string :=
  match s with
  | EmptyString => EmptyString
  | String c rest => String (upper_char c) (upper rest)
  end.
Fixpoint lower (s : string) : string :=
  match s with
  | EmptyString => EmptyString
  | String c rest => String (lower_char c) (lower rest)
  end.

Inductive OrderSide : Type := BUY | SELL.
Inductive TimeInForce : Type := DAY | GTC.

Record MarketOrderRequest : Type := make_request {
  symbol : string;
  qty : pyfloat;
  side : OrderSide;
  time_in_force : TimeInForce
}.

(** What an adapter does to the outside world.  A [TradingClient] is known
    by its rank among the clients built so far. *)
Inductive effect : Type :=
| BuiltClient (client : nat)
| Called (client : nat) (operation : string) (order : option MarketOrderRequest)
| LoggedApiError (operation : string) (attempt : Z) (error : string)
| Slept (seconds : pyfloat).

(** The adapter's constants. *)
Record t : Type := make {
  api_key : string;
  secret_key : string;
  paper : bool;
  max_retries : Z;
  retry_wait_seconds : pyfloat
}.

(** [self._client], and the world around the adapter: how many clients
    were built, how many requests were made, and what happened, in order. *)
Record state : Type := make_state {
  client : nat;
  built : nat;
  requests : nat;
  effects : list effect
}.

(** A method of the adapter. *)
Definition Ad (A : Type) : Type := state -> result A * state.

(** What the Alpaca API answers to a request: it may depend on the client
    the request goes through and on how many requests came before. *)
Definition api (A : Type) : Type := nat -> nat -> result A.

Definition record (e : effect) (st : state) : state :=
  make_state (client st) (built st) (requests st) (effects st ++ [e])%list.

(** [self._client = self._build_client()] *)
Definition rebuild_client (st : state) : state :=
  make_state (built st) (S (built st)) (requests st)
    (effects st ++ [BuiltClient (built st)])%list.

(** One request through the client [through]. *)
Definition request {A : Type} (answer : api A) (operation : string)
    (order : option MarketOrderRequest) (through : nat) : Ad A :=
  fun st =>
    (answer through (requests st),
     make_state (client st) (built st) (S (requests st))
       (effects st ++ [Called through operation order])%list).

(** [__init__]: the first client is built at once. *)
Definition init (api_key secret_key : string) (paper : bool) (max_retries : Z)
    (retry_wait_seconds : pyfloat) : result (t * state) :=
  if (api_key =? "")%string || (secret_key =? "")%string
  then Raise (ValueError "ALPACA_API_KEY and ALPACA_SECRET_KEY are required.")
  else Ok (make api_key secret_key paper max_retries retry_wait_seconds,
           rebuild_client (make_state 0 0 0 [])).

(** [except APIError] *)
Definition is_api_error (exc : exn) : bool :=
  match exc with Exn cls _ => (cls =? "APIError")%string end.

(** [range(start, stop)] *)
Definition range (start stop : Z) : list Z :=
  map (fun k => start + Z.of_nat k) (seq 0 (Z.to_nat (stop - start))).

(** The loop of [_with_retry] over the attempts that are left.  The method
    returns what [fn] returns; when the loop runs out it returns [None].  A
    pause that [time.sleep] refuses ends the loop with that exception. *)
Fixpoint retry_loop {A : Type} (self : t) (operation_name : string) (fn : Ad A)
    (attempts : list Z) : Ad (option A) :=
  match attempts with
  | [] => fun st => (Ok None, st)
  | attempt :: later =>
      fun st =>
        match fn st with
        | (Ok a, st1) => (Ok (Some a), st1)
        | (Raise exc, st1) =>
            if is_api_error exc then
              let st2 := record (LoggedApiError operation_name attempt (str_exn exc)) st1 in
              if attempt >=? max_retries self then (Raise exc, st2)
              else
                let st3 := rebuild_client st2 in
                match Time.sleep (retry_wait_seconds self) with
                | Ok _ =>
                    let st4 := record (Slept (retry_wait_seconds self)) st3 in
                    retry_loop self operation_name fn later st4
                | Raise refused => (Raise refused, st3)
                end
            else (Raise exc, st1)
        end
  end.

(** [_with_retry] *)
Definition with_retry {A : Type} (self : t) (operation_name : string) (fn : Ad A) :
    Ad (option A) :=
  retry_loop self operation_name fn (range 1 (max_retries self + 1)).

(** [get_account], [get_positions], [get_open_orders]: the method of the
    client is looked up once, before the retries. *)
Definition get_account (self : t) (answer : api AccountSnapshot.t) :
    Ad (option AccountSnapshot.t) :=
  fun st =>
    let bound := client st in
    with_retry self "get_account" (request answer "get_account" None bound) st.

Definition get_positions {Positions : Type} (self : t) (answer : api Positions) :
    Ad (option Positions) :=
  fun st =>
    let bound := client st in
    with_retry self "get_positions" (request answer "get_all_positions" None bound) st.

Definition get_open_orders (self : t) (answer : api (list OrderRecord.t)) :
    Ad (option (list OrderRecord.t)) :=
  fun st =>
    let bound := client st in
    with_retry self "get_open_orders" (request answer "get_orders" None bound) st.

(** The request [submit_order] builds. *)
Definition order_request (symbol : string) (qty : pyfloat) (side : string)
    (time_in_force : string) : MarketOrderRequest :=
  let side_enum := if (upper side =? "BUY")%string then BUY else SELL in
  let tif_enum := if (lower time_in_force =? "day")%string then DAY else GTC in
  make_request symbol qty side_enum tif_enum.

(** [submit_order]: the request is built once; the client is looked up at
    each attempt. *)
Definition submit_order (self : t) (answer : MarketOrderRequest -> api OrderHandle.t)
    (symbol : string) (qty : pyfloat) (side : string) (time_in_force : string) :
    Ad (option OrderHandle.t) :=
  let order_request := order_request symbol qty side time_in_force in
  with_retry self "submit_order"
    (fun st => request (answer order_request) "submit_order" (Some order_request)
                 (client st) st).

(** [cancel_order] *)
Definition cancel_order {Cancelled : Type} (self : t) (answer : string -> api Cancelled)
    (order_id : string) : Ad (option Cancelled) :=
  with_retry self "cancel_order"
    (fun st => request (answer order_id) "cancel_order_by_id" None (client st) st).

(** What [TradeExecutor] gets back from [broker.submit_order(symbol=...,
    qty=..., side=...)] when the adapter is in state [st]; an order that is
    [None] has no identifier. *)
Definition submit_through (self : t) (answer : MarketOrderRequest -> api OrderHandle.t)
    (st : state) (symbol : string) (qty : pyfloat) (side : string) :
    result OrderHandle.t :=
  match fst (submit_order self answer symbol qty side "day" st) with
  | Ok (Some order) => Ok order
  | Ok None => Ok (OrderHandle.make None)
  | Raise exc => Raise exc
  end.

(** The client the attempt after [k] failed ones finds in [self._client]. *)
Definition current_client (st : state) (k : nat) : nat :=
  match k with
  | O => client st
  | S k' => built st + k'
  end.

(** What [k] failed attempts leave behind, the first being attempt number
    [first]: a request, a log record, a new client and a pause each. *)
Definition failed_attempts (self : t) (operation_name operation : string)
    (order : option MarketOrderRequest) (through : nat -> nat) (errors : nat -> string)
    (st : state) (first : Z) (k : nat) : list effect :=
  flat_map
    (fun i =>
       [ Called (through i) operation order;
         LoggedApiError operation_name (first + Z.of_nat i) (errors i);
         BuiltClient (built st + i);
         Slept (retry_wait_seconds self) ])
    (seq 0 k).

End AlpacaAdapter.

(** ** Market data ([data/market_data.py]) *)

Module MarketDataProvider.

Definition REQUIRED_COLUMNS : list string := ["Open"; "High"; "Low"; "Close"; "Volume"].

(** The column labels of a downloaded frame: plain names, or the tuples of
    a [MultiIndex]. *)
Inductive columns_index : Type :=
| Index (names : list string)
| MultiIndex (tuples : list (list string)).

(** A frame of floats: its column labels, its row labels, and its rows,
    each with one value per column. *)
Record RawFrame : Type := make_raw {
  raw_columns : columns_index;
  raw_index : list Datetime.t;
  raw_values : list (list pyfloat)
}.

Record Frame : Type := make_frame {
  columns : list string;
  index : list Datetime.t;
  values : list (list pyfloat)
}.

(** [raw_df.empty]: no row, or no column. *)
Definition empty (raw_df : RawFrame) : bool :=
  match raw_index raw_df, raw_columns raw_df with
  | [], _ => true
  | _, Index [] => true
  | _, MultiIndex [] => true
  | _, _ => false
  end.

(** The labels after [raw_df.columns = [col[0] for col in raw_df.columns]],
    which is done for a [MultiIndex] only. *)
Definition flat_labels (raw_df : RawFrame) : list string :=
  match raw_columns raw_df with
  | Index names => names
  | MultiIndex tuples => map (fun col => hd "" col) tuples
  end.

(** The positions, counted from [start], of the columns labelled [col]. *)
Fixpoint positions_from (start : nat) (col : string) (labels : list string) : list nat :=
  match labels with
  | [] => []
  | label :: rest =>
      if (label =? col)%string
      then start :: positions_from (S start) col rest
      else positions_from (S start) col rest
  end.

(** [raw_df[cols]]: for each requested label in turn, every column that
    carries it. *)
Definition select (cols labels : list string) : list nat :=
  flat_map (fun col => positions_from 0 col labels) cols.

Definition take (positions : list nat) (row : list pyfloat) : list pyfloat :=
  map (fun p => nth p row NaN) positions.

(** A row [dropna(how="any")] keeps. *)
Definition complete (row : list pyfloat) : bool :=
  negb (existsb MovingAverageCrossoverStrategy.is_nan row).

(** [repr] of a list of plain names. *)
Definition repr_names (names : list string) : string :=
  "[" ++ String.concat ", " (map (fun n => "'" ++ n ++ "'") names) ++ "]".

(** [get_ohlcv], from the frame the download returned.  The row labels are
    taken as timestamps already; the log record is left out. *)
Definition get_ohlcv (raw_df : RawFrame) (symbol : string) : result Frame :=
  if empty raw_df
  then Raise (ValueError ("No data received for symbol=" ++ symbol))
  else
    let labels := flat_labels raw_df in
    let missing_cols :=
      filter (fun col => negb (existsb (String.eqb col) labels)) REQUIRED_COLUMNS in
    match missing_cols with
    | _ :: _ =>
        Raise (ValueError ("Missing expected OHLCV columns: " ++ repr_names missing_cols))
    | [] =>
        let positions := select REQUIRED_COLUMNS labels in
        let rows := combine (raw_index raw_df) (map (take positions) (raw_values raw_df)) in
        let kept := filter (fun row => complete (snd row)) rows in
        Ok (make_frame (map (fun p => nth p labels "") positions)
              (map fst kept) (map snd kept))
    end.

End MarketDataProvider.

(** ** Structured logs ([as_dict] of the data contracts, [JsonFormatter]) *)

Module Json.

(** A value a log record carries. *)
Inductive value : Type :=
| Str (s : string)
| Num (x : pyfloat)
| Boolean (b : bool)
| Null.

(** A dict: its items in insertion order, each key once. *)
Definition dict : Type := list (string * value).

(** [d.get(key)] *)
Fixpoint get (d : dict) (key : string) : option value :=
  match d with
  | [] => None
  | (k, v) :: rest => if (k =? key)%string then Some v else get rest key
  end.

(** [d[key] = v]: a key that is there keeps its place. *)
Fixpoint set (d : dict) (key : string) (v : value) : dict :=
  match d with
  | [] => [(key, v)]
  | (k, w) :: rest =>
      if (k =? key)%string then (k, v) :: rest else (k, w) :: set rest key v
  end.

(** A dict display [{k1: v1, ..., **other}]: the items are set in order. *)
Definition display (items : list (string * value)) : dict :=
  fold_left (fun d item => set d (fst item) (snd item)) items [].

Definition keys (d : dict) : list string := map fst d.

Definition of_option (o : option string) : value :=
  match o with
  | Some s => Str s
  | None => Null
  end.

(** [StrategySignal.as_dict], [RiskDecision.as_dict], [ExecutionResult.as_dict] *)
Definition signal_as_dict (self : StrategySignal.t) : dict :=
  [ ("symbol", Str (StrategySignal.symbol self));
    ("signal", Str (StrategySignal.signal self));
    ("confidence", Num (StrategySignal.confidence self));
    ("timestamp", Str (StrategySignal.timestamp self)) ].

Definition decision_as_dict (self : RiskDecision.t) : dict :=
  [ ("approved", Boolean (RiskDecision.approved self));
    ("reason", Str (RiskDecision.reason self));
    ("max_position_value", Num (RiskDecision.max_position_value self));
    ("stop_loss_pct", Num (RiskDecision.stop_loss_pct self)) ].

Definition result_as_dict (self : ExecutionResult.t) : dict :=
  [ ("executed", Boolean (ExecutionResult.executed self));
    ("reason", Str (ExecutionResult.reason self));
    ("qty", Num (ExecutionResult.qty self));
    ("order_id", of_option (ExecutionResult.order_id self)) ].

(** A [logging.LogRecord], as far as the formatter reads it: the items of
    [extra] are its additional attributes. *)
Record LogRecord : Type := make_record {
  levelname : string;
  name : string;
  message : string;
  extra : dict
}.

(** [getattr(record, key, None)] for a key that is no attribute of a plain
    record. *)
Definition getattr (record : LogRecord) (key : string) : value :=
  match get (extra record) key with
  | Some v => v
  | None => Null
  end.

(** The optional fields [format] copies. *)
Definition optional_keys : list string :=
  ["symbol"; "signal"; "confidence"; "reason"; "qty"; "order_id"; "error"].

Definition base_keys : list string :=
  ["timestamp"; "level"; "logger"; "message"; "event"].

(** [JsonFormatter.format], up to the payload it hands to [json.dumps];
    [now] is the reading of the clock. *)
Definition format_payload (now : string) (record : LogRecord) : dict :=
  let payload :=
    [ ("timestamp", Str now);
      ("level", Str (levelname record));
      ("logger", Str (name record));
      ("message", Str (message record));
      ("event", getattr record "event") ] in
  fold_left
    (fun payload key =>
       match getattr record key with
       | Null => payload
       | v => set payload key v
       end)
    optional_keys payload.

(** The three records [run] logs, through the logger "trading_engine". *)
Definition info (message : string) (extra : dict) : LogRecord :=
  make_record "INFO" "trading_engine" message extra.

Definition signal_record (signal : StrategySignal.t) : LogRecord :=
  info "signal_generated"
    (display (("event", Str "signal_generated") :: signal_as_dict signal)).

Definition decision_record (risk_decision : RiskDecision.t) : LogRecord :=
  info "risk_decision"
    (display (("event", Str "risk_decision")
              :: ("reason", Str (RiskDecision.reason risk_decision))
              :: decision_as_dict risk_decision)).

Definition result_record (execution_result : ExecutionResult.t) : LogRecord :=
  info "execution_result"
    (display [ ("event", Str "execution_result");
               ("reason", Str (ExecutionResult.reason execution_result));
               ("qty", Num (ExecutionResult.qty execution_result));
               ("order_id", of_option (ExecutionResult.order_id execution_result)) ]).

End Json.

(** A download for one ticker, as yfinance labels it, with a gap in the
    second row; and two order records filled on the sample day. *)
Definition sample_download : MarketDataProvider.RawFrame :=
  MarketDataProvider.make_raw
    (MarketDataProvider.MultiIndex
       [["Close"; "SPY"]; ["High"; "SPY"]; ["Low"; "SPY"]; ["Open"; "SPY"];
        ["Volume"; "SPY"]])
    [Datetime.make (Datetime.make_date 2023 12 28) 0 0 0;
     Datetime.make (Datetime.make_date 2023 12 29) 0 0 0;
     Datetime.make (Datetime.make_date 2024 1 2) 0 0 0]
    [[Fin 101; Fin 102; Fin 99; Fin 100; Fin 5000];
     [NaN; Fin 103; Fin 100; Fin 101; Fin 4000];
     [Fin 103; Fin 104; Fin 101; Fin 102; Fin 6000]].

Definition filled_today : OrderRecord.t :=
  OrderRecord.make (Some (Datetime.make (Datetime.make_date 2024 1 2) 14 30 0)).
Definition busy_broker : Broker.t :=
  Broker.make (Ok sample_account) (Ok [filled_today; filled_today])
    (fun _ _ _ => Ok (OrderHandle.make (Some "order-1"))).

(** An adapter with the constructor's defaults, one that is told not to
    try at all, and the state a new adapter starts in. *)
Definition sample_adapter : AlpacaAdapter.t :=
  AlpacaAdapter.make "key" "secret" true 3 (lit 1.5).
Definition idle_adapter : AlpacaAdapter.t :=
  AlpacaAdapter.make "key" "secret" true 0 (lit 1.5).
Definition fresh_state : AlpacaAdapter.state :=
  AlpacaAdapter.rebuild_client (AlpacaAdapter.make_state 0 0 0 []).

(** An adapter whose pause between attempts is negative. *)
Definition hasty_adapter : AlpacaAdapter.t :=
  AlpacaAdapter.make "key" "secret" true 3 (Fin (-1)).

(** An API that is down, and one that times out twice before it answers. *)
Definition down_api {A : Type} : AlpacaAdapter.api A :=
  fun _ _ => Raise (Exn "APIError" "service unavailable").
Definition down_order_api :
    AlpacaAdapter.MarketOrderRequest -> AlpacaAdapter.api OrderHandle.t :=
  fun _ => down_api.
Definition flaky_order_api :
    AlpacaAdapter.MarketOrderRequest -> AlpacaAdapter.api OrderHandle.t :=
  fun _ _ earlier =>
    if (earlier <? 2)%nat then Raise (Exn "APIError" "timeout")
    else Ok (OrderHandle.make (Some "order-1")).

(** A broker whose orders go through an adapter that was just built. *)
Definition broker_over (adapter : AlpacaAdapter.t)
    (answer : AlpacaAdapter.MarketOrderRequest -> AlpacaAdapter.api OrderHandle.t) :
    Broker.t :=
  Broker.make (Ok sample_account) (Ok [])
    (AlpacaAdapter.submit_through adapter answer fresh_state).

(** A market data source that has nothing for the symbol, and a broker
    whose account endpoint is down. *)
Definition empty_feed (symbol period : string) : result DataFrame :=
  Raise (ValueError ("No data received for symbol=" ++ symbol)).
Definition unreachable_broker : Broker.t :=
  Broker.make (Raise (Exn "APIError" "service unavailable")) (Ok [])
    (fun _ _ _ => Ok (OrderHandle.make (Some "order-1"))).

(** ** Reading a trace *)

(** The orders a stretch of a trace sent to the broker: symbol, quantity, side. *)
Definition submitted_orders (tr : list event) : list (string * pyfloat * string) :=
  flat_map
    (fun e =>
       match e with
       | SubmittedOrder symbol qty side => [(symbol, qty, side)]
       | _ => []
       end)
    tr.

(** The four reasons [RiskEngine.evaluate] gives for a rejection. *)
Definition rejection_reasons : list string :=
  [ "Signal is HOLD"; "Daily trade limit reached"; "Daily loss limit exceeded";
    "Invalid position sizing from equity" ].

(** ** Facts about floats *)

Section FloatFacts.

Lemma Qlt_bool_iff (a b : Q) : Qlt_bool a b = true <-> (a < b)%Q.
Proof.
  unfold Qlt_bool. rewrite negb_true_iff.
  split; intro H.
  - apply Qnot_le_lt. intro Hle. apply Qle_bool_iff in Hle. congruence.
  - destruct (Qle_bool b a) eqn:E; [|reflexivity].
    apply Qle_bool_iff in E. exfalso. exact (Qlt_not_le _ _ H E).
Qed.

Lemma Qle_bool_false_iff (a b : Q) : Qle_bool a b = false <-> (b < a)%Q.
Proof.
  rewrite <- Qlt_bool_iff. unfold Qlt_bool. now rewrite negb_true_iff.
Qed.

(** Comparisons with nan are false. *)
Lemma flt_nan_r (x : pyfloat) : flt x NaN = false.
Proof. now destruct x. Qed.

Lemma fle_nan_r (x : pyfloat) : fle x NaN = false.
Proof. now destruct x. Qed.

Lemma flt_nan_l (x : pyfloat) : flt NaN x = false.
Proof. reflexivity. Qed.

Lemma fle_nan_l (x : pyfloat) : fle NaN x = false.
Proof. reflexivity. Qed.

Lemma flt_irrefl (x : pyfloat) : flt x x = false.
Proof.
  destruct x; simpl; try reflexivity.
  unfold Qlt_bool. apply negb_false_iff, Qle_bool_iff, Qle_refl.
Qed.

Lemma flt_asym (x y : pyfloat) : flt x y = true -> flt y x = false.
Proof.
  destruct x as [a| | |], y as [b| | |]; simpl; try congruence.
  intro H. apply Qlt_bool_iff in H.
  unfold Qlt_bool. apply negb_false_iff, Qle_bool_iff, Qlt_le_weak, H.
Qed.

Lemma flt_fle (x y : pyfloat) : flt x y = true -> fle x y = true.
Proof.
  destruct x as [a| | |], y as [b| | |]; simpl; try congruence.
  intro H. apply Qlt_bool_iff in H. apply Qle_bool_iff, Qlt_le_weak, H.
Qed.

(** A float above zero is not zero, and neither is one that is not [<= 0]. *)
Lemma fgt_zero_not_zero (x : pyfloat) : fgt x (Fin 0) = true -> is_zero x = false.
Proof.
  destruct x as [q| | |]; simpl; try reflexivity.
  intro H. apply Qlt_bool_iff in H.
  destruct (Qeq_bool q 0) eqn:E; [|reflexivity].
  apply Qeq_bool_iff in E. rewrite E in H. exfalso. exact (Qlt_irrefl _ H).
Qed.

Lemma not_fle_zero_not_zero (x : pyfloat) : fle x (Fin 0) = false -> is_zero x = false.
Proof.
  destruct x as [q| | |]; simpl; try reflexivity.
  intro H. apply Qle_bool_false_iff in H.
  destruct (Qeq_bool q 0) eqn:E; [|reflexivity].
  apply Qeq_bool_iff in E. rewrite E in H. exfalso. exact (Qlt_irrefl _ H).
Qed.

Lemma fdiv_not_zero (x y : pyfloat) : is_zero y = false -> fdiv x y = Ok (fdiv_nz x y).
Proof. unfold fdiv. now intros ->. Qed.

(** [min(a, b)] never exceeds [a], whatever [b] is. *)
Lemma pymin_le_l (a b : pyfloat) : a <> NaN -> fle (pymin a b) a = true.
Proof.
  intro Ha. unfold pymin. destruct (flt b a) eqn:E.
  - now apply flt_fle.
  - destruct a as [q| | |]; simpl; try congruence. apply Qle_bool_iff, Qle_refl.
Qed.

End FloatFacts.

(** ** Rounding to decimals, and the confidence formula *)

Section Rounding.

Lemma round_half_even_spec (q : Q) :
  let k := round_half_even q in
  let n := Qnum q in
  let d := Zpos (Qden q) in
  (2 * k - 1) * d <= 2 * n <= (2 * k + 1) * d
  /\ (2 * n = (2 * k + 1) * d -> Z.even k = true)
  /\ (2 * n = (2 * k - 1) * d -> Z.even k = true).
Proof.
  intros k n d. subst k. unfold round_half_even. fold n d.
  assert (Hd : 0 < d) by (subst d; lia).
  pose proof (Z.div_mod n d ltac:(lia)) as Hdm.
  pose proof (Z.mod_pos_bound n d Hd) as Hr.
  set (f := n / d) in *. set (r := n mod d) in *.
  destruct (2 * r ?= d) eqn:C.
  - apply Z.compare_eq in C.
    destruct (Z.even f) eqn:Ev.
    + repeat split; try nia. intros _. exact Ev.
    + repeat split; try nia. intros _. rewrite Z.even_add, Ev. reflexivity.
  - rewrite Z.compare_lt_iff in C. repeat split; nia.
  - rewrite Z.compare_gt_iff in C. repeat split; nia.
Qed.

Lemma round_half_even_mono (a b : Q) :
  (a <= b)%Q -> round_half_even a <= round_half_even b.
Proof.
  intro Hab. unfold Qle in Hab.
  destruct (round_half_even_spec a) as [[La Ua] [Ta Ta']].
  destruct (round_half_even_spec b) as [[Lb Ub] [Tb Tb']].
  set (ka := round_half_even a) in *. set (kb := round_half_even b) in *.
  set (na := Qnum a) in *. set (nb := Qnum b) in *.
  set (da := Zpos (Qden a)) in *. set (db := Zpos (Qden b)) in *.
  assert (Hda : 0 < da) by (subst da; lia).
  assert (Hdb : 0 < db) by (subst db; lia).
  destruct (Z_le_gt_dec ka kb) as [|Hgt]; [assumption|exfalso].
  assert (H1 : (2 * ka - 1) * da * db <= (2 * kb + 1) * db * da) by nia.
  assert (H2 : 2 * ka - 1 <= 2 * kb + 1).
  { assert (0 < da * db) by nia. nia. }
  assert (Hk : ka = kb + 1) by lia.
  assert (Ea : 2 * na = (2 * ka - 1) * da) by nia.
  assert (Eb : 2 * nb = (2 * kb + 1) * db) by nia.
  specialize (Ta' Ea). specialize (Tb Eb).
  rewrite Hk, Z.even_add, Tb in Ta'. discriminate.
Qed.

Lemma round_ndigits_mono (a b : Q) (ndigits : Z) :
  (a <= b)%Q -> (round_ndigits a ndigits <= round_ndigits b ndigits)%Q.
Proof.
  intro Hab. unfold round_ndigits.
  destruct (0 <=? ndigits) eqn:E.
  - apply Z.leb_le in E.
    set (s := inject_Z (10 ^ ndigits)).
    assert (Hs : (0 < s)%Q).
    { subst s. change 0%Q with (inject_Z 0). rewrite <- Zlt_Qlt.
      apply Z.pow_pos_nonneg; lia. }
    rewrite !Qred_correct. unfold Qdiv.
    apply Qmult_le_compat_r.
    + rewrite <- Zle_Qle. apply round_half_even_mono.
      apply Qmult_le_compat_r; [assumption | apply Qlt_le_weak, Hs].
    + apply Qlt_le_weak, Qinv_lt_0_compat, Hs.
  - apply Z.leb_gt in E.
    set (s := inject_Z (10 ^ (- ndigits))).
    assert (Hs : (0 < s)%Q).
    { subst s. change 0%Q with (inject_Z 0). rewrite <- Zlt_Qlt.
      apply Z.pow_pos_nonneg; lia. }
    rewrite !Qred_correct.
    apply Qmult_le_compat_r; [|apply Qlt_le_weak, Hs].
    rewrite <- Zle_Qle. apply round_half_even_mono.
    unfold Qdiv. apply Qmult_le_compat_r; [assumption|].
    apply Qlt_le_weak, Qinv_lt_0_compat, Hs.
Qed.

End Rounding.

Section Monotone.


Lemma fmul_ten_mono (x y : pyfloat) :
  fle x y = true -> fle (fmul x (Fin 10)) (fmul y (Fin 10)) = true.
Proof.
  destruct x as [a| | |], y as [b| | |]; cbn [fle fmul]; try congruence;
    try reflexivity.
  intro H. apply Qle_bool_iff in H. apply Qle_bool_iff.
  rewrite !Qred_correct.
  apply Qmult_le_compat_r; [assumption | discriminate].
Qed.

Lemma fadd_half_mono (x y : pyfloat) :
  fle x y = true -> fle (fadd (lit 0.5) x) (fadd (lit 0.5) y) = true.
Proof.
  destruct x as [a| | |], y as [b| | |]; cbn [fle fadd]; try congruence;
    try reflexivity.
  intro H. apply Qle_bool_iff in H. apply Qle_bool_iff.
  rewrite !Qred_correct.
  apply Qplus_le_r. assumption.
Qed.

Lemma pymin_mono (c : Q) (x y : pyfloat) :
  fle x y = true -> fle (pymin (Fin c) x) (pymin (Fin c) y) = true.
Proof.
  intro H. unfold pymin.
  destruct x as [a| | |], y as [b| | |]; simpl in *; try congruence;
    try (apply Qle_bool_iff, Qle_refl).
  - apply Qle_bool_iff in H.
    destruct (Qlt_bool a c) eqn:Ea, (Qlt_bool b c) eqn:Eb; simpl;
      apply Qle_bool_iff.
    + assumption.
    + apply Qlt_bool_iff in Ea. apply Qlt_le_weak, Ea.
    + apply Qlt_bool_iff in Eb. unfold Qlt_bool in Ea.
      apply negb_false_iff, Qle_bool_iff in Ea.
      exfalso. apply (Qlt_irrefl c).
      apply Qle_lt_trans with a; [assumption|].
      apply Qle_lt_trans with b; assumption.
    + apply Qle_refl.
  - destruct (Qlt_bool a c) eqn:Ea; simpl; apply Qle_bool_iff.
    + apply Qlt_bool_iff in Ea. apply Qlt_le_weak, Ea.
    + apply Qle_refl.
  - destruct (Qlt_bool b c) eqn:Eb; simpl; reflexivity.
Qed.



End Monotone.

(** ** Rounding to binary64 keeps the order *)

Section Binary64Facts.

Import Binary64.

Lemma pow2_pos (e : Z) : (0 < pow2 e)%Q.
Proof. apply Qpower_0_lt. reflexivity. Qed.

Lemma pow2_plus (a b : Z) : (pow2 (a + b) == pow2 a * pow2 b)%Q.
Proof. apply Qpower_plus. discriminate. Qed.

Lemma pow2_le (a b : Z) : a <= b -> (pow2 a <= pow2 b)%Q.
Proof. intro H. apply Qpower_le_compat_l; [exact H | discriminate]. Qed.

Lemma pow2_lt (a b : Z) : a < b -> (pow2 a < pow2 b)%Q.
Proof. intro H. apply Qpower_lt_compat_l; [exact H | reflexivity]. Qed.

Lemma pow2_lt_inv (a b : Z) : (pow2 a < pow2 b)%Q -> a < b.
Proof. intro H. apply (Qpower_lt_compat_l_inv 2); [exact H | reflexivity]. Qed.

Lemma pow2_Z (e : Z) : 0 <= e -> (pow2 e == inject_Z (2 ^ e))%Q.
Proof. intro H. symmetry. apply (Zpower_Qpower 2 e H). Qed.

Lemma times_den (q : Q) : (q * inject_Z (Zpos (Qden q)) == inject_Z (Qnum q))%Q.
Proof. destruct q as [n d]. unfold Qeq. simpl. rewrite Pos.mul_1_r. ring. Qed.

(** [ilog2 q] is the exponent of the power of two at or below [q]. *)
Lemma ilog2_spec (q : Q) :
  (0 < q)%Q -> (pow2 (ilog2 q) <= q)%Q /\ (q < pow2 (ilog2 q + 1))%Q.
Proof.
  intro Hq.
  assert (Hn : 0 < Qnum q) by (unfold Qlt in Hq; simpl in Hq; lia).
  destruct (Z.log2_spec (Qnum q) Hn) as [Ln Un].
  destruct (Z.log2_spec (Zpos (Qden q)) ltac:(lia)) as [Ld Ud].
  pose proof (Z.log2_nonneg (Qnum q)) as Ha.
  pose proof (Z.log2_nonneg (Zpos (Qden q))) as Hb.
  set (a := Z.log2 (Qnum q)) in *. set (b := Z.log2 (Zpos (Qden q))) in *.
  pose proof (times_den q) as Hnd.
  rewrite Zle_Qle in Ln, Ld. rewrite Zlt_Qlt in Un, Ud.
  rewrite <- Z.add_1_r in Un, Ud.
  rewrite <- pow2_Z in Ln, Un, Ld, Ud by lia.
  set (N := inject_Z (Qnum q)) in *. set (D := inject_Z (Zpos (Qden q))) in *.
  assert (Hlow : (pow2 (a - b - 1) <= q)%Q).
  { pose proof (pow2_plus (a - b - 1) (b + 1)) as E.
    replace (a - b - 1 + (b + 1)) with a in E by ring.
    pose proof (pow2_pos (b + 1)). pose proof (pow2_pos (a - b - 1)).
    apply Qnot_lt_le. intro Hc. nra. }
  assert (Hhigh : (q < pow2 (a - b + 1))%Q).
  { pose proof (pow2_plus (a - b + 1) b) as E.
    replace (a - b + 1 + b) with (a + 1) in E by ring.
    pose proof (pow2_pos b). pose proof (pow2_pos (a - b + 1)).
    apply Qnot_le_lt. intro Hc. nra. }
  unfold ilog2. fold a b.
  destruct (Qle_bool (pow2 (a - b)) q) eqn:T.
  - apply Qle_bool_iff in T. split; assumption.
  - apply Qle_bool_false_iff in T.
    replace (a - b - 1 + 1) with (a - b) by ring. split; assumption.
Qed.

Lemma ilog2_le (x y : Q) : (0 < x)%Q -> (x <= y)%Q -> ilog2 x <= ilog2 y.
Proof.
  intros Hx Hxy.
  destruct (ilog2_spec x Hx) as [Lx _].
  destruct (ilog2_spec y (Qlt_le_trans _ _ _ Hx Hxy)) as [_ Uy].
  assert (H : (pow2 (ilog2 x) < pow2 (ilog2 y + 1))%Q) by lra.
  apply pow2_lt_inv in H. lia.
Qed.

Lemma quantum_le (x y : Q) : (0 < x)%Q -> (x <= y)%Q -> quantum x <= quantum y.
Proof. intros Hx Hxy. pose proof (ilog2_le x y Hx Hxy). unfold quantum. lia. Qed.

Lemma round_half_even_Z (z : Z) : round_half_even (inject_Z z) = z.
Proof.
  unfold round_half_even. simpl. rewrite Z.div_1_r, Z.mod_1_r. reflexivity.
Qed.

Lemma round_half_even_le_Z (x : Q) (z : Z) :
  (x <= inject_Z z)%Q -> round_half_even x <= z.
Proof. intro H. rewrite <- (round_half_even_Z z). now apply round_half_even_mono. Qed.

Lemma round_half_even_ge_Z (x : Q) (z : Z) :
  (inject_Z z <= x)%Q -> z <= round_half_even x.
Proof. intro H. rewrite <- (round_half_even_Z z). now apply round_half_even_mono. Qed.

(** A value above zero, counted in units of its quantum, stays below
    [2^53]; above the subnormal range it is at least [2^52]. *)
Lemma scaled_below (q : Q) :
  (0 < q)%Q -> (q / pow2 (quantum q) <= inject_Z (2 ^ 53))%Q.
Proof.
  intro Hq. destruct (ilog2_spec q Hq) as [_ U].
  pose proof (pow2_pos (quantum q)) as Hp.
  apply Qle_shift_div_r; [exact Hp|].
  rewrite <- pow2_Z by lia. rewrite <- pow2_plus.
  assert (H : (pow2 (ilog2 q + 1) <= pow2 (53 + quantum q))%Q)
    by (apply pow2_le; unfold quantum; lia).
  lra.
Qed.

Lemma scaled_above (q : Q) :
  (0 < q)%Q -> quantum q = ilog2 q - 52 ->
  (inject_Z (2 ^ 52) <= q / pow2 (quantum q))%Q.
Proof.
  intros Hq He. destruct (ilog2_spec q Hq) as [L _].
  pose proof (pow2_pos (quantum q)) as Hp.
  apply Qle_shift_div_l; [exact Hp|].
  rewrite <- pow2_Z by lia. rewrite <- pow2_plus.
  replace (52 + quantum q) with (ilog2 q) by lia. exact L.
Qed.

Lemma nearest_below (q : Q) :
  (0 < q)%Q -> (nearest q <= pow2 (quantum q + 53))%Q.
Proof.
  intro Hq. unfold nearest.
  pose proof (round_half_even_le_Z _ _ (scaled_below q Hq)) as H.
  rewrite Zle_Qle in H. rewrite <- pow2_Z in H by lia.
  pose proof (pow2_pos (quantum q)) as Hp.
  rewrite (Z.add_comm (quantum q)), pow2_plus.
  apply Qmult_le_compat_r; [exact H | lra].
Qed.

Lemma nearest_above (q : Q) :
  (0 < q)%Q -> quantum q = ilog2 q - 52 ->
  (pow2 (quantum q + 52) <= nearest q)%Q.
Proof.
  intros Hq He. unfold nearest.
  pose proof (round_half_even_ge_Z _ _ (scaled_above q Hq He)) as H.
  rewrite Zle_Qle in H. rewrite <- pow2_Z in H by lia.
  pose proof (pow2_pos (quantum q)) as Hp.
  rewrite (Z.add_comm (quantum q)), pow2_plus.
  apply Qmult_le_compat_r; [exact H | lra].
Qed.

Lemma nearest_nonneg (q : Q) : (0 < q)%Q -> (0 <= nearest q)%Q.
Proof.
  intro Hq. unfold nearest.
  pose proof (pow2_pos (quantum q)) as Hp.
  assert (H : (inject_Z 0 <= q / pow2 (quantum q))%Q).
  { apply Qle_shift_div_l; [exact Hp|]. change (inject_Z 0) with 0%Q. lra. }
  apply round_half_even_ge_Z in H. rewrite Zle_Qle in H.
  change (inject_Z 0) with 0%Q in H. nra.
Qed.

(** Rounding to the nearest representable value keeps the order. *)
Lemma nearest_mono (x y : Q) :
  (0 < x)%Q -> (x <= y)%Q -> (nearest x <= nearest y)%Q.
Proof.
  intros Hx Hxy.
  assert (Hy : (0 < y)%Q) by lra.
  pose proof (quantum_le x y Hx Hxy) as He.
  destruct (Z.eq_dec (quantum x) (quantum y)) as [E|E].
  - unfold nearest. rewrite E.
    pose proof (pow2_pos (quantum y)) as Hp.
    apply Qmult_le_compat_r; [|lra].
    rewrite <- Zle_Qle. apply round_half_even_mono.
    unfold Qdiv. apply Qmult_le_compat_r; [exact Hxy|].
    apply Qlt_le_weak, Qinv_lt_0_compat, Hp.
  - assert (Hq : quantum y = ilog2 y - 52) by (unfold quantum in *; lia).
    pose proof (nearest_below x Hx) as Hbelow.
    pose proof (nearest_above y Hy Hq) as Habove.
    assert (H : (pow2 (quantum x + 53) <= pow2 (quantum y + 52))%Q)
      by (apply pow2_le; lia).
    lra.
Qed.

Lemma overflow_mono (x y : Q) :
  (x <= y)%Q -> fle (overflow x) (overflow y) = true.
Proof.
  intro Hxy. unfold overflow.
  destruct (Qle_bool (pow2 1024) x) eqn:Tx, (Qle_bool (pow2 1024) y) eqn:Ty;
    cbn [fle]; try reflexivity.
  - apply Qle_bool_iff in Tx. apply Qle_bool_false_iff in Ty. lra.
  - apply Qle_bool_iff. now rewrite !Qred_correct.
Qed.

Lemma overflow_nonneg (x : Q) : (0 <= x)%Q -> fle (Fin 0) (overflow x) = true.
Proof.
  intro Hx. unfold overflow. destruct (Qle_bool (pow2 1024) x); [reflexivity|].
  cbn [fle]. apply Qle_bool_iff. now rewrite Qred_correct.
Qed.

Lemma fle_trans (x y z : pyfloat) :
  fle x y = true -> fle y z = true -> fle x z = true.
Proof.
  destruct x as [a| | |], y as [b| | |], z as [c| | |]; cbn [fle]; try congruence.
  rewrite !Qle_bool_iff. apply Qle_trans.
Qed.

Lemma fle_fopp (x y : pyfloat) : fle x y = true -> fle (fopp y) (fopp x) = true.
Proof.
  destruct x as [a| | |], y as [b| | |]; cbn [fle fopp]; try congruence.
  rewrite !Qle_bool_iff, !Qred_correct. apply Qopp_le_compat.
Qed.

Lemma rnd_mono (x y : Q) : (x <= y)%Q -> fle (rnd x) (rnd y) = true.
Proof.
  intro Hxy. unfold rnd, Qsgn.
  destruct (x ?= 0)%Q eqn:Cx, (y ?= 0)%Q eqn:Cy;
    try rewrite <- Qeq_alt in Cx; try rewrite <- Qlt_alt in Cx;
    try rewrite <- Qgt_alt in Cx; try rewrite <- Qeq_alt in Cy;
    try rewrite <- Qlt_alt in Cy; try rewrite <- Qgt_alt in Cy;
    try (exfalso; lra).
  - reflexivity.
  - apply overflow_nonneg, nearest_nonneg, Cy.
  - change (Fin 0) with (fopp (Fin 0)).
    apply fle_fopp, overflow_nonneg, nearest_nonneg. lra.
  - apply fle_fopp, overflow_mono, nearest_mono; lra.
  - apply fle_trans with (Fin 0).
    + change (Fin 0) with (fopp (Fin 0)).
      apply fle_fopp, overflow_nonneg, nearest_nonneg. lra.
    + apply overflow_nonneg, nearest_nonneg, Cy.
  - apply overflow_mono, nearest_mono; lra.
Qed.

Lemma finish_mono (x y : pyfloat) : fle x y = true -> fle (finish x) (finish y) = true.
Proof.
  destruct x as [a| | |], y as [b| | |]; cbn [fle finish]; try congruence.
  - rewrite Qle_bool_iff. apply rnd_mono.
  - intros _. unfold rnd. destruct (Qsgn a); [reflexivity| |].
    + unfold overflow. now destruct (Qle_bool _ _).
    + unfold overflow. now destruct (Qle_bool _ _).
  - intros _. unfold rnd. destruct (Qsgn b); [reflexivity| |].
    + unfold overflow. now destruct (Qle_bool _ _).
    + unfold overflow. now destruct (Qle_bool _ _).
Qed.

Lemma finish_nonneg (x : pyfloat) :
  fle (Fin 0) x = true -> fle (Fin 0) (finish x) = true.
Proof. intro H. change (Fin 0) with (finish (Fin 0)). now apply finish_mono. Qed.

(** A rounded value is never nan. *)
Lemma rnd_below_inf (q : Q) : fle (rnd q) PInf = true.
Proof.
  unfold rnd. destruct (Qsgn q); [reflexivity| |];
    unfold overflow; now destruct (Qle_bool _ _).
Qed.

Lemma rnd_above_inf (q : Q) : fle NInf (rnd q) = true.
Proof.
  unfold rnd. destruct (Qsgn q); [reflexivity| |];
    unfold overflow; now destruct (Qle_bool _ _).
Qed.

Lemma round_mono (x y : pyfloat) (ndigits : nat) :
  fle x y = true -> fle (round x ndigits) (round y ndigits) = true.
Proof.
  destruct x as [a| | |], y as [b| | |]; cbn [fle round]; try congruence.
  - rewrite Qle_bool_iff. intro H. apply rnd_mono, round_ndigits_mono, H.
  - intros _. apply rnd_below_inf.
  - intros _. apply rnd_above_inf.
Qed.

Lemma mul_ten_mono (x y : pyfloat) :
  fle x y = true -> fle (mul x (Fin 10)) (mul y (Fin 10)) = true.
Proof. intro H. apply finish_mono, fmul_ten_mono, H. Qed.

Lemma add_half_mono (x y : pyfloat) :
  fle x y = true -> fle (add (lit 0.5) x) (add (lit 0.5) y) = true.
Proof.
  intro H. change (lit 0.5) with (Py.lit 0.5). apply finish_mono, fadd_half_mono, H.
Qed.

End Binary64Facts.

(** ** The confidence formula in binary64 *)

Section RoundedConfidence.

Lemma rounded_confidence_mono (s1 s2 : pyfloat) :
  fle s1 s2 = true ->
  fle (Rounded.confidence_of_spread s1) (Rounded.confidence_of_spread s2) = true.
Proof.
  intro H. unfold Rounded.confidence_of_spread.
  assert (E : exists c, Binary64.lit 0.99 = Fin c) by (eexists; vm_compute; reflexivity).
  destruct E as [c ->].
  apply pymin_mono, round_mono, add_half_mono, mul_ten_mono, H.
Qed.

Lemma rounded_confidence_le_max (s : pyfloat) :
  fle (Rounded.confidence_of_spread s) (Binary64.lit 0.99) = true.
Proof.
  unfold Rounded.confidence_of_spread. apply pymin_le_l.
  assert (E : exists c, Binary64.lit 0.99 = Fin c) by (eexists; vm_compute; reflexivity).
  destruct E as [c ->]. discriminate.
Qed.

Lemma rounded_confidence_zero : Rounded.confidence_of_spread (Fin 0) = Binary64.lit 0.5.
Proof. vm_compute. reflexivity. Qed.

Lemma rounded_confidence_nan : Rounded.confidence_of_spread NaN = Binary64.lit 0.99.
Proof. vm_compute. reflexivity. Qed.

Lemma rounded_confidence_ge_half (s : pyfloat) :
  s = NaN \/ fle (Fin 0) s = true ->
  fle (Binary64.lit 0.5) (Rounded.confidence_of_spread s) = true.
Proof.
  intros [->|H].
  - rewrite rounded_confidence_nan. vm_compute. reflexivity.
  - rewrite <- rounded_confidence_zero. now apply rounded_confidence_mono.
Qed.

Lemma fabs_nonneg (x : pyfloat) : x = NaN \/ fle (Fin 0) (fabs x) = true.
Proof.
  destruct x as [q| | |]; [right|right|right|left]; try reflexivity.
  cbn [fabs fle]. apply Qle_bool_iff. rewrite Qred_correct. apply Qabs_nonneg.
Qed.

(** Over a long SMA that is not negative, the relative spread is not
    negative either (or is nan, when an infinity is involved). *)
Lemma rounded_spread_nonneg (short long : pyfloat) :
  fle (Fin 0) long = true ->
  Rounded.relative_spread short long = NaN
  \/ fle (Fin 0) (Rounded.relative_spread short long) = true.
Proof.
  intro Hlong. unfold Rounded.relative_spread.
  destruct (is_zero long) eqn:Hz; [now right|].
  unfold Binary64.div_nz.
  destruct (fabs_nonneg (Binary64.sub short long)) as [E|Hy].
  { rewrite E. now left. }
  destruct (fabs (Binary64.sub short long)) as [a| | |]; cbn [fle] in Hy;
    try discriminate.
  - apply Qle_bool_iff in Hy.
    destruct long as [b| | |]; cbn [fle] in Hlong; try discriminate.
    + apply Qle_bool_iff in Hlong. cbn [is_zero] in Hz.
      assert (Hb : (0 < b)%Q).
      { apply Qle_lteq in Hlong. destruct Hlong as [H|H]; [assumption|].
        symmetry in H. apply Qeq_bool_iff in H. congruence. }
      right. apply finish_nonneg. cbn [fdiv_nz fle]. apply Qle_bool_iff.
      rewrite Qred_correct. apply Qle_shift_div_l; [assumption|].
      now rewrite Qmult_0_l.
    + right. reflexivity.
  - destruct long as [b| | |]; cbn [fle] in Hlong; try discriminate.
    + apply Qle_bool_iff in Hlong. cbn [is_zero] in Hz.
      assert (Hb : (0 < b)%Q).
      { apply Qle_lteq in Hlong. destruct Hlong as [H|H]; [assumption|].
        symmetry in H. apply Qeq_bool_iff in H. congruence. }
      right. cbn [fdiv_nz]. replace (Qsgn b) with Gt by (symmetry; apply Qgt_alt, Hb).
      reflexivity.
    + now left.
Qed.

End RoundedConfidence.

(** ** Indexing from the end, and the rows of the frame *)

Section Frames.

Lemma iloc_from_end {A : Type} (xs : list A) (k : nat) :
  (1 <= k <= List.length xs)%nat ->
  iloc xs (- Z.of_nat k)
  = match nth_error xs (List.length xs - k) with
    | Some a => Ok a
    | None => Raise out_of_bounds
    end.
Proof.
  intros Hk. unfold iloc.
  replace (- Z.of_nat k <? 0) with true by (symmetry; apply Z.ltb_lt; lia).
  replace (Z.of_nat (List.length xs) + - Z.of_nat k <? 0) with false
    by (symmetry; apply Z.ltb_ge; lia).
  replace (Z.of_nat (List.length xs) <=? Z.of_nat (List.length xs) + - Z.of_nat k)
    with false by (symmetry; apply Z.leb_gt; lia).
  simpl.
  replace (Z.to_nat (Z.of_nat (List.length xs) + - Z.of_nat k))
    with (List.length xs - k)%nat by lia.
  reflexivity.
Qed.

Lemma iloc_too_short {A : Type} (xs : list A) (k : nat) :
  (List.length xs < k)%nat -> iloc xs (- Z.of_nat k) = Raise out_of_bounds.
Proof.
  intros Hk. unfold iloc.
  replace (- Z.of_nat k <? 0) with true by (symmetry; apply Z.ltb_lt; lia).
  replace (Z.of_nat (List.length xs) + - Z.of_nat k <? 0) with true
    by (symmetry; apply Z.ltb_lt; lia).
  reflexivity.
Qed.

Lemma nth_error_combine {A B : Type} (xs : list A) (ys : list B) (i : nat) :
  nth_error (combine xs ys) i
  = match nth_error xs i, nth_error ys i with
    | Some a, Some b => Some (a, b)
    | _, _ => None
    end.
Proof.
  revert ys i. induction xs as [|x xs IH]; intros [|y ys] [|i]; simpl; try reflexivity.
  - now destruct (nth_error xs i).
  - apply IH.
Qed.

Lemma nth_error_seq_0 (n i : nat) : (i < n)%nat -> nth_error (seq 0 n) i = Some i.
Proof.
  intro Hi.
  rewrite (nth_error_nth' (seq 0 n) 0%nat) by (now rewrite length_seq).
  now rewrite seq_nth.
Qed.

(** Row [i] of the frame with the two rolling means side by side. *)
Lemma nth_error_rows {A B : Type} (f : nat -> A) (g : nat -> B) (n i : nat) :
  (i < n)%nat ->
  nth_error (combine (map f (seq 0 n)) (map g (seq 0 n))) i = Some (f i, g i).
Proof.
  intro Hi. rewrite nth_error_combine, !nth_error_map, nth_error_seq_0 by assumption.
  reflexivity.
Qed.

Lemma length_rows {A B : Type} (f : nat -> A) (g : nat -> B) (n : nat) :
  List.length (combine (map f (seq 0 n)) (map g (seq 0 n))) = n.
Proof. now rewrite length_combine, !length_map, length_seq, Nat.min_id. Qed.

End Frames.

(** ** The Risk Evaluator *)

Lemma first_match_cons {A : Type} (c : bool) (a : A) (rest : list (bool * A)) (d : A) :
  first_match ((c, a) :: rest) d = if c then a else first_match rest d.
Proof. reflexivity. Qed.

Section RoundedRisk.

Lemma div_not_zero (x y : pyfloat) :
  is_zero y = false -> Binary64.div x y = Ok (Binary64.div_nz x y).
Proof. unfold Binary64.div. now intros ->. Qed.

(** [evaluate] is the rule chain. *)
Lemma rounded_evaluate_rule_chain (self : RiskEngine.t) (signal : string)
    (equity : pyfloat) (today_trades : Z) (daily_pnl : pyfloat) :
  Rounded.evaluate self signal equity today_trades daily_pnl
  = Ok (Rounded.evaluate_rules self signal equity today_trades daily_pnl).
Proof.
  unfold Rounded.evaluate, Rounded.evaluate_rules.
  rewrite !first_match_cons.
  destruct (signal =? "HOLD")%string; [reflexivity|].
  rewrite Z.geb_leb.
  destruct (RiskEngine.max_trades_per_day self <=? today_trades); [reflexivity|].
  fold (RiskRules.daily_loss daily_pnl). fold (Rounded.sizing self equity).
  destruct (fgt equity (Fin 0)) eqn:Hpos; cbn [andb bind].
  - rewrite (div_not_zero _ _ (fgt_zero_not_zero _ Hpos)). cbn [bind].
    fold (Rounded.loss_ratio daily_pnl equity).
    destruct (fgt (Rounded.loss_ratio daily_pnl equity)
                (RiskEngine.max_daily_loss_pct self)); [reflexivity|].
    now destruct (fle (Rounded.sizing self equity) (Fin 0)).
  - now destruct (fle (Rounded.sizing self equity) (Fin 0)).
Qed.

End RoundedRisk.

(** C1. [RiskEngine.evaluate] never raises and returns what the ordered rule
    chain of the design document gives, the first matching rule winning:
    HOLD, then the daily trade limit, then the daily loss limit (tested with
    a strict [>]: a loss ratio equal to the threshold does not reject), then
    the sizing check, then approval with [equity * max_capital_per_position].
    The ratio and the product are the binary64 values the code computes.
    The document's two examples at the loss threshold are included, and one
    where the rounding of the quotient decides: a loss of 0.27 on an equity
    of 9 is rejected at a threshold of 0.03. *)
Theorem evaluate_applies_rules_in_order :
  (forall self signal equity today_trades daily_pnl,
      Rounded.evaluate self signal equity today_trades daily_pnl
      = Ok (Rounded.evaluate_rules self signal equity today_trades daily_pnl))
  /\ (forall self signal equity today_trades daily_pnl,
      Rounded.loss_ratio daily_pnl equity = RiskEngine.max_daily_loss_pct self ->
      RiskDecision.reason
        (Rounded.evaluate_rules self signal equity today_trades daily_pnl)
      <> "Daily loss limit exceeded")
  /\ Rounded.evaluate Rounded.default_engine "BUY" (Fin 100000) 0 (Fin (-3500))
     = Ok (RiskDecision.make false "Daily loss limit exceeded" (Fin 0) (Binary64.lit 0.02))
  /\ Rounded.evaluate Rounded.default_engine "BUY" (Fin 100000) 0 (Fin (-3000))
     = Ok (RiskDecision.make true "Approved" (Fin 5000) (Binary64.lit 0.02))
  /\ Rounded.evaluate Rounded.default_engine "BUY" (Fin 9) 0 (Binary64.lit (-0.27))
     = Ok (RiskDecision.make false "Daily loss limit exceeded" (Fin 0) (Binary64.lit 0.02)).
Proof.
  split; [|split; [|split; [|split]]].
  - exact rounded_evaluate_rule_chain.
  - intros self signal equity today_trades daily_pnl Heq.
    unfold Rounded.evaluate_rules. rewrite !first_match_cons.
    rewrite Heq. unfold fgt at 2. rewrite flt_irrefl, andb_false_r.
    destruct (signal =? "HOLD")%string; [discriminate|].
    destruct (RiskEngine.max_trades_per_day self <=? today_trades); [discriminate|].
    destruct (fle (Rounded.sizing self equity) (Fin 0)); discriminate.
  - vm_compute. reflexivity.
  - vm_compute. reflexivity.
  - vm_compute. reflexivity.
Qed.

(** C9. [count_today_filled_trades] returns the number of order records that
    have a fill timestamp whose date is today's (UTC) date; a record with no
    fill timestamp does not count, and the empty list gives 0. *)
Theorem count_today_filled_trades_is_count (today : Datetime.date) :
  (forall orders,
      RiskEngine.count_today_filled_trades today orders
      = Z.of_nat (List.length (filter (filled_on today) orders)))
  /\ (forall order orders,
      OrderRecord.filled_at order = None ->
      RiskEngine.count_today_filled_trades today (order :: orders)
      = RiskEngine.count_today_filled_trades today orders)
  /\ RiskEngine.count_today_filled_trades today [] = 0.
Proof.
  assert (Hgen : forall orders acc,
             fold_left
               (fun total order =>
                  match OrderRecord.filled_at order with
                  | Some filled_at =>
                      if Datetime.date_eqb (Datetime.date_of filled_at) today
                      then total + 1 else total
                  | None => total
                  end) orders acc
             = acc + Z.of_nat (List.length (filter (filled_on today) orders))).
  { induction orders as [|o os IH]; intro acc; simpl.
    - lia.
    - rewrite IH. unfold filled_on at 2.
      destruct (OrderRecord.filled_at o) as [f|]; [|reflexivity].
      destruct (Datetime.date_eqb (Datetime.date_of f) today); simpl List.length; lia. }
  split; [|split].
  - intro orders. unfold RiskEngine.count_today_filled_trades. now rewrite Hgen.
  - intros order orders Hnone. unfold RiskEngine.count_today_filled_trades.
    rewrite !Hgen. simpl. unfold filled_on at 1. now rewrite Hnone.
  - reflexivity.
Qed.

(** ** The Signal Generator *)

Section GenerateSignal.

Import MovingAverageCrossoverStrategy.

Variable self : MovingAverageCrossoverStrategy.t.
Variable symbol : string.
Variable data : DataFrame.
Variable now : string.

Let n : Z := Z.of_nat (List.length data).

(** With enough bars, at least two of them, and windows pandas accepts,
    [generate_signal] returns the verdict and confidence of the crossover. *)
Lemma generate_signal_returns :
  long_window self <= n -> 0 <= short_window self -> 0 <= long_window self -> 2 <= n ->
  generate_signal self symbol data now
  = Ok (StrategySignal.make symbol (Crossover.verdict self data)
          (Crossover.confidence self data) now).
Proof.
  intros Hlen Hs Hl H2. subst n. unfold generate_signal.
  replace (Z.of_nat (List.length data) <? long_window self) with false
    by (symmetry; apply Z.ltb_ge; lia).
  unfold rolling_mean.
  replace (short_window self <? 0) with false by (symmetry; apply Z.ltb_ge; lia).
  replace (long_window self <? 0) with false by (symmetry; apply Z.ltb_ge; lia).
  cbn [bind]. rewrite length_map.
  set (rows := combine _ _).
  assert (Hrows : List.length rows = List.length data) by apply length_rows.
  change (-2) with (- Z.of_nat 2). change (-1) with (- Z.of_nat 1).
  rewrite !iloc_from_end by lia.
  rewrite Hrows. subst rows.
  rewrite !nth_error_rows by lia.
  cbn [bind].
  unfold Crossover.confidence, Crossover.verdict, Crossover.spread,
    Crossover.crosses_up, Crossover.crosses_down, relative_spread, truthy.
  fold (Crossover.prev_short self data) (Crossover.prev_long self data)
       (Crossover.curr_short self data) (Crossover.curr_long self data).
  destruct (is_zero (Crossover.curr_long self data)) eqn:Hz; cbn [negb bind].
  - destruct (fle _ _ && fgt _ _); [reflexivity|].
    now destruct (fge _ _ && flt _ _).
  - rewrite (fdiv_not_zero _ _ Hz). cbn [bind].
    destruct (fle _ _ && fgt _ _); [reflexivity|].
    now destruct (fge _ _ && flt _ _).
Qed.

(** Every way [generate_signal] can end. *)
Lemma generate_signal_cases :
  (n < long_window self
   /\ generate_signal self symbol data now = Raise InsufficientDataError)
  \/ (long_window self <= n /\ (short_window self < 0 \/ long_window self < 0)
      /\ generate_signal self symbol data now = Raise negative_window)
  \/ (long_window self <= n /\ 0 <= short_window self /\ 0 <= long_window self /\ n < 2
      /\ generate_signal self symbol data now = Raise out_of_bounds)
  \/ (long_window self <= n /\ 0 <= short_window self /\ 0 <= long_window self /\ 2 <= n
      /\ generate_signal self symbol data now
         = Ok (StrategySignal.make symbol (Crossover.verdict self data)
                 (Crossover.confidence self data) now)).
Proof.
  destruct (Z_lt_le_dec n (long_window self)) as [Hshort|Hlen].
  { left. split; [assumption|]. subst n. unfold generate_signal.
    now replace (Z.of_nat (List.length data) <? long_window self) with true
      by (symmetry; apply Z.ltb_lt; lia). }
  right.
  destruct (Z_lt_le_dec (short_window self) 0) as [Hs|Hs].
  { left. repeat split; [assumption|now left|]. subst n. unfold generate_signal.
    replace (Z.of_nat (List.length data) <? long_window self) with false
      by (symmetry; apply Z.ltb_ge; lia).
    unfold rolling_mean.
    now replace (short_window self <? 0) with true by (symmetry; apply Z.ltb_lt; lia). }
  destruct (Z_lt_le_dec (long_window self) 0) as [Hl|Hl].
  { left. repeat split; [assumption|now right|]. subst n. unfold generate_signal.
    replace (Z.of_nat (List.length data) <? long_window self) with false
      by (symmetry; apply Z.ltb_ge; lia).
    unfold rolling_mean.
    replace (short_window self <? 0) with false by (symmetry; apply Z.ltb_ge; lia).
    now replace (long_window self <? 0) with true by (symmetry; apply Z.ltb_lt; lia). }
  right.
  destruct (Z_lt_le_dec n 2) as [H1|H2].
  { left. repeat split; try assumption. subst n. unfold generate_signal.
    replace (Z.of_nat (List.length data) <? long_window self) with false
      by (symmetry; apply Z.ltb_ge; lia).
    unfold rolling_mean.
    replace (short_window self <? 0) with false by (symmetry; apply Z.ltb_ge; lia).
    replace (long_window self <? 0) with false by (symmetry; apply Z.ltb_ge; lia).
    cbn [bind]. rewrite length_map.
    change (-2) with (- Z.of_nat 2).
    rewrite iloc_too_short; [reflexivity|].
    rewrite length_rows. lia. }
  right. repeat split; try assumption.
  now apply generate_signal_returns.
Qed.

End GenerateSignal.

(** C6. The constructor raises the configuration error exactly when
    [short_window >= long_window], and succeeds otherwise. *)
Theorem init_raises_iff_windows_misordered (short_window long_window : Z) :
  (short_window >= long_window ->
   MovingAverageCrossoverStrategy.init short_window long_window = Raise ConfigError)
  /\ (short_window < long_window ->
      MovingAverageCrossoverStrategy.init short_window long_window
      = Ok (MovingAverageCrossoverStrategy.make short_window long_window))
  /\ (MovingAverageCrossoverStrategy.init short_window long_window = Raise ConfigError
      <-> short_window >= long_window).
Proof.
  unfold MovingAverageCrossoverStrategy.init. rewrite Z.geb_leb.
  destruct (long_window <=? short_window) eqn:E.
  - apply Z.leb_le in E. repeat split; try reflexivity; try lia.
  - apply Z.leb_gt in E. repeat split; try reflexivity; try lia; discriminate.
Qed.

Section SignalClaims.

Import MovingAverageCrossoverStrategy.

(** C2, as stated, fails: the configuration [short_window = 0],
    [long_window = 1] is accepted, a history of one bar has [long_window]
    bars, and [generate_signal] returns no signal: reading the previous bar
    raises. *)
Lemma generate_signal_one_bar_raises :
  short_window windows_0_1 < long_window windows_0_1
  /\ long_window windows_0_1 <= Z.of_nat (List.length (bars [100%Q]))
  /\ generate_signal windows_0_1 "SPY" (bars [100%Q]) sample_now = Raise out_of_bounds.
Proof. split; [reflexivity | split; [cbn; lia | reflexivity]]. Qed.

(** While fewer than [window] bars end at position [i], the mean is nan. *)
Lemma sma_incomplete_window (window : Z) (xs : list pyfloat) (i : nat) :
  Z.of_nat i + 1 < window -> sma window xs i = NaN.
Proof.
  intro H. unfold sma.
  replace (Z.of_nat i + 1 <? window) with true by (symmetry; apply Z.ltb_lt; lia).
  now rewrite orb_true_r.
Qed.

(** C10. With [1 <= short_window < long_window] and exactly [long_window]
    bars, the previous bar's long SMA is nan, neither cross test holds, and
    [generate_signal] returns HOLD with confidence 0.5 whatever the closing
    prices are; one bar more and a cross can be detected. *)
Theorem minimum_history_yields_hold
    (self : t) (symbol : string) (data : DataFrame) (now : string) :
  1 <= short_window self < long_window self ->
  Z.of_nat (List.length data) = long_window self ->
  Crossover.prev_long self data = NaN
  /\ Crossover.crosses_up self data = false
  /\ Crossover.crosses_down self data = false
  /\ generate_signal self symbol data now
     = Ok (StrategySignal.make symbol "HOLD" (lit 0.5) now)
  /\ generate_signal windows_1_2 symbol (bars [4; 4; 5]%Q) now
     = Ok (StrategySignal.make symbol "BUY" (lit 0.99) now).
Proof.
  intros Hw Hlen.
  assert (Hnan : Crossover.prev_long self data = NaN).
  { unfold Crossover.prev_long. apply sma_incomplete_window. lia. }
  assert (Hup : Crossover.crosses_up self data = false).
  { unfold Crossover.crosses_up. now rewrite Hnan, fle_nan_r. }
  assert (Hdown : Crossover.crosses_down self data = false).
  { unfold Crossover.crosses_down, fge. now rewrite Hnan, fle_nan_l. }
  repeat split; try assumption.
  rewrite generate_signal_returns by lia.
  unfold Crossover.confidence, Crossover.verdict. now rewrite Hup, Hdown.
Qed.

(** Two bars for a long window of two: HOLD, though the price more than doubles. *)
Lemma minimum_history_yields_hold_witness :
  (1 <= short_window windows_1_2 < long_window windows_1_2
   /\ Z.of_nat (List.length (bars [4; 9]%Q)) = long_window windows_1_2)
  /\ generate_signal windows_1_2 "SPY" (bars [4; 9]%Q) sample_now
     = Ok (StrategySignal.make "SPY" "HOLD" (lit 0.5) sample_now).
Proof.
  split; [cbn; lia|].
  apply (minimum_history_yields_hold windows_1_2 "SPY" (bars [4; 9]%Q) sample_now
           ltac:(cbn; lia) eq_refl).
Defined.

(** C7. A history with fewer than [long_window] bars makes
    [generate_signal] raise the insufficient-data error, whatever the
    configuration; in a cycle the error leaves [run] right after the price
    history was fetched: no signal is logged, the account and the orders are
    not fetched, no risk decision is taken and no order is submitted.  With
    at least [long_window] bars [generate_signal] does not raise this error. *)
Theorem short_history_raises_insufficient_data :
  (forall self symbol data now,
      Z.of_nat (List.length data) < long_window self ->
      generate_signal self symbol data now = Raise InsufficientDataError)
  /\ (forall settings get_ohlcv broker clock data tr,
      Settings.alpaca_api_key settings <> "" ->
      Settings.alpaca_secret_key settings <> "" ->
      Settings.short_window settings < Settings.long_window settings ->
      get_ohlcv (Settings.default_symbol settings) (Settings.history_period settings)
      = Ok data ->
      Z.of_nat (List.length data) < Settings.long_window settings ->
      Main.run settings get_ohlcv broker clock tr
      = (Raise InsufficientDataError,
         (tr ++ [FetchedOhlcv (Settings.default_symbol settings)
                   (Settings.history_period settings)])%list))
  /\ (forall self symbol data now,
      long_window self <= Z.of_nat (List.length data) ->
      generate_signal self symbol data now <> Raise InsufficientDataError).
Proof.
  split; [|split].
  - intros self symbol data now H.
    destruct (generate_signal_cases self symbol data now)
      as [[_ E]|[[? _]|[[? _]|[? _]]]]; [exact E|lia..].
  - intros settings get_ohlcv broker clock data tr Hkey Hsecret Hw Hdata Hlen.
    unfold Main.run, Run_bind, lift, call.
    apply String.eqb_neq in Hkey, Hsecret. rewrite Hkey, Hsecret. cbn [orb].
    unfold init.
    replace (Settings.short_window settings >=? Settings.long_window settings)
      with false by (symmetry; rewrite Z.geb_leb; apply Z.leb_gt; lia).
    rewrite Hdata.
    destruct (generate_signal_cases
                (make (Settings.short_window settings) (Settings.long_window settings))
                (Settings.default_symbol settings) data (Clock.now_iso clock))
      as [[_ E]|[[? _]|[[? _]|[? _]]]]; [|cbn in *; lia..].
    now rewrite E.
  - intros self symbol data now H.
    destruct (generate_signal_cases self symbol data now)
      as [[? _]|[[_ [_ E]]|[[_ [_ [_ [_ E]]]]|[_ [_ [_ [_ E]]]]]]];
      [lia|rewrite E; discriminate..].
Qed.


(** C5, as stated, fails: with closing prices below zero the long SMA is
    negative, the spread is negative, and a BUY carries a confidence below
    0.5. *)
Lemma negative_prices_confidence_below_half :
  generate_signal windows_1_2 "CL=F" (bars [-4; -4; -2]%Q) sample_now
  = Ok (StrategySignal.make "CL=F" "BUY" (lit (-2.83)) sample_now)
  /\ fle (lit 0.5) (lit (-2.83)) = false.
Proof. split; reflexivity. Qed.



(** Two bars against the default long window of fifty: the cycle stops
    after the fetch. *)
Lemma short_history_raises_insufficient_data_witness :
  Main.run sample_settings short_feed accepting_broker sample_clock []
  = (Raise InsufficientDataError, [FetchedOhlcv "SPY" "6mo"]).
Proof.
  exact (proj1 (proj2 short_history_raises_insufficient_data)
           sample_settings short_feed accepting_broker sample_clock (bars [100; 101]%Q) []
           ltac:(discriminate) ltac:(discriminate) eq_refl eq_refl eq_refl).
Defined.

End SignalClaims.

(** ** The Signal Generator in binary64 *)

Section RoundedVerdict.

Variables prev_short prev_long curr_short curr_long : pyfloat.

Let up : bool := Rounded.crosses_up prev_short prev_long curr_short curr_long.
Let down : bool := Rounded.crosses_down prev_short prev_long curr_short curr_long.
Let verdict : string := Rounded.verdict prev_short prev_long curr_short curr_long.

Lemma rounded_verdict_values : verdict = "BUY" \/ verdict = "SELL" \/ verdict = "HOLD".
Proof.
  subst verdict. unfold Rounded.verdict.
  destruct (Rounded.crosses_up _ _ _ _); [now left|].
  destruct (Rounded.crosses_down _ _ _ _); [now right; left|now right; right].
Qed.

Lemma rounded_verdict_buy : verdict = "BUY" <-> up = true.
Proof.
  subst verdict up. unfold Rounded.verdict.
  destruct (Rounded.crosses_up _ _ _ _); [tauto|].
  destruct (Rounded.crosses_down _ _ _ _); split; discriminate.
Qed.

(** An upward and a downward cross exclude each other. *)
Lemma rounded_crosses_exclusive : down = true -> up = false.
Proof.
  subst up down. unfold Rounded.crosses_down, Rounded.crosses_up, fgt.
  rewrite andb_true_iff. intros [_ H].
  apply flt_asym in H. rewrite H. apply andb_false_r.
Qed.

Lemma rounded_verdict_sell : verdict = "SELL" <-> down = true.
Proof.
  split.
  - subst verdict down. unfold Rounded.verdict.
    destruct (Rounded.crosses_up _ _ _ _); [discriminate|].
    destruct (Rounded.crosses_down _ _ _ _); [reflexivity|discriminate].
  - intro H. pose proof (rounded_crosses_exclusive H) as Hup.
    subst verdict up down. unfold Rounded.verdict. now rewrite Hup, H.
Qed.

Lemma rounded_verdict_hold : verdict = "HOLD" <-> up = false /\ down = false.
Proof.
  subst verdict up down. unfold Rounded.verdict.
  destruct (Rounded.crosses_up _ _ _ _);
    [split; [discriminate|intros [? _]; discriminate]|].
  destruct (Rounded.crosses_down _ _ _ _); split; try discriminate; try tauto.
  intros [_ ?]; discriminate.
Qed.

End RoundedVerdict.

Section RoundedSignal.

Import MovingAverageCrossoverStrategy.

Variable rolling_mean : Z -> list pyfloat -> result (list pyfloat).
Variable self : MovingAverageCrossoverStrategy.t.
Variable symbol : string.
Variable data : DataFrame.
Variable now : string.

Let close : list pyfloat := map PriceBar.Close data.

(** What [generate_signal] makes of the two rows it reads. *)
Lemma rounded_signal_from_rows (sma_short sma_long : list pyfloat)
    (prev_short prev_long curr_short curr_long : pyfloat) :
  long_window self <= Z.of_nat (List.length data) ->
  rolling_mean (short_window self) close = Ok sma_short ->
  rolling_mean (long_window self) close = Ok sma_long ->
  iloc (combine sma_short sma_long) (-2) = Ok (prev_short, prev_long) ->
  iloc (combine sma_short sma_long) (-1) = Ok (curr_short, curr_long) ->
  Rounded.generate_signal rolling_mean self symbol data now
  = Ok (StrategySignal.make symbol
          (Rounded.verdict prev_short prev_long curr_short curr_long)
          (Rounded.confidence (Rounded.verdict prev_short prev_long curr_short curr_long)
             curr_short curr_long)
          now).
Proof.
  intros Hlen Hshort Hlong Hprev Hcurr. unfold Rounded.generate_signal.
  replace (Z.of_nat (List.length data) <? long_window self) with false
    by (symmetry; apply Z.ltb_ge; lia).
  fold close. rewrite Hshort, Hlong. cbn [bind]. rewrite Hprev, Hcurr. cbn [bind].
  unfold Rounded.confidence, Rounded.verdict, Rounded.crosses_up, Rounded.crosses_down,
    Rounded.relative_spread, Rounded.confidence_of_spread, truthy.
  destruct (is_zero curr_long) eqn:Hz; cbn [negb bind].
  - destruct (fle _ _ && fgt _ _); [reflexivity|].
    now destruct (fge _ _ && flt _ _).
  - rewrite (div_not_zero _ _ Hz). cbn [bind].
    destruct (fle _ _ && fgt _ _); [reflexivity|].
    now destruct (fge _ _ && flt _ _).
Qed.

(** A signal that was returned came from two such rows. *)
Lemma rounded_signal_inversion (sig : StrategySignal.t) :
  Rounded.generate_signal rolling_mean self symbol data now = Ok sig ->
  exists sma_short sma_long prev_short prev_long curr_short curr_long,
    long_window self <= Z.of_nat (List.length data)
    /\ rolling_mean (short_window self) close = Ok sma_short
    /\ rolling_mean (long_window self) close = Ok sma_long
    /\ iloc (combine sma_short sma_long) (-2) = Ok (prev_short, prev_long)
    /\ iloc (combine sma_short sma_long) (-1) = Ok (curr_short, curr_long)
    /\ sig = StrategySignal.make symbol
               (Rounded.verdict prev_short prev_long curr_short curr_long)
               (Rounded.confidence
                  (Rounded.verdict prev_short prev_long curr_short curr_long)
                  curr_short curr_long)
               now.
Proof.
  intro Hsig.
  destruct (Z.of_nat (List.length data) <? long_window self) eqn:Hlen.
  { unfold Rounded.generate_signal in Hsig. rewrite Hlen in Hsig. discriminate. }
  apply Z.ltb_ge in Hlen.
  destruct (rolling_mean (short_window self) close) as [sma_short|e] eqn:Hshort.
  2: { unfold Rounded.generate_signal in Hsig. fold close in Hsig.
       rewrite Hshort in Hsig.
       destruct (Z.of_nat (List.length data) <? long_window self); discriminate. }
  destruct (rolling_mean (long_window self) close) as [sma_long|e] eqn:Hlong.
  2: { unfold Rounded.generate_signal in Hsig. fold close in Hsig.
       rewrite Hshort, Hlong in Hsig.
       destruct (Z.of_nat (List.length data) <? long_window self); discriminate. }
  destruct (iloc (combine sma_short sma_long) (-2)) as [[prev_short prev_long]|e] eqn:Hprev.
  2: { unfold Rounded.generate_signal in Hsig. fold close in Hsig.
       rewrite Hshort, Hlong in Hsig. cbn [bind] in Hsig. rewrite Hprev in Hsig.
       destruct (Z.of_nat (List.length data) <? long_window self); discriminate. }
  destruct (iloc (combine sma_short sma_long) (-1)) as [[curr_short curr_long]|e] eqn:Hcurr.
  2: { unfold Rounded.generate_signal in Hsig. fold close in Hsig.
       rewrite Hshort, Hlong in Hsig. cbn [bind] in Hsig. rewrite Hprev, Hcurr in Hsig.
       destruct (Z.of_nat (List.length data) <? long_window self); discriminate. }
  exists sma_short, sma_long, prev_short, prev_long, curr_short, curr_long.
  rewrite (rounded_signal_from_rows sma_short sma_long prev_short prev_long
             curr_short curr_long Hlen Hshort Hlong Hprev Hcurr) in Hsig.
  injection Hsig as <-. now repeat split.
Qed.

End RoundedSignal.

Section Rows.

Lemma iloc_exists {A : Type} (xs : list A) (k : nat) :
  (1 <= k <= List.length xs)%nat -> exists x, iloc xs (- Z.of_nat k) = Ok x.
Proof.
  intro Hk. rewrite iloc_from_end by exact Hk.
  destruct (nth_error xs (List.length xs - k)) as [x|] eqn:E; [now exists x|].
  apply nth_error_None in E. lia.
Qed.

(** Row [-k] of two columns side by side. *)
Lemma iloc_rows {A B : Type} (xs : list A) (ys : list B) (k : nat) (x : A) (y : B) :
  (1 <= k <= List.length xs)%nat -> List.length xs = List.length ys ->
  iloc xs (- Z.of_nat k) = Ok x -> iloc ys (- Z.of_nat k) = Ok y ->
  iloc (combine xs ys) (- Z.of_nat k) = Ok (x, y).
Proof.
  intros Hk Hlen Hx Hy.
  rewrite iloc_from_end in Hx by exact Hk.
  rewrite iloc_from_end in Hy by (rewrite <- Hlen; exact Hk).
  rewrite iloc_from_end by (rewrite length_combine, <- Hlen, Nat.min_id; exact Hk).
  rewrite length_combine, <- Hlen, Nat.min_id, nth_error_combine.
  rewrite <- Hlen in Hy.
  destruct (nth_error xs (List.length xs - k)); [|discriminate].
  destruct (nth_error ys (List.length xs - k)); [|discriminate].
  congruence.
Qed.

End Rows.

Section RoundedSignalClaims.

Import MovingAverageCrossoverStrategy.

(** C2, amended. For every configuration with [short_window < long_window]
    and every price history with at least [long_window] bars and at least
    two bars, let the short and the long SMA be the two series pandas'
    rolling mean returns for the closing prices, one value per bar.  Then
    [generate_signal] returns a signal; it is BUY exactly when the previous
    short SMA is [<=] the previous long SMA and the current short SMA is
    [>] the current long SMA, SELL exactly when the previous short SMA is
    [>=] the previous long SMA and the current short SMA is [<] the current
    long SMA, and HOLD in every other case. *)
Theorem generate_signal_detects_crossover
    (rolling_mean : Z -> list pyfloat -> result (list pyfloat))
    (self : t) (symbol : string) (data : DataFrame) (now : string)
    (sma_short sma_long : list pyfloat) :
  short_window self < long_window self ->
  long_window self <= Z.of_nat (List.length data) ->
  2 <= Z.of_nat (List.length data) ->
  rolling_mean (short_window self) (map PriceBar.Close data) = Ok sma_short ->
  rolling_mean (long_window self) (map PriceBar.Close data) = Ok sma_long ->
  List.length sma_short = List.length data ->
  List.length sma_long = List.length data ->
  exists prev_short prev_long curr_short curr_long sig,
    iloc sma_short (-2) = Ok prev_short
    /\ iloc sma_long (-2) = Ok prev_long
    /\ iloc sma_short (-1) = Ok curr_short
    /\ iloc sma_long (-1) = Ok curr_long
    /\ Rounded.generate_signal rolling_mean self symbol data now = Ok sig
    /\ (StrategySignal.signal sig = "BUY"
        <-> fle prev_short prev_long = true /\ fgt curr_short curr_long = true)
    /\ (StrategySignal.signal sig = "SELL"
        <-> fge prev_short prev_long = true /\ flt curr_short curr_long = true)
    /\ (StrategySignal.signal sig = "HOLD"
        <-> ~ (fle prev_short prev_long = true /\ fgt curr_short curr_long = true)
            /\ ~ (fge prev_short prev_long = true /\ flt curr_short curr_long = true)).
Proof.
  intros _ Hlen H2 Hshort Hlong Ls Ll.
  destruct (iloc_exists sma_short 2 ltac:(lia)) as [prev_short Hps].
  destruct (iloc_exists sma_long 2 ltac:(lia)) as [prev_long Hpl].
  destruct (iloc_exists sma_short 1 ltac:(lia)) as [curr_short Hcs].
  destruct (iloc_exists sma_long 1 ltac:(lia)) as [curr_long Hcl].
  pose proof (iloc_rows sma_short sma_long 2 _ _ ltac:(lia) ltac:(lia) Hps Hpl) as Hprev.
  pose proof (iloc_rows sma_short sma_long 1 _ _ ltac:(lia) ltac:(lia) Hcs Hcl) as Hcurr.
  exists prev_short, prev_long, curr_short, curr_long. eexists.
  split; [exact Hps|]. split; [exact Hpl|]. split; [exact Hcs|]. split; [exact Hcl|].
  split.
  - exact (rounded_signal_from_rows rolling_mean self symbol data now sma_short sma_long
             prev_short prev_long curr_short curr_long Hlen Hshort Hlong Hprev Hcurr).
  - cbn [StrategySignal.signal].
    rewrite rounded_verdict_buy, rounded_verdict_sell, rounded_verdict_hold.
    unfold Rounded.crosses_up, Rounded.crosses_down.
    rewrite <- !andb_true_iff, <- !not_true_iff_false.
    tauto.
Qed.

(** A cross on the last of three bars, read by the one- and two-bar averages. *)
Lemma generate_signal_detects_crossover_witness :
  (short_window windows_1_2 < long_window windows_1_2
   /\ long_window windows_1_2 <= Z.of_nat (List.length (decimal_bars [4; 4; 5]%Q))
   /\ 2 <= Z.of_nat (List.length (decimal_bars [4; 4; 5]%Q)))
  /\ exists sig,
      Rounded.generate_signal windowed_mean windows_1_2 "SPY" (decimal_bars [4; 4; 5]%Q)
        sample_now = Ok sig
      /\ StrategySignal.signal sig = "BUY".
Proof.
  split; [cbn; lia|].
  destruct (generate_signal_detects_crossover windowed_mean windows_1_2 "SPY"
              (decimal_bars [4; 4; 5]%Q) sample_now
              [Fin 4; Fin 4; Fin 5] [NaN; Fin 4; Fin (9 # 2)]
              ltac:(cbn; lia) ltac:(cbn; lia) ltac:(cbn; lia)
              ltac:(vm_compute; reflexivity) ltac:(vm_compute; reflexivity)
              eq_refl eq_refl)
    as [prev_short [prev_long [curr_short [curr_long [sig
         [Hps [Hpl [Hcs [Hcl [Hsig [Hbuy _]]]]]]]]]]].
  vm_compute in Hps, Hpl, Hcs, Hcl.
  injection Hps as <-. injection Hpl as <-. injection Hcs as <-. injection Hcl as <-.
  exists sig. split; [exact Hsig|].
  apply Hbuy. split; reflexivity.
Defined.

(** With fewer than two bars (and a long window the history still covers)
    the row before the last does not exist, whatever the rolling mean
    returns: [generate_signal] raises as it reads it. *)
Lemma rounded_signal_needs_two_bars
    (rolling_mean : Z -> list pyfloat -> result (list pyfloat))
    (self : t) (symbol : string) (data : DataFrame) (now : string)
    (sma_short sma_long : list pyfloat) :
  long_window self <= Z.of_nat (List.length data) ->
  Z.of_nat (List.length data) < 2 ->
  rolling_mean (short_window self) (map PriceBar.Close data) = Ok sma_short ->
  rolling_mean (long_window self) (map PriceBar.Close data) = Ok sma_long ->
  List.length sma_short = List.length data ->
  Rounded.generate_signal rolling_mean self symbol data now = Raise out_of_bounds.
Proof.
  intros Hlen H2 Hshort Hlong Ls. unfold Rounded.generate_signal.
  replace (Z.of_nat (List.length data) <? long_window self) with false
    by (symmetry; apply Z.ltb_ge; lia).
  rewrite Hshort, Hlong. cbn [bind].
  change (-2) with (- Z.of_nat 2).
  rewrite iloc_too_short; [reflexivity|].
  rewrite length_combine. lia.
Qed.

(** C5, amended. Every signal [generate_signal] returns is BUY, SELL or
    HOLD; its confidence never exceeds 0.99, and is at least 0.5 whenever
    the signal is HOLD or the current long SMA is not negative; for HOLD it
    is exactly 0.5, and for BUY or SELL it is
    [min(0.99, round(0.5 + spread * 10, 2))], the spread being
    [|short - long| / long], or 0 when the current long SMA is 0; every
    operation is the binary64 one, and the two SMAs are the last values of
    the series pandas' rolling mean returned. *)
Theorem generated_confidence
    (rolling_mean : Z -> list pyfloat -> result (list pyfloat))
    (self : t) (symbol : string) (data : DataFrame) (now : string)
    (sig : StrategySignal.t) (sma_short sma_long : list pyfloat)
    (curr_short curr_long : pyfloat) :
  Rounded.generate_signal rolling_mean self symbol data now = Ok sig ->
  rolling_mean (short_window self) (map PriceBar.Close data) = Ok sma_short ->
  rolling_mean (long_window self) (map PriceBar.Close data) = Ok sma_long ->
  iloc (combine sma_short sma_long) (-1) = Ok (curr_short, curr_long) ->
  (StrategySignal.signal sig = "BUY" \/ StrategySignal.signal sig = "SELL"
   \/ StrategySignal.signal sig = "HOLD")
  /\ fle (StrategySignal.confidence sig) (Binary64.lit 0.99) = true
  /\ (StrategySignal.signal sig = "HOLD" \/ fle (Fin 0) curr_long = true ->
      fle (Binary64.lit 0.5) (StrategySignal.confidence sig) = true)
  /\ (StrategySignal.signal sig = "HOLD" ->
      StrategySignal.confidence sig = Binary64.lit 0.5)
  /\ (StrategySignal.signal sig = "BUY" \/ StrategySignal.signal sig = "SELL" ->
      StrategySignal.confidence sig
      = Rounded.confidence_of_spread (Rounded.relative_spread curr_short curr_long)).
Proof.
  intros Hsig Hshort Hlong Hcurr.
  destruct (rounded_signal_inversion rolling_mean self symbol data now sig Hsig)
    as [ss [sl [ps [pl [cs [cl [_ [Hs [Hl [_ [Hc ->]]]]]]]]]]].
  rewrite Hshort in Hs. injection Hs as <-.
  rewrite Hlong in Hl. injection Hl as <-.
  rewrite Hcurr in Hc. injection Hc as <- <-.
  cbn [StrategySignal.signal StrategySignal.confidence].
  pose proof (rounded_verdict_values ps pl curr_short curr_long) as Hv.
  split; [exact Hv|].
  unfold Rounded.confidence.
  destruct Hv as [Hv|[Hv|Hv]]; rewrite Hv; cbn [String.eqb Ascii.eqb Bool.eqb].
  - repeat split.
    + apply rounded_confidence_le_max.
    + intros [H|H]; [discriminate|].
      apply rounded_confidence_ge_half, rounded_spread_nonneg, H.
    + discriminate.
  - repeat split.
    + apply rounded_confidence_le_max.
    + intros [H|H]; [discriminate|].
      apply rounded_confidence_ge_half, rounded_spread_nonneg, H.
    + discriminate.
  - split; [vm_compute; reflexivity|].
    split; [intros _; vm_compute; reflexivity|].
    split; [reflexivity|].
    intros [H|H]; discriminate.
Qed.

(** A BUY off a spread of 1.65 percent: the sum [0.5 + spread * 10] is the
    binary64 value next above 0.665, and the confidence is 0.67. *)
Lemma generated_confidence_witness :
  Rounded.generate_signal windowed_mean windows_1_2 "SPY"
    (decimal_bars [983.5; 983.5; 1016.5]%Q) sample_now
  = Ok (StrategySignal.make "SPY" "BUY" (Binary64.lit 0.67) sample_now)
  /\ fle (Binary64.lit 0.67) (Binary64.lit 0.99) = true
  /\ fle (Binary64.lit 0.5) (Binary64.lit 0.67) = true.
Proof.
  assert (Hsig : Rounded.generate_signal windowed_mean windows_1_2 "SPY"
                   (decimal_bars [983.5; 983.5; 1016.5]%Q) sample_now
                 = Ok (StrategySignal.make "SPY" "BUY" (Binary64.lit 0.67) sample_now))
    by (vm_compute; reflexivity).
  pose proof (generated_confidence windowed_mean windows_1_2 "SPY"
                (decimal_bars [983.5; 983.5; 1016.5]%Q) sample_now
                (StrategySignal.make "SPY" "BUY" (Binary64.lit 0.67) sample_now)
                [Binary64.lit 983.5; Binary64.lit 983.5; Binary64.lit 1016.5]
                [NaN; Binary64.lit 983.5; Fin 1000]
                (Binary64.lit 1016.5) (Fin 1000)
                Hsig ltac:(vm_compute; reflexivity) ltac:(vm_compute; reflexivity)
                ltac:(vm_compute; reflexivity))
    as [_ [Hmax [Hmin _]]].
  split; [exact Hsig|]. split; [exact Hmax|].
  apply Hmin. right. reflexivity.
Defined.

(** Closing prices below zero, in binary64: a BUY off a long SMA of -3
    carries a confidence of -2.83. *)
Lemma rounded_confidence_below_half :
  Rounded.generate_signal windowed_mean windows_1_2 "CL=F"
    (decimal_bars [-4; -4; -2]%Q) sample_now
  = Ok (StrategySignal.make "CL=F" "BUY" (Binary64.lit (-2.83)) sample_now).
Proof. vm_compute. reflexivity. Qed.

End RoundedSignalClaims.

(** ** The Executor *)

Section ExecutorClaims.

Variable self : TradeExecutor.t.
Variable signal : StrategySignal.t.
Variable risk_decision : RiskDecision.t.
Variable last_price : pyfloat.


End ExecutorClaims.

(** ** The Executor in binary64 *)

Section RoundedExecutor.

Variable self : TradeExecutor.t.
Variable signal : StrategySignal.t.
Variable risk_decision : RiskDecision.t.
Variable last_price : pyfloat.

(** [execute] is the decline chain followed by the submission. *)
Lemma rounded_execute_unfolds (tr : list event) :
  Rounded.execute self signal risk_decision last_price tr
  = match Rounded.declined signal risk_decision last_price with
    | Some result => (Ok result, tr)
    | None =>
        Rounded.submitted (TradeExecutor.broker self) signal
          (Rounded.sized_qty risk_decision last_price) tr
    end.
Proof.
  unfold Rounded.execute, Rounded.declined.
  rewrite !first_match_cons. fold (ExecutionRules.tradable (StrategySignal.signal signal)).
  destruct (negb (RiskDecision.approved risk_decision)); [reflexivity|].
  destruct (negb (ExecutionRules.tradable (StrategySignal.signal signal))); [reflexivity|].
  destruct (fle last_price (Fin 0)) eqn:Hprice; [reflexivity|].
  unfold Run_bind, lift.
  rewrite (div_not_zero _ _ (not_fle_zero_not_zero _ Hprice)).
  fold (Rounded.sized_qty risk_decision last_price).
  destruct (fle (Rounded.sized_qty risk_decision last_price) (Fin 0));
    [reflexivity|].
  cbn [first_match].
  unfold try_except_Exception, Run_bind, call, log, ret, Rounded.submitted.
  destruct (Broker.submit_order _ _ _ _) as [order|exc]; [reflexivity|].
  now destruct (is_Exception exc).
Qed.

(** Either one of the four checks declines, or all four pass. *)
Lemma rounded_declined_cases :
  (exists why,
      Rounded.declined signal risk_decision last_price
      = Some (ExecutionRules.decline why))
  \/ (Rounded.declined signal risk_decision last_price = None
      /\ RiskDecision.approved risk_decision = true
      /\ ExecutionRules.tradable (StrategySignal.signal signal) = true
      /\ fle last_price (Fin 0) = false
      /\ fle (Rounded.sized_qty risk_decision last_price) (Fin 0) = false).
Proof.
  unfold Rounded.declined. rewrite !first_match_cons.
  destruct (RiskDecision.approved risk_decision); [|left; eexists; reflexivity].
  destruct (ExecutionRules.tradable (StrategySignal.signal signal));
    [|left; eexists; reflexivity].
  destruct (fle last_price (Fin 0)); [left; eexists; reflexivity|].
  destruct (fle (Rounded.sized_qty risk_decision last_price) (Fin 0));
    [left; eexists; reflexivity|].
  right. now repeat split.
Qed.

(** X5. [execute] only extends the trace, and sends at most one order.  When
    it sends none, it wrote nothing at all and returns a result that is not
    executed, with qty 0 and no order identifier.  When it sends one, the
    decision was approved, the order carries the signal's symbol and side,
    the side is BUY or SELL, the price passed the [<= 0] test, and the
    quantity is [round(max_position_value / last_price, 4)] and passed the
    [<= 0] test; it is the qty of the result [execute] returns, and
    [execute] raises only what the broker raised that is no [Exception]. *)
Theorem execute_sends_only_vetted_orders (tr : list event) :
  exists outcome new,
    Rounded.execute self signal risk_decision last_price tr
    = (outcome, (tr ++ new)%list)
    /\ match submitted_orders new with
       | [] =>
           new = []
           /\ exists result,
               outcome = Ok result
               /\ ExecutionResult.executed result = false
               /\ ExecutionResult.qty result = Fin 0
               /\ ExecutionResult.order_id result = None
       | [(symbol, qty, side)] =>
           RiskDecision.approved risk_decision = true
           /\ symbol = StrategySignal.symbol signal
           /\ side = StrategySignal.signal signal
           /\ (side = "BUY" \/ side = "SELL")
           /\ fle last_price (Fin 0) = false
           /\ qty = Rounded.sized_qty risk_decision last_price
           /\ fle qty (Fin 0) = false
           /\ match outcome with
              | Ok result => ExecutionResult.qty result = qty
              | Raise exc =>
                  is_Exception exc = false
                  /\ Broker.submit_order (TradeExecutor.broker self) symbol qty side
                     = Raise exc
              end
       | _ => False
       end.
Proof.
  rewrite rounded_execute_unfolds.
  destruct rounded_declined_cases as [[why ->]|[-> [Happ [Htrad [Hprice Hqty]]]]].
  - exists (Ok (ExecutionRules.decline why)), []. rewrite app_nil_r.
    split; [reflexivity|]. split; [reflexivity|].
    exists (ExecutionRules.decline why). now repeat split.
  - assert (Hside : StrategySignal.signal signal = "BUY"
                    \/ StrategySignal.signal signal = "SELL").
    { unfold ExecutionRules.tradable in Htrad. apply orb_true_iff in Htrad.
      destruct Htrad as [H|H]; apply String.eqb_eq in H; auto. }
    unfold Rounded.submitted.
    destruct (Broker.submit_order _ _ _ _) as [order|exc] eqn:Hanswer.
    + eexists; eexists. split; [rewrite <- app_assoc; reflexivity|].
      cbn. now repeat split.
    + destruct (is_Exception exc) eqn:Hcls.
      * eexists; eexists. split; [rewrite <- app_assoc; reflexivity|].
        cbn. now repeat split.
      * eexists; eexists. split; [reflexivity|].
        cbn. now repeat split.
Qed.

End RoundedExecutor.

(** C3. [execute] tries its checks in order: a decision that is not
    approved declines with the decision's reason; else a signal other than
    BUY and SELL declines as unsupported; else a price [<= 0] declines as an
    invalid market price; else [qty = round(max_position_value / last_price, 4)]
    and a [qty <= 0] declines; every decline has qty 0 and touches neither
    the broker nor the log.  Otherwise the order is submitted.  The quotient
    and its rounding are the binary64 values the code computes.  With an
    approved decision of 5000 and a price of 100 the quantity is 50; with a
    price of 0 the result is the invalid-price decline; and a position value
    of 0.5 at a price of 10000 gives a quantity of 0.0001, which is sent. *)
Theorem execute_checks_in_order :
  (forall self signal risk_decision last_price tr,
      Rounded.execute self signal risk_decision last_price tr
      = match Rounded.declined signal risk_decision last_price with
        | Some result => (Ok result, tr)
        | None =>
            Rounded.submitted (TradeExecutor.broker self) signal
              (Rounded.sized_qty risk_decision last_price) tr
        end)
  /\ Rounded.sized_qty (approval_of (Fin 5000)) (Fin 100) = Fin 50
  /\ Rounded.execute (TradeExecutor.make accepting_broker) buy_signal
       (approval_of (Fin 5000)) (Fin 100) []
     = (Ok (ExecutionResult.make true "Order submitted" (Fin 50) (Some "order-1")),
        [SubmittedOrder "SPY" (Fin 50) "BUY";
         LoggedOrderSubmitted "SPY" "BUY" (Fin 50) "order-1"])
  /\ Rounded.execute (TradeExecutor.make accepting_broker) buy_signal
       (approval_of (Fin 5000)) (Fin 0) []
     = (Ok (ExecutionResult.make false "Invalid market price" (Fin 0) None), [])
  /\ Rounded.execute (TradeExecutor.make accepting_broker) buy_signal
       (approval_of (Binary64.lit 0.5)) (Fin 10000) []
     = (Ok (ExecutionResult.make true "Order submitted" (Binary64.lit 0.0001)
              (Some "order-1")),
        [SubmittedOrder "SPY" (Binary64.lit 0.0001) "BUY";
         LoggedOrderSubmitted "SPY" "BUY" (Binary64.lit 0.0001) "order-1"]).
Proof.
  split; [exact rounded_execute_unfolds|].
  split; [vm_compute; reflexivity|].
  split; [vm_compute; reflexivity|].
  split; vm_compute; reflexivity.
Qed.

(** C4, as stated, fails: [execute] catches [Exception], and an exception
    of another class leaves it.  An approved BUY of 50 units whose
    submission is interrupted from the keyboard returns no result: the
    interrupt is raised to the caller. *)
Lemma execute_lets_interrupt_through :
  Broker.submit_order interrupted_broker "SPY" (Fin 50) "BUY"
  = Raise (Exn "KeyboardInterrupt" "")
  /\ Rounded.execute (TradeExecutor.make interrupted_broker) buy_signal
       (approval_of (Fin 5000)) (Fin 100) []
     = (Raise (Exn "KeyboardInterrupt" ""), [SubmittedOrder "SPY" (Fin 50) "BUY"]).
Proof. split; [reflexivity | vm_compute; reflexivity]. Qed.

(** C4, amended. As long as what the broker's [submit_order] raises is an
    [Exception], [execute] never raises: on every input it returns a result.
    When the checks pass and [submit_order] raises an [Exception], the
    result is not executed, its reason is the exception's message, its qty
    is the quantity that was sent, and it has no order identifier; an
    exception of another class is raised to the caller once the order was
    sent. *)
Theorem execute_never_raises :
  (forall self signal risk_decision last_price tr,
      (forall symbol qty side exc,
          Broker.submit_order (TradeExecutor.broker self) symbol qty side = Raise exc ->
          is_Exception exc = true) ->
      exists result tr',
        Rounded.execute self signal risk_decision last_price tr = (Ok result, tr'))
  /\ (forall self signal risk_decision last_price tr exc,
      RiskDecision.approved risk_decision = true ->
      ExecutionRules.tradable (StrategySignal.signal signal) = true ->
      fle last_price (Fin 0) = false ->
      fle (Rounded.sized_qty risk_decision last_price) (Fin 0) = false ->
      Broker.submit_order (TradeExecutor.broker self) (StrategySignal.symbol signal)
        (Rounded.sized_qty risk_decision last_price) (StrategySignal.signal signal)
      = Raise exc ->
      Rounded.execute self signal risk_decision last_price tr
      = if is_Exception exc
        then (Ok (ExecutionResult.make false (str_exn exc)
                    (Rounded.sized_qty risk_decision last_price) None),
              (tr ++ [SubmittedOrder (StrategySignal.symbol signal)
                        (Rounded.sized_qty risk_decision last_price)
                        (StrategySignal.signal signal);
                      LoggedOrderSubmissionFailed (str_exn exc)
                        (StrategySignal.symbol signal)])%list)
        else (Raise exc,
              (tr ++ [SubmittedOrder (StrategySignal.symbol signal)
                        (Rounded.sized_qty risk_decision last_price)
                        (StrategySignal.signal signal)])%list)).
Proof.
  split.
  - intros self signal risk_decision last_price tr Hclass.
    rewrite rounded_execute_unfolds.
    destruct (Rounded.declined signal risk_decision last_price) as [result|].
    + now exists result, tr.
    + unfold Rounded.submitted.
      destruct (Broker.submit_order _ _ _ _) as [order|exc] eqn:Hanswer.
      * eexists; eexists; reflexivity.
      * rewrite (Hclass _ _ _ _ Hanswer). eexists; eexists; reflexivity.
  - intros self signal risk_decision last_price tr exc Happ Htrad Hprice Hqty Hraise.
    rewrite rounded_execute_unfolds. unfold Rounded.declined.
    rewrite !first_match_cons, Happ, Htrad, Hprice, Hqty. cbn [negb first_match].
    unfold Rounded.submitted. rewrite Hraise.
    destruct (is_Exception exc); [now rewrite <- app_assoc|reflexivity].
Qed.

(** A refused order comes back as a result that carries the refusal. *)
Lemma execute_never_raises_witness :
  Rounded.execute (TradeExecutor.make refusing_broker) buy_signal (approval_of (Fin 5000))
    (Fin 100) []
  = (Ok (ExecutionResult.make false "insufficient buying power" (Fin 50) None),
     [SubmittedOrder "SPY" (Fin 50) "BUY";
      LoggedOrderSubmissionFailed "insufficient buying power" "SPY"]).
Proof.
  pose proof (proj2 execute_never_raises (TradeExecutor.make refusing_broker) buy_signal
                (approval_of (Fin 5000)) (Fin 100) []
                (Exn "APIError" "insufficient buying power")
                eq_refl eq_refl eq_refl) as H.
  specialize (H ltac:(vm_compute; reflexivity) ltac:(vm_compute; reflexivity)).
  vm_compute in H. vm_compute. exact H.
Defined.

(** ** Further properties of the Risk Evaluator *)

Section RiskProperties.

Variable self : RiskEngine.t.

(** [evaluate] as the rule chain (the first part of C1, restated for the
    proofs below). *)
Lemma evaluate_rule_chain (signal : string) (equity : pyfloat) (today_trades : Z)
    (daily_pnl : pyfloat) :
  RiskEngine.evaluate self signal equity today_trades daily_pnl
  = Ok (RiskRules.evaluate_rules self signal equity today_trades daily_pnl).
Proof.
  unfold RiskEngine.evaluate, RiskRules.evaluate_rules.
  rewrite !first_match_cons.
  destruct (signal =? "HOLD")%string; [reflexivity|].
  rewrite Z.geb_leb.
  destruct (RiskEngine.max_trades_per_day self <=? today_trades); [reflexivity|].
  fold (RiskRules.daily_loss daily_pnl). fold (RiskRules.sizing self equity).
  destruct (fgt equity (Fin 0)) eqn:Hpos; simpl.
  - rewrite (fdiv_not_zero _ _ (fgt_zero_not_zero _ Hpos)). simpl.
    destruct (fgt (fdiv_nz (RiskRules.daily_loss daily_pnl) equity)
                (RiskEngine.max_daily_loss_pct self)); [reflexivity|].
    now destruct (fle (RiskRules.sizing self equity) (Fin 0)).
  - now destruct (fle (RiskRules.sizing self equity) (Fin 0)).
Qed.


(** The day's loss is zero when the day's P&L is not negative. *)
Lemma daily_loss_of_gain (daily_pnl : pyfloat) :
  fle (Fin 0) daily_pnl = true ->
  exists z, RiskRules.daily_loss daily_pnl = Fin z /\ (z == 0)%Q.
Proof.
  intro Hpnl. unfold RiskRules.daily_loss, pymin.
  destruct (flt (Fin 0) daily_pnl) eqn:Hlt.
  - exists (Qred (Qabs 0)). split; reflexivity.
  - destruct daily_pnl as [q| | |]; cbn [fle flt] in *; try discriminate.
    apply Qle_bool_iff in Hpnl.
    unfold Qlt_bool in Hlt. apply negb_false_iff, Qle_bool_iff in Hlt.
    exists (Qred (Qabs q)). split; [reflexivity|].
    rewrite Qred_correct.
    assert (Hq : (q == 0)%Q) by (apply Qle_antisym; assumption).
    now rewrite Hq.
Qed.

(** X2. A day without a loss never trips the daily loss limit: when
    [daily_pnl >= 0] and the configured [max_daily_loss_pct] is not
    negative, the decision's reason is not "Daily loss limit exceeded",
    whatever the equity is. *)
Theorem gains_never_trip_loss_limit (signal : string) (equity : pyfloat)
    (today_trades : Z) (daily_pnl : pyfloat) (d : RiskDecision.t) :
  fle (Fin 0) daily_pnl = true ->
  flt (RiskEngine.max_daily_loss_pct self) (Fin 0) = false ->
  RiskEngine.evaluate self signal equity today_trades daily_pnl = Ok d ->
  RiskDecision.reason d <> "Daily loss limit exceeded".
Proof.
  intros Hpnl Hpct Hd. rewrite evaluate_rule_chain in Hd. injection Hd as <-.
  destruct (daily_loss_of_gain _ Hpnl) as [z [Hz Hz0]].
  assert (Hrule : fgt equity (Fin 0)
                  && fgt (fdiv_nz (RiskRules.daily_loss daily_pnl) equity)
                       (RiskEngine.max_daily_loss_pct self) = false).
  { destruct (fgt equity (Fin 0)) eqn:Hpos; [|reflexivity]. cbn [andb].
    rewrite Hz. unfold fgt in *.
    destruct (RiskEngine.max_daily_loss_pct self) as [p| | |];
      destruct equity as [e| | |]; cbn [flt fdiv_nz] in *; try discriminate;
      try reflexivity.
    - unfold Qlt_bool in *. apply negb_false_iff, Qle_bool_iff in Hpct.
      apply negb_false_iff, Qle_bool_iff.
      rewrite Qred_correct, Hz0. unfold Qdiv. now rewrite Qmult_0_l.
    - unfold Qlt_bool in *. apply negb_false_iff, Qle_bool_iff in Hpct.
      now apply negb_false_iff, Qle_bool_iff. }
  unfold RiskRules.evaluate_rules. rewrite !first_match_cons, Hrule.
  destruct (signal =? "HOLD")%string; [discriminate|].
  destruct (RiskEngine.max_trades_per_day self <=? today_trades); [discriminate|].
  destruct (fle (RiskRules.sizing self equity) (Fin 0)); discriminate.
Qed.

(** X3. An account without equity is never approved: with a finite
    [max_capital_per_position >= 0] and a finite [equity <= 0], the decision
    is a rejection. *)
Theorem no_equity_no_approval (signal : string) (equity capital : Q)
    (today_trades : Z) (daily_pnl : pyfloat) (d : RiskDecision.t) :
  RiskEngine.max_capital_per_position self = Fin capital ->
  (0 <= capital)%Q ->
  (equity <= 0)%Q ->
  RiskEngine.evaluate self signal (Fin equity) today_trades daily_pnl = Ok d ->
  RiskDecision.approved d = false.
Proof.
  intros Hcap Hc He Hd. rewrite evaluate_rule_chain in Hd. injection Hd as <-.
  assert (Hsize : fle (RiskRules.sizing self (Fin equity)) (Fin 0) = true).
  { unfold RiskRules.sizing. rewrite Hcap. cbn [fmul fle].
    apply Qle_bool_iff. rewrite Qred_correct.
    setoid_replace 0%Q with (0 * capital)%Q by (now rewrite Qmult_0_l).
    now apply Qmult_le_compat_r. }
  unfold RiskRules.evaluate_rules. rewrite !first_match_cons, Hsize.
  destruct (signal =? "HOLD")%string; [reflexivity|].
  destruct (RiskEngine.max_trades_per_day self <=? today_trades); [reflexivity|].
  now destruct (fgt (Fin equity) (Fin 0) && _).
Qed.

End RiskProperties.

(** A trader that made 1500 today on an equity of 100000. *)
Lemma gains_never_trip_loss_limit_witness :
  RiskEngine.evaluate RiskEngine.default "BUY" (Fin 100000) 0 (Fin 1500)
  = Ok sample_approval
  /\ RiskDecision.reason sample_approval <> "Daily loss limit exceeded".
Proof.
  split; [reflexivity|].
  exact (gains_never_trip_loss_limit RiskEngine.default "BUY" (Fin 100000) 0 (Fin 1500)
           sample_approval eq_refl eq_refl eq_refl).
Defined.

(** An account that is 250 in debt. *)
Lemma no_equity_no_approval_witness :
  RiskEngine.evaluate RiskEngine.default "BUY" (Fin (-250)) 0 (Fin 0)
  = Ok (RiskDecision.make false "Invalid position sizing from equity" (Fin 0) (lit 0.02))
  /\ RiskDecision.approved
       (RiskDecision.make false "Invalid position sizing from equity" (Fin 0) (lit 0.02))
     = false.
Proof.
  split; [reflexivity|].
  exact (no_equity_no_approval RiskEngine.default "BUY" (-250) (Qred 0.05) 0 (Fin 0)
           (RiskDecision.make false "Invalid position sizing from equity" (Fin 0) (lit 0.02))
           eq_refl ltac:(discriminate) ltac:(discriminate) eq_refl).
Defined.

Section FillCount.

Variable today : Datetime.date.

Lemma count_fold_from (orders : list OrderRecord.t) (acc : Z) :
  fold_left
    (fun total order =>
       match OrderRecord.filled_at order with
       | Some filled_at =>
           if Datetime.date_eqb (Datetime.date_of filled_at) today
           then total + 1 else total
       | None => total
       end) orders acc
  = acc + RiskEngine.count_today_filled_trades today orders.
Proof.
  unfold RiskEngine.count_today_filled_trades.
  revert acc. induction orders as [|o os IH]; intro acc; cbn [fold_left].
  - lia.
  - rewrite IH, (IH (match OrderRecord.filled_at o with
                     | Some f => if Datetime.date_eqb (Datetime.date_of f) today
                                 then 0 + 1 else 0
                     | None => 0 end)).
    destruct (OrderRecord.filled_at o) as [f|]; [|lia].
    destruct (Datetime.date_eqb (Datetime.date_of f) today); lia.
Qed.

(** X4. The fill count of two order lists put together is the sum of their
    counts, and a count lies between 0 and the number of orders. *)
Theorem count_today_filled_trades_additive (orders1 orders2 : list OrderRecord.t) :
  RiskEngine.count_today_filled_trades today (orders1 ++ orders2)
  = RiskEngine.count_today_filled_trades today orders1
    + RiskEngine.count_today_filled_trades today orders2
  /\ 0 <= RiskEngine.count_today_filled_trades today orders1
       <= Z.of_nat (List.length orders1).
Proof.
  split.
  - unfold RiskEngine.count_today_filled_trades at 1.
    rewrite fold_left_app, count_fold_from.
    fold (RiskEngine.count_today_filled_trades today orders1). lia.
  - induction orders1 as [|o os IH].
    + cbn. lia.
    + unfold RiskEngine.count_today_filled_trades. cbn [fold_left].
      rewrite count_fold_from. cbn [List.length].
      destruct (OrderRecord.filled_at o) as [f|]; [|lia].
      destruct (Datetime.date_eqb (Datetime.date_of f) today); lia.
Qed.

End FillCount.

(** ** Further properties of the Executor *)

Section ExecutorProperties.

Variable self : TradeExecutor.t.
Variable signal : StrategySignal.t.
Variable risk_decision : RiskDecision.t.
Variable last_price : pyfloat.


End ExecutorProperties.

Section NanGuards.



End NanGuards.

(** ** A whole cycle *)

Section Cycle.

Variable settings : Settings.t.
Variable get_ohlcv : string -> string -> result DataFrame.
Variable broker : Broker.t.
Variable clock : Clock.t.

Let symbol : string := Settings.default_symbol settings.
Let fetched : event := FetchedOhlcv symbol (Settings.history_period settings).
Let strategy : MovingAverageCrossoverStrategy.t :=
  MovingAverageCrossoverStrategy.make
    (Settings.short_window settings) (Settings.long_window settings).
Let risk_engine : RiskEngine.t :=
  RiskEngine.make (Settings.max_capital_per_position settings)
    (Settings.max_trades_per_day settings) (Settings.stop_loss_pct settings)
    (Settings.max_daily_loss_pct settings).

(** The cycle up to the signal: credentials, windows, price history. *)
Hypothesis keys_present :
  Settings.alpaca_api_key settings <> "" /\ Settings.alpaca_secret_key settings <> "".
Hypothesis windows_ordered :
  Settings.short_window settings < Settings.long_window settings.

Variable data : DataFrame.
Variable signal : StrategySignal.t.
Hypothesis data_fetched : get_ohlcv symbol (Settings.history_period settings) = Ok data.
Hypothesis signal_generated :
  MovingAverageCrossoverStrategy.generate_signal strategy symbol data (Clock.now_iso clock)
  = Ok signal.

Lemma run_from_signal (tr : list event) :
  Main.run settings get_ohlcv broker clock tr
  = Run_bind (call FetchedAccount (Broker.get_account broker))
      (fun account =>
         Run_bind (call FetchedOpenOrders (Broker.get_open_orders broker))
           (fun open_orders =>
              Run_bind
                (lift (RiskEngine.evaluate risk_engine (StrategySignal.signal signal)
                         (AccountSnapshot.equity account)
                         (RiskEngine.count_today_filled_trades (Clock.today clock)
                            open_orders)
                         (fadd (Main.getattr_or_zero (AccountSnapshot.unrealized_pl account))
                            (Main.getattr_or_zero (AccountSnapshot.realized_pl account)))))
                (fun risk_decision =>
                   Run_bind (log (LoggedRiskDecision risk_decision))
                     (fun _ =>
                        Run_bind (lift (iloc (map PriceBar.Close data) (-1)))
                          (fun last_price =>
                             Run_bind
                               (TradeExecutor.execute (TradeExecutor.make broker) signal
                                  risk_decision last_price)
                               (fun execution_result =>
                                  Run_bind (log (LoggedExecutionResult execution_result))
                                    (fun _ => ret tt)))))))
      (tr ++ [fetched; LoggedSignal signal])%list.
Proof.
  destruct keys_present as [Hkey Hsecret].
  apply String.eqb_neq in Hkey, Hsecret.
  unfold Main.run. unfold Run_bind at 1. unfold lift at 1. rewrite Hkey, Hsecret. cbn [orb].
  unfold Run_bind at 1. unfold lift at 1. unfold MovingAverageCrossoverStrategy.init.
  replace (Settings.short_window settings >=? Settings.long_window settings)
    with false by (symmetry; rewrite Z.geb_leb; apply Z.leb_gt; lia).
  unfold Run_bind at 1. unfold call at 1. fold symbol. rewrite data_fetched.
  unfold Run_bind at 1. unfold lift at 1. fold strategy. rewrite signal_generated.
  unfold Run_bind at 1. unfold log at 1.
  rewrite <- app_assoc. reflexivity.
Qed.

(** A history that gave a signal has a last close. *)
Lemma last_close_exists :
  exists last_price, iloc (map PriceBar.Close data) (-1) = Ok last_price.
Proof.
  destruct (generate_signal_cases strategy symbol data (Clock.now_iso clock))
    as [[_ E]|[[_ [_ E]]|[[_ [_ [_ [_ E]]]]|[_ [_ [_ [H2 _]]]]]]];
    try (rewrite E in signal_generated; discriminate).
  change (-1) with (- Z.of_nat 1).
  rewrite iloc_from_end by (rewrite length_map; lia).
  destruct (nth_error (map PriceBar.Close data) (List.length (map PriceBar.Close data) - 1))
    as [a|] eqn:E; [now exists a|].
  apply nth_error_None in E. rewrite length_map in *. lia.
Qed.

(** A signal [generate_signal] returned is BUY, SELL or HOLD. *)
Lemma generated_signal_values :
  StrategySignal.signal signal = "BUY" \/ StrategySignal.signal signal = "SELL"
  \/ StrategySignal.signal signal = "HOLD".
Proof.
  destruct (generate_signal_cases strategy symbol data (Clock.now_iso clock))
    as [[_ E]|[[_ [_ E]]|[[_ [_ [_ [_ E]]]]|[_ [_ [_ [_ E]]]]]]];
    rewrite E in signal_generated; try discriminate.
  injection signal_generated as <-. cbn [StrategySignal.signal].
  unfold Crossover.verdict.
  destruct (Crossover.crosses_up strategy data); [now left|].
  destruct (Crossover.crosses_down strategy data); [now right; left|now right; right].
Qed.


(** The cycle after the account and the orders came back. *)
Variable account : AccountSnapshot.t.
Variable open_orders : list OrderRecord.t.
Hypothesis account_fetched : Broker.get_account broker = Ok account.
Hypothesis orders_fetched : Broker.get_open_orders broker = Ok open_orders.
Variable last_price : pyfloat.
Hypothesis last_close : iloc (map PriceBar.Close data) (-1) = Ok last_price.

Let decision : RiskDecision.t :=
  RiskRules.evaluate_rules risk_engine (StrategySignal.signal signal)
    (AccountSnapshot.equity account)
    (RiskEngine.count_today_filled_trades (Clock.today clock) open_orders)
    (fadd (Main.getattr_or_zero (AccountSnapshot.unrealized_pl account))
       (Main.getattr_or_zero (AccountSnapshot.realized_pl account))).

Let vetted : list event :=
  [fetched; LoggedSignal signal; FetchedAccount; FetchedOpenOrders;
   LoggedRiskDecision decision].



End Cycle.


(** ** A whole cycle in binary64 *)

Section RoundedCycle.

Variable settings : Settings.t.
Variable get_ohlcv : string -> string -> result DataFrame.
Variable rolling_mean : Z -> list pyfloat -> result (list pyfloat).
Variable broker : Broker.t.
Variable clock : Clock.t.

Let symbol : string := Settings.default_symbol settings.
Let fetched : event := FetchedOhlcv symbol (Settings.history_period settings).
Let strategy : MovingAverageCrossoverStrategy.t :=
  MovingAverageCrossoverStrategy.make
    (Settings.short_window settings) (Settings.long_window settings).
Let risk_engine : RiskEngine.t :=
  RiskEngine.make (Settings.max_capital_per_position settings)
    (Settings.max_trades_per_day settings) (Settings.stop_loss_pct settings)
    (Settings.max_daily_loss_pct settings).

(** The cycle up to the risk decision: credentials, windows, price history,
    signal, account and orders. *)
Hypothesis keys_present :
  Settings.alpaca_api_key settings <> "" /\ Settings.alpaca_secret_key settings <> "".
Hypothesis windows_ordered :
  Settings.short_window settings < Settings.long_window settings.

Variable data : DataFrame.
Variable signal : StrategySignal.t.
Hypothesis data_fetched : get_ohlcv symbol (Settings.history_period settings) = Ok data.
Hypothesis signal_generated :
  Rounded.generate_signal rolling_mean strategy symbol data (Clock.now_iso clock)
  = Ok signal.

Variable account : AccountSnapshot.t.
Variable open_orders : list OrderRecord.t.
Hypothesis account_fetched : Broker.get_account broker = Ok account.
Hypothesis orders_fetched : Broker.get_open_orders broker = Ok open_orders.
Variable last_price : pyfloat.
Hypothesis last_close : iloc (map PriceBar.Close data) (-1) = Ok last_price.

Let today_trades : Z :=
  RiskEngine.count_today_filled_trades (Clock.today clock) open_orders.
Let equity : pyfloat := AccountSnapshot.equity account.
Let daily_pnl : pyfloat :=
  Binary64.add (Main.getattr_or_zero (AccountSnapshot.unrealized_pl account))
               (Main.getattr_or_zero (AccountSnapshot.realized_pl account)).

Let decision : RiskDecision.t :=
  Rounded.evaluate_rules risk_engine (StrategySignal.signal signal) equity today_trades
    daily_pnl.

Let vetted : list event :=
  [fetched; LoggedSignal signal; FetchedAccount; FetchedOpenOrders;
   LoggedRiskDecision decision].

Lemma rounded_run_from_decision (tr : list event) :
  Rounded.run settings get_ohlcv rolling_mean broker clock tr
  = match Rounded.execute (TradeExecutor.make broker) signal decision last_price
            (tr ++ vetted)%list with
    | (Ok execution_result, tr') =>
        (Ok tt, (tr' ++ [LoggedExecutionResult execution_result])%list)
    | (Raise exc, tr') => (Raise exc, tr')
    end.
Proof.
  destruct keys_present as [Hkey Hsecret].
  apply String.eqb_neq in Hkey, Hsecret.
  unfold Rounded.run. unfold Run_bind at 1. unfold lift at 1. rewrite Hkey, Hsecret.
  cbn [orb].
  unfold Run_bind at 1. unfold lift at 1. unfold MovingAverageCrossoverStrategy.init.
  replace (Settings.short_window settings >=? Settings.long_window settings)
    with false by (symmetry; rewrite Z.geb_leb; apply Z.leb_gt; lia).
  unfold Run_bind at 1. unfold call at 1. fold symbol. rewrite data_fetched.
  unfold Run_bind at 1. unfold lift at 1. fold strategy. rewrite signal_generated.
  unfold Run_bind at 1. unfold log at 1.
  unfold Run_bind at 1. unfold call at 1. rewrite account_fetched.
  unfold Run_bind at 1. unfold call at 1. rewrite orders_fetched.
  unfold Run_bind at 1. unfold lift at 1. rewrite rounded_evaluate_rule_chain.
  fold risk_engine equity today_trades daily_pnl. fold decision.
  unfold Run_bind at 1. unfold log at 1.
  unfold Run_bind at 1. unfold lift at 1. rewrite last_close.
  unfold Run_bind at 1.
  replace (((((tr ++ [FetchedOhlcv symbol (Settings.history_period settings)])
                ++ [LoggedSignal signal]) ++ [FetchedAccount])
              ++ [FetchedOpenOrders]) ++ [LoggedRiskDecision decision])%list
    with (tr ++ vetted)%list by (subst vetted fetched; now rewrite <- !app_assoc).
  destruct (Rounded.execute _ _ _ _ _) as [[execution_result|exc] tr'];
    reflexivity.
Qed.

(** A signal [generate_signal] returned is BUY, SELL or HOLD, and carries
    the symbol it was asked for. *)
Lemma rounded_signal_values :
  (StrategySignal.signal signal = "BUY" \/ StrategySignal.signal signal = "SELL"
   \/ StrategySignal.signal signal = "HOLD")
  /\ StrategySignal.symbol signal = symbol.
Proof.
  destruct (rounded_signal_inversion rolling_mean strategy symbol data
              (Clock.now_iso clock) signal signal_generated)
    as [ss [sl [ps [pl [cs [cl [_ [_ [_ [_ [_ E]]]]]]]]]]].
  rewrite E. cbn [StrategySignal.signal StrategySignal.symbol].
  split; [apply rounded_verdict_values | reflexivity].
Qed.

(** X9. An approval travels through the cycle: when the risk decision is
    approved and the last close and the sized quantity pass their [<= 0]
    tests, [run] sends the broker exactly one order, for the configured
    symbol, with the signal's side and the quantity
    [round(max_position_value / last_close, 4)].  When the broker accepts,
    the logged execution result is executed with the broker's order
    identifier; when the broker raises an [Exception], the result is not
    executed and carries the error; [run] completes in both cases.  An
    exception of another class leaves [run], and no result is logged. *)
Theorem run_sends_approved_order (tr : list event) :
  RiskDecision.approved decision = true ->
  fle last_price (Fin 0) = false ->
  fle (Rounded.sized_qty decision last_price) (Fin 0) = false ->
  let qty := Rounded.sized_qty decision last_price in
  let side := StrategySignal.signal signal in
  let sent := (tr ++ vetted ++ [SubmittedOrder symbol qty side])%list in
  (side = "BUY" \/ side = "SELL")
  /\ Rounded.run settings get_ohlcv rolling_mean broker clock tr
     = match Broker.submit_order broker symbol qty side with
       | Ok order =>
           (Ok tt,
            (sent
               ++ [LoggedOrderSubmitted symbol side qty
                     (match OrderHandle.id order with Some i => i | None => "" end);
                   LoggedExecutionResult
                     (ExecutionResult.make true "Order submitted" qty
                        (Some (str_opt (OrderHandle.id order))))])%list)
       | Raise exc =>
           if is_Exception exc
           then (Ok tt,
                 (sent
                    ++ [LoggedOrderSubmissionFailed (str_exn exc) symbol;
                        LoggedExecutionResult
                          (ExecutionResult.make false (str_exn exc) qty None)])%list)
           else (Raise exc, sent)
       end.
Proof.
  intros Happ Hprice Hqty qty side sent.
  destruct rounded_signal_values as [Hvalues Hsymbol].
  assert (Hside : side = "BUY" \/ side = "SELL").
  { destruct Hvalues as [H|[H|H]]; [now left|now right|].
    exfalso. subst decision. unfold Rounded.evaluate_rules in Happ.
    rewrite first_match_cons, H in Happ. discriminate. }
  split; [exact Hside|].
  assert (Htrad : ExecutionRules.tradable (StrategySignal.signal signal) = true).
  { unfold ExecutionRules.tradable. fold side. destruct Hside as [-> | ->]; reflexivity. }
  rewrite rounded_run_from_decision, rounded_execute_unfolds.
  unfold Rounded.declined.
  rewrite !first_match_cons, Happ, Htrad, Hprice, Hqty. cbn [negb first_match].
  unfold Rounded.submitted. rewrite Hsymbol.
  cbn [TradeExecutor.broker]. fold qty side. subst sent.
  destruct (Broker.submit_order broker symbol qty side) as [order|exc].
  - now rewrite <- !app_assoc.
  - destruct (is_Exception exc); now rewrite <- !app_assoc.
Qed.

(** X10. The daily limits hold for the whole cycle: when today's filled
    orders among those the broker lists have reached [max_trades_per_day], or
    when the equity is above zero and the binary64 quotient of the day's
    loss by the equity is above [max_daily_loss_pct], the decision is a
    rejection, [run] completes without sending an order, and the execution
    result it logs repeats the decision's reason. *)
Theorem run_respects_daily_limits (tr : list event) :
  Settings.max_trades_per_day settings <= today_trades
  \/ (fgt equity (Fin 0) = true
      /\ fgt (Rounded.loss_ratio daily_pnl equity)
             (Settings.max_daily_loss_pct settings) = true) ->
  RiskDecision.approved decision = false
  /\ In (RiskDecision.reason decision) rejection_reasons
  /\ Rounded.run settings get_ohlcv rolling_mean broker clock tr
     = (Ok tt,
        (tr ++ [fetched; LoggedSignal signal; FetchedAccount; FetchedOpenOrders;
                LoggedRiskDecision decision;
                LoggedExecutionResult
                  (ExecutionResult.make false (RiskDecision.reason decision) (Fin 0)
                     None)])%list).
Proof.
  intros Hlimit.
  assert (Hrej : RiskDecision.approved decision = false
                 /\ In (RiskDecision.reason decision) rejection_reasons).
  { subst decision. unfold Rounded.evaluate_rules. rewrite !first_match_cons.
    cbn [RiskEngine.max_trades_per_day risk_engine RiskEngine.max_daily_loss_pct].
    destruct (StrategySignal.signal signal =? "HOLD")%string; [cbn; tauto|].
    destruct (Settings.max_trades_per_day settings <=? today_trades) eqn:Htrades;
      [cbn; tauto|].
    destruct Hlimit as [H|[Hpos Hloss]]; [apply Z.leb_gt in Htrades; lia|].
    rewrite Hpos, Hloss. cbn. tauto. }
  destruct Hrej as [Hrej Hreason]. split; [exact Hrej|]. split; [exact Hreason|].
  rewrite rounded_run_from_decision, rounded_execute_unfolds.
  unfold Rounded.declined. rewrite first_match_cons, Hrej. cbn [negb].
  subst vetted. now rewrite <- app_assoc.
Qed.

End RoundedCycle.

(** The end-to-end scenario of the design document: an upward cross at a
    last price of 100, an equity of 100000, no trade today, no loss and 5%
    of the equity per position give a BUY, an approval of 5000 and an order
    of 50 units. *)
Lemma run_sends_approved_order_witness :
  Rounded.run decimal_settings crossing_feed windowed_mean accepting_broker sample_clock []
  = (Ok tt,
     [FetchedOhlcv "SPY" "6mo";
      LoggedSignal (StrategySignal.make "SPY" "BUY" (Binary64.lit 0.55) sample_now);
      FetchedAccount;
      FetchedOpenOrders;
      LoggedRiskDecision
        (RiskDecision.make true "Approved" (Fin 5000) (Binary64.lit 0.02));
      SubmittedOrder "SPY" (Fin 50) "BUY";
      LoggedOrderSubmitted "SPY" "BUY" (Fin 50) "order-1";
      LoggedExecutionResult
        (ExecutionResult.make true "Order submitted" (Fin 50) (Some "order-1"))]).
Proof.
  assert (Hkeys : Settings.alpaca_api_key decimal_settings <> ""
                  /\ Settings.alpaca_secret_key decimal_settings <> "")
    by (split; discriminate).
  assert (Hsignal :
            Rounded.generate_signal windowed_mean
              (MovingAverageCrossoverStrategy.make
                 (Settings.short_window decimal_settings)
                 (Settings.long_window decimal_settings))
              (Settings.default_symbol decimal_settings) (bars [99; 99; 100]%Q)
              (Clock.now_iso sample_clock)
            = Ok (StrategySignal.make "SPY" "BUY" (Binary64.lit 0.55) sample_now))
    by (vm_compute; reflexivity).
  assert (Hlast : iloc (map PriceBar.Close (bars [99; 99; 100]%Q)) (-1) = Ok (Fin 100))
    by (vm_compute; reflexivity).
  pose proof (run_sends_approved_order decimal_settings crossing_feed windowed_mean
                accepting_broker sample_clock Hkeys eq_refl _ _ eq_refl Hsignal
                sample_account [] eq_refl eq_refl (Fin 100) Hlast []) as H.
  specialize (H ltac:(vm_compute; reflexivity) ltac:(vm_compute; reflexivity)
                ltac:(vm_compute; reflexivity)).
  cbv zeta in H. destruct H as [_ H].
  vm_compute in H. vm_compute. exact H.
Defined.

(** Two fills today against a limit of two trades: the cross is not traded. *)
Lemma run_respects_daily_limits_witness :
  Rounded.run decimal_settings crossing_feed windowed_mean busy_broker sample_clock []
  = (Ok tt,
     [FetchedOhlcv "SPY" "6mo";
      LoggedSignal (StrategySignal.make "SPY" "BUY" (Binary64.lit 0.55) sample_now);
      FetchedAccount;
      FetchedOpenOrders;
      LoggedRiskDecision
        (RiskDecision.make false "Daily trade limit reached" (Fin 0) (Binary64.lit 0.02));
      LoggedExecutionResult
        (ExecutionResult.make false "Daily trade limit reached" (Fin 0) None)]).
Proof.
  assert (Hkeys : Settings.alpaca_api_key decimal_settings <> ""
                  /\ Settings.alpaca_secret_key decimal_settings <> "")
    by (split; discriminate).
  assert (Hsignal :
            Rounded.generate_signal windowed_mean
              (MovingAverageCrossoverStrategy.make
                 (Settings.short_window decimal_settings)
                 (Settings.long_window decimal_settings))
              (Settings.default_symbol decimal_settings) (bars [99; 99; 100]%Q)
              (Clock.now_iso sample_clock)
            = Ok (StrategySignal.make "SPY" "BUY" (Binary64.lit 0.55) sample_now))
    by (vm_compute; reflexivity).
  assert (Hlast : iloc (map PriceBar.Close (bars [99; 99; 100]%Q)) (-1) = Ok (Fin 100))
    by (vm_compute; reflexivity).
  pose proof (run_respects_daily_limits decimal_settings crossing_feed windowed_mean
                busy_broker sample_clock Hkeys eq_refl _ _ eq_refl Hsignal
                sample_account [filled_today; filled_today] eq_refl eq_refl
                (Fin 100) Hlast []) as H.
  specialize (H ltac:(left; vm_compute; discriminate)).
  destruct H as [_ [_ H]].
  vm_compute in H. vm_compute. exact H.
Defined.


(** X12. Until a signal exists the cycle touches nothing but the price
    feed: without a key or a secret, or with misordered windows, [run]
    raises with the trace unchanged; when the price feed or
    [generate_signal] raises, [run] raises the same exception and the only
    event is the price fetch. *)
Theorem run_stops_before_the_broker (settings : Settings.t)
    (get_ohlcv : string -> string -> result DataFrame) (broker : Broker.t)
    (clock : Clock.t) (tr : list event) :
  let symbol := Settings.default_symbol settings in
  let period := Settings.history_period settings in
  let keys :=
    Settings.alpaca_api_key settings <> "" /\ Settings.alpaca_secret_key settings <> "" in
  let windows := Settings.short_window settings < Settings.long_window settings in
  (Settings.alpaca_api_key settings = "" \/ Settings.alpaca_secret_key settings = "" ->
   Main.run settings get_ohlcv broker clock tr
   = (Raise (ValueError "ALPACA_API_KEY and ALPACA_SECRET_KEY are required."), tr))
  /\ (keys -> ~ windows ->
      Main.run settings get_ohlcv broker clock tr = (Raise ConfigError, tr))
  /\ (forall exc,
      keys -> windows -> get_ohlcv symbol period = Raise exc ->
      Main.run settings get_ohlcv broker clock tr
      = (Raise exc, (tr ++ [FetchedOhlcv symbol period])%list))
  /\ (forall data exc,
      keys -> windows -> get_ohlcv symbol period = Ok data ->
      MovingAverageCrossoverStrategy.generate_signal
        (MovingAverageCrossoverStrategy.make
           (Settings.short_window settings) (Settings.long_window settings))
        symbol data (Clock.now_iso clock)
      = Raise exc ->
      Main.run settings get_ohlcv broker clock tr
      = (Raise exc, (tr ++ [FetchedOhlcv symbol period])%list)).
Proof.
  intros symbol period keys windows. subst symbol period keys windows.
  unfold Main.run, Run_bind, lift, call, MovingAverageCrossoverStrategy.init.
  split; [|split; [|split]].
  - intros [H|H]; rewrite H; [reflexivity|].
    now rewrite orb_true_r.
  - intros [Hkey Hsecret] Hw.
    apply String.eqb_neq in Hkey, Hsecret. rewrite Hkey, Hsecret. cbn [orb].
    now replace (Settings.short_window settings >=? Settings.long_window settings)
      with true by (symmetry; rewrite Z.geb_leb; apply Z.leb_le; lia).
  - intros exc [Hkey Hsecret] Hw Hfeed.
    apply String.eqb_neq in Hkey, Hsecret. rewrite Hkey, Hsecret. cbn [orb].
    replace (Settings.short_window settings >=? Settings.long_window settings)
      with false by (symmetry; rewrite Z.geb_leb; apply Z.leb_gt; lia).
    now rewrite Hfeed.
  - intros data exc [Hkey Hsecret] Hw Hfeed Hsig.
    apply String.eqb_neq in Hkey, Hsecret. rewrite Hkey, Hsecret. cbn [orb].
    replace (Settings.short_window settings >=? Settings.long_window settings)
      with false by (symmetry; rewrite Z.geb_leb; apply Z.leb_gt; lia).
    now rewrite Hfeed, Hsig.
Qed.

(** A feed that has nothing for the symbol. *)
Lemma run_stops_before_the_broker_witness :
  Main.run sample_settings empty_feed accepting_broker sample_clock []
  = (Raise (ValueError "No data received for symbol=SPY"), [FetchedOhlcv "SPY" "6mo"]).
Proof.
  assert (Hkeys : Settings.alpaca_api_key sample_settings <> ""
                  /\ Settings.alpaca_secret_key sample_settings <> "")
    by (split; discriminate).
  pose proof (run_stops_before_the_broker sample_settings empty_feed accepting_broker
                sample_clock []) as H.
  cbv zeta in H. destruct H as [_ [_ [H _]]].
  specialize (H (ValueError "No data received for symbol=SPY") Hkeys eq_refl eq_refl).
  vm_compute in H. vm_compute. exact H.
Defined.

Section BrokerReads.

Variable settings : Settings.t.
Variable get_ohlcv : string -> string -> result DataFrame.
Variable broker : Broker.t.
Variable clock : Clock.t.
Variable data : DataFrame.
Variable signal : StrategySignal.t.

Hypothesis keys_present :
  Settings.alpaca_api_key settings <> "" /\ Settings.alpaca_secret_key settings <> "".
Hypothesis windows_ordered :
  Settings.short_window settings < Settings.long_window settings.
Hypothesis data_fetched :
  get_ohlcv (Settings.default_symbol settings) (Settings.history_period settings) = Ok data.
Hypothesis signal_generated :
  MovingAverageCrossoverStrategy.generate_signal
    (MovingAverageCrossoverStrategy.make
       (Settings.short_window settings) (Settings.long_window settings))
    (Settings.default_symbol settings) data (Clock.now_iso clock)
  = Ok signal.

(** X13. The broker's failures to read are not absorbed: when
    [get_account] raises, or [get_open_orders] raises after it, [run] raises
    that exception; no risk decision is taken, no order is sent and no
    execution result is logged. *)
Theorem run_surfaces_broker_read_errors (tr : list event) (exc : exn) :
  let fetched :=
    FetchedOhlcv (Settings.default_symbol settings) (Settings.history_period settings) in
  (Broker.get_account broker = Raise exc ->
   Main.run settings get_ohlcv broker clock tr
   = (Raise exc, (tr ++ [fetched; LoggedSignal signal; FetchedAccount])%list))
  /\ (forall account,
      Broker.get_account broker = Ok account ->
      Broker.get_open_orders broker = Raise exc ->
      Main.run settings get_ohlcv broker clock tr
      = (Raise exc,
         (tr ++ [fetched; LoggedSignal signal; FetchedAccount; FetchedOpenOrders])%list)).
Proof.
  intro fetched. subst fetched.
  rewrite (run_from_signal settings get_ohlcv broker clock keys_present windows_ordered
             data signal data_fetched signal_generated).
  unfold Run_bind, call. split.
  - intros ->. now rewrite <- app_assoc.
  - intros account -> ->. now rewrite <- !app_assoc.
Qed.

End BrokerReads.

(** A broker whose account endpoint is down. *)
Lemma run_surfaces_broker_read_errors_witness :
  Main.run crossing_settings crossing_feed unreachable_broker sample_clock []
  = (Raise (Exn "APIError" "service unavailable"),
     [FetchedOhlcv "SPY" "6mo";
      LoggedSignal (StrategySignal.make "SPY" "BUY" (lit 0.55) sample_now);
      FetchedAccount]).
Proof.
  assert (Hkeys : Settings.alpaca_api_key crossing_settings <> ""
                  /\ Settings.alpaca_secret_key crossing_settings <> "")
    by (split; discriminate).
  assert (Hsignal :
            MovingAverageCrossoverStrategy.generate_signal
              (MovingAverageCrossoverStrategy.make
                 (Settings.short_window crossing_settings)
                 (Settings.long_window crossing_settings))
              (Settings.default_symbol crossing_settings) (bars [99; 99; 100]%Q)
              (Clock.now_iso sample_clock)
            = Ok (StrategySignal.make "SPY" "BUY" (lit 0.55) sample_now))
    by (vm_compute; reflexivity).
  pose proof (run_surfaces_broker_read_errors crossing_settings crossing_feed
                unreachable_broker sample_clock _ _ Hkeys eq_refl eq_refl Hsignal []
                (Exn "APIError" "service unavailable")) as H.
  cbv zeta in H. destruct H as [H _]. specialize (H eq_refl).
  vm_compute in H. vm_compute. exact H.
Defined.

(** ** The broker adapter *)

Section Retry.

Import AlpacaAdapter.

Context {A : Type}.
Variable self : AlpacaAdapter.t.
Variable operation_name operation : string.
Variable order : option MarketOrderRequest.
Variable answer : api A.

(** The client an attempt goes through, given the one [self._client] holds. *)
Variable pick : nat -> nat.

Let fn : Ad A := fun st => request answer operation order (pick (client st)) st.

Let through (st : state) (k : nat) : nat := pick (current_client st k).

(** The state after [k] failed attempts. *)
Let after (errors : nat -> string) (st : state) (first : Z) (k : nat) : state :=
  make_state (current_client st k) (built st + k) (requests st + k)
    (effects st
       ++ failed_attempts self operation_name operation order (through st) errors st first k)
    %list.

Lemma range_cons (first stop : Z) :
  first < stop -> range first stop = first :: range (first + 1) stop.
Proof.
  intro H. unfold range.
  replace (Z.to_nat (stop - first)) with (S (Z.to_nat (stop - (first + 1)))) by lia.
  cbn [seq map]. rewrite <- seq_shift, map_map. f_equal; [lia|].
  apply map_ext. intro k. lia.
Qed.

Lemma range_nil (first stop : Z) : stop <= first -> range first stop = [].
Proof.
  intro H. unfold range. now replace (Z.to_nat (stop - first)) with 0%nat by lia.
Qed.

Lemma failed_attempts_step (errors : nat -> string) (st st' : state) (first : Z) (k : nat) :
  built st' = S (built st) ->
  client st' = built st ->
  failed_attempts self operation_name operation order (through st) errors st first (S k)
  = ([ Called (through st 0) operation order;
       LoggedApiError operation_name first (errors 0%nat);
       BuiltClient (built st);
       Slept (retry_wait_seconds self) ]
     ++ failed_attempts self operation_name operation order (through st')
          (fun i => errors (S i)) st' (first + 1) k)%list.
Proof.
  intros Hbuilt Hclient. unfold failed_attempts.
  cbn [seq flat_map]. rewrite Z.add_0_r, Nat.add_0_r.
  cbn [app]. do 4 f_equal.
  rewrite <- seq_shift, flat_map_concat_map, map_map, <- flat_map_concat_map.
  apply flat_map_ext. intro i.
  replace (through st (S i)) with (through st' i).
  2: { unfold through, current_client. destruct i; [now rewrite Hclient, Nat.add_0_r|].
       rewrite Hbuilt. f_equal. lia. }
  rewrite Hbuilt.
  replace (first + Z.of_nat (S i)) with (first + 1 + Z.of_nat i) by lia.
  now replace (built st + S i)%nat with (S (built st) + i)%nat by lia.
Qed.

(** Failed attempts that are not the last one are retried. *)
Lemma retry_loop_skips_failures (k : nat) :
  forall (errors : nat -> string) (st : state) (first : Z),
    first + Z.of_nat k <= max_retries self ->
    ((0 < k)%nat -> Time.sleep (retry_wait_seconds self) = Ok tt) ->
    (forall i, (i < k)%nat ->
               answer (through st i) (requests st + i)%nat = Raise (Exn "APIError" (errors i))) ->
    retry_loop self operation_name fn (range first (max_retries self + 1)) st
    = retry_loop self operation_name fn
        (range (first + Z.of_nat k) (max_retries self + 1)) (after errors st first k).
Proof.
  induction k as [|k IH]; intros errors st first Hroom Hpause Hfail.
  - rewrite Z.add_0_r. f_equal. unfold after, failed_attempts.
    destruct st as [c b r e]. cbn. now rewrite !Nat.add_0_r, app_nil_r.
  - rewrite range_cons by lia. cbn [retry_loop].
    unfold fn at 1. unfold request at 1.
    pose proof (Hfail 0%nat ltac:(lia)) as H0.
    unfold through, current_client in H0. rewrite Nat.add_0_r in H0. rewrite H0.
    cbn [is_api_error String.eqb Ascii.eqb Bool.eqb andb str_exn].
    replace (first >=? max_retries self) with false
      by (symmetry; rewrite Z.geb_leb; apply Z.leb_gt; lia).
    rewrite (Hpause (Nat.lt_0_succ k)).
    set (st4 := record _ (rebuild_client (record _ _))).
    rewrite (IH (fun i => errors (S i)) st4 (first + 1)).
    + f_equal; [f_equal; lia|].
      unfold after.
      rewrite (failed_attempts_step errors st st4 first k) by reflexivity.
      subst st4. unfold record, rebuild_client. cbn [client built requests effects].
      f_equal; try lia.
      * unfold current_client. cbn [built client]. destruct k; lia.
      * now rewrite <- !app_assoc.
    + lia.
    + intros _. apply Hpause. lia.
    + intros i Hi. specialize (Hfail (S i) ltac:(lia)).
      replace (through st4 i) with (through st (S i)).
      2: { unfold through, current_client. subst st4. cbn [client built record rebuild_client].
           destruct i; f_equal; lia. }
      subst st4. cbn [requests record rebuild_client].
      now replace (S (requests st) + i)%nat with (requests st + S i)%nat by lia.
Qed.

(** The state the last attempt leaves, [k] failed ones before it. *)
Let ended (errors : nat -> string) (st : state) (first : Z) (k : nat)
    (last : list effect) : state :=
  make_state (current_client st k) (built st + k) (S (requests st + k))
    (effects st
       ++ failed_attempts self operation_name operation order (through st) errors st first k
       ++ Called (through st k) operation order :: last)%list.

(** An answer that is not an [APIError] ends the loop: a value is
    returned, an exception is raised as it is. *)
Lemma retry_loop_answers (k : nat) (errors : nat -> string) (st : state) (first : Z)
    (r : result A) :
  first + Z.of_nat k <= max_retries self ->
  ((0 < k)%nat -> Time.sleep (retry_wait_seconds self) = Ok tt) ->
  (forall i, (i < k)%nat ->
             answer (through st i) (requests st + i)%nat = Raise (Exn "APIError" (errors i))) ->
  answer (through st k) (requests st + k)%nat = r ->
  (forall exc, r = Raise exc -> is_api_error exc = false) ->
  retry_loop self operation_name fn (range first (max_retries self + 1)) st
  = (match r with Ok a => Ok (Some a) | Raise exc => Raise exc end,
     ended errors st first k []).
Proof.
  intros Hroom Hpause Hfail Hanswer Hother.
  rewrite (retry_loop_skips_failures k errors st first Hroom Hpause Hfail).
  rewrite range_cons by lia. cbn [retry_loop].
  unfold fn at 1. unfold request at 1. unfold after at 1 2.
  cbn [client requests]. fold (through st k). rewrite Hanswer.
  destruct r as [a|exc].
  - unfold after, ended. cbn [client built requests effects]. now rewrite <- app_assoc.
  - rewrite (Hother exc eq_refl).
    unfold after, ended. cbn [client built requests effects]. now rewrite <- app_assoc.
Qed.

(** An [APIError] at the attempt numbered [max_retries] is raised. *)
Lemma retry_loop_gives_up (k : nat) (errors : nat -> string) (st : state) (first : Z) :
  first + Z.of_nat k = max_retries self ->
  ((0 < k)%nat -> Time.sleep (retry_wait_seconds self) = Ok tt) ->
  (forall i, (i <= k)%nat ->
             answer (through st i) (requests st + i)%nat = Raise (Exn "APIError" (errors i))) ->
  retry_loop self operation_name fn (range first (max_retries self + 1)) st
  = (Raise (Exn "APIError" (errors k)),
     ended errors st first k
       [LoggedApiError operation_name (max_retries self) (errors k)]).
Proof.
  intros Hlast Hpause Hfail.
  rewrite (retry_loop_skips_failures k errors st first)
    by (try lia; try exact Hpause; intros; apply Hfail; lia).
  rewrite range_cons by lia. cbn [retry_loop].
  unfold fn at 1. unfold request at 1. unfold after at 1 2.
  cbn [client requests]. fold (through st k). rewrite (Hfail k (le_n k)).
  cbn [is_api_error String.eqb Ascii.eqb Bool.eqb andb str_exn].
  replace (first + Z.of_nat k >=? max_retries self) with true
    by (symmetry; rewrite Z.geb_leb; apply Z.leb_le; lia).
  unfold after, ended, record. cbn [client built requests effects].
  rewrite Hlast. now rewrite <- !app_assoc.
Qed.

(** Without attempts, nothing is asked and [None] comes back. *)
Lemma with_retry_without_attempts (st : state) :
  max_retries self <= 0 ->
  with_retry self operation_name fn st = (Ok None, st).
Proof.
  intro H. unfold with_retry. now rewrite range_nil by lia.
Qed.

End Retry.

Section AdapterMethods.

Import AlpacaAdapter.

Variable self : AlpacaAdapter.t.

(** X14. When every request fails with an [APIError], and the pause
    between attempts is one [time.sleep] accepts (if there is more than one
    attempt), [get_account] makes exactly [max_retries] requests and raises
    the last error.  After each failed attempt but the last it builds a new
    client and pauses; all the same, every request goes through the client
    the call started with. *)
Theorem get_account_gives_up (answer : api AccountSnapshot.t) (st : state)
    (errors : nat -> string) :
  1 <= max_retries self ->
  (2 <= max_retries self -> Time.sleep (retry_wait_seconds self) = Ok tt) ->
  (forall i, answer (client st) (requests st + i)%nat = Raise (Exn "APIError" (errors i))) ->
  let k := (Z.to_nat (max_retries self) - 1)%nat in
  get_account self answer st
  = (Raise (Exn "APIError" (errors k)),
     make_state (current_client st k) (built st + k)
       (requests st + Z.to_nat (max_retries self))
       (effects st
          ++ failed_attempts self "get_account" "get_account" None
               (fun _ => client st) errors st 1 k
          ++ [Called (client st) "get_account" None;
              LoggedApiError "get_account" (max_retries self) (errors k)])%list).
Proof.
  intros Hmax Hpause Hfail k. unfold get_account, with_retry.
  etransitivity.
  - apply (retry_loop_gives_up self "get_account" "get_account" None answer
             (fun _ => client st) k errors st 1);
      [subst k; lia | intro Hk; apply Hpause; subst k; lia |].
    intros i _. apply Hfail.
  - do 2 f_equal. subst k. lia.
Qed.

(** X15. [submit_order] returns the first answer that is not an [APIError]
    (a non-API exception is raised as it is, without a retry), as long as it
    comes within [max_retries] attempts and, when an attempt failed before
    it, the pause is one [time.sleep] accepts.  The same request is sent at each
    attempt; the first goes through the client the adapter holds, and the
    attempt after the [i]-th failure through the client built after that
    failure.  The request is a BUY when [side.upper()] is "BUY" and a SELL
    for every other side. *)
Theorem submit_order_retries_through_new_clients
    (answer : MarketOrderRequest -> api OrderHandle.t)
    (symbol : string) (qty : pyfloat) (side time_in_force : string) (st : state)
    (errors : nat -> string) (k : nat) (r : result OrderHandle.t) :
  let order := order_request symbol qty side time_in_force in
  Z.of_nat k < max_retries self ->
  ((1 <= k)%nat -> Time.sleep (retry_wait_seconds self) = Ok tt) ->
  (forall i, (i < k)%nat ->
       answer order (current_client st i) (requests st + i)%nat
       = Raise (Exn "APIError" (errors i))) ->
  answer order (current_client st k) (requests st + k)%nat = r ->
  (forall exc, r = Raise exc -> is_api_error exc = false) ->
  (AlpacaAdapter.side order = BUY <-> upper side = "BUY")
  /\ (AlpacaAdapter.side order = SELL <-> upper side <> "BUY")
  /\ submit_order self answer symbol qty side time_in_force st
     = (match r with Ok a => Ok (Some a) | Raise exc => Raise exc end,
        make_state (current_client st k) (built st + k) (S (requests st + k))
          (effects st
             ++ failed_attempts self "submit_order" "submit_order" (Some order)
                  (current_client st) errors st 1 k
             ++ [Called (current_client st k) "submit_order" (Some order)])%list).
Proof.
  intros order Hroom Hpause Hfail Hanswer Hother.
  split; [|split].
  - subst order. unfold order_request. cbn [AlpacaAdapter.side].
    destruct (upper side =? "BUY")%string eqn:E.
    + apply String.eqb_eq in E. tauto.
    + apply String.eqb_neq in E. split; [discriminate|tauto].
  - subst order. unfold order_request. cbn [AlpacaAdapter.side].
    destruct (upper side =? "BUY")%string eqn:E.
    + apply String.eqb_eq in E. split; [discriminate|tauto].
    + apply String.eqb_neq in E. tauto.
  - unfold submit_order, with_retry. fold order.
    apply (retry_loop_answers self "submit_order" "submit_order" (Some order) (answer order)
             (fun c => c) k errors st 1 r); try assumption; lia.
Qed.

(** X16. An adapter configured with [max_retries <= 0] never asks the API:
    [get_account], [get_open_orders] and [submit_order] return [None] and
    leave the adapter as it was. *)
Theorem no_retries_no_request (account_api : api AccountSnapshot.t)
    (orders_api : api (list OrderRecord.t))
    (order_api : MarketOrderRequest -> api OrderHandle.t)
    (symbol : string) (qty : pyfloat) (side time_in_force : string) (st : state) :
  max_retries self <= 0 ->
  get_account self account_api st = (Ok None, st)
  /\ get_open_orders self orders_api st = (Ok None, st)
  /\ submit_order self order_api symbol qty side time_in_force st = (Ok None, st).
Proof.
  intro H. unfold get_account, get_open_orders, submit_order.
  split; [|split].
  - apply (with_retry_without_attempts self "get_account" "get_account" None account_api
             (fun _ => client st) st H).
  - apply (with_retry_without_attempts self "get_open_orders" "get_orders" None orders_api
             (fun _ => client st) st H).
  - apply (with_retry_without_attempts self "submit_order" "submit_order" _ (order_api _)
             (fun c => c) st H).
Qed.

End AdapterMethods.

Section RefusedPause.

Import AlpacaAdapter.

Variable self : AlpacaAdapter.t.

(** X23. A pause that [time.sleep] refuses ends the retries: with
    [max_retries >= 2], when the first request fails with an [APIError],
    [get_account] and [submit_order] raise what [time.sleep] raises, after
    that one request, one log record and one new client; no second request
    is made, and the [APIError] is not raised. *)
Theorem refused_pause_ends_retries (account_api : api AccountSnapshot.t)
    (order_api : MarketOrderRequest -> api OrderHandle.t)
    (symbol : string) (qty : pyfloat) (side time_in_force : string) (st : state)
    (error : string) (refused : exn) :
  2 <= max_retries self ->
  Time.sleep (retry_wait_seconds self) = Raise refused ->
  (account_api (client st) (requests st) = Raise (Exn "APIError" error) ->
   get_account self account_api st
   = (Raise refused,
      make_state (built st) (S (built st)) (S (requests st))
        (effects st
           ++ [Called (client st) "get_account" None;
               LoggedApiError "get_account" 1 error;
               BuiltClient (built st)])%list))
  /\ (let order := order_request symbol qty side time_in_force in
      order_api order (client st) (requests st) = Raise (Exn "APIError" error) ->
      submit_order self order_api symbol qty side time_in_force st
      = (Raise refused,
         make_state (built st) (S (built st)) (S (requests st))
           (effects st
              ++ [Called (client st) "submit_order" (Some order);
                  LoggedApiError "submit_order" 1 error;
                  BuiltClient (built st)])%list)).
Proof.
  intros Hmax Hpause. split.
  - intro Hfail. unfold get_account, with_retry.
    rewrite range_cons by lia. cbn [retry_loop]. unfold request at 1.
    rewrite Hfail. cbn [is_api_error String.eqb Ascii.eqb Bool.eqb andb str_exn].
    replace (1 >=? max_retries self) with false
      by (symmetry; rewrite Z.geb_leb; apply Z.leb_gt; lia).
    rewrite Hpause. unfold rebuild_client, record.
    cbn [client built requests effects]. now rewrite <- !app_assoc.
  - intros order Hfail. unfold submit_order, with_retry. fold order.
    rewrite range_cons by lia. cbn [retry_loop]. unfold request at 1.
    rewrite Hfail. cbn [is_api_error String.eqb Ascii.eqb Bool.eqb andb str_exn].
    replace (1 >=? max_retries self) with false
      by (symmetry; rewrite Z.geb_leb; apply Z.leb_gt; lia).
    rewrite Hpause. unfold rebuild_client, record.
    cbn [client built requests effects]. now rewrite <- !app_assoc.
Qed.

End RefusedPause.

Section ExecutorOverAdapter.

Import AlpacaAdapter.

Variable adapter : AlpacaAdapter.t.
Variable answer : MarketOrderRequest -> api OrderHandle.t.
Variable st : state.

(** A broker whose orders go through the adapter. *)
Variable broker : Broker.t.
Hypothesis orders_through_adapter :
  Broker.submit_order broker = submit_through adapter answer st.

(** A decision, a signal and a price that pass the Executor's checks. *)
Variable signal : StrategySignal.t.
Variable risk_decision : RiskDecision.t.
Variable last_price : pyfloat.
Hypothesis approved : RiskDecision.approved risk_decision = true.
Hypothesis tradable : ExecutionRules.tradable (StrategySignal.signal signal) = true.
Hypothesis price_passes : fle last_price (Fin 0) = false.
Hypothesis qty_passes :
  fle (ExecutionRules.sized_qty risk_decision last_price) (Fin 0) = false.

Let qty : pyfloat := ExecutionRules.sized_qty risk_decision last_price.
Let symbol : string := StrategySignal.symbol signal.
Let side : string := StrategySignal.signal signal.



End ExecutorOverAdapter.

Section RoundedOverAdapter.

Import AlpacaAdapter.

Variable adapter : AlpacaAdapter.t.
Variable answer : MarketOrderRequest -> api OrderHandle.t.
Variable st : state.

(** A broker whose orders go through the adapter. *)
Variable broker : Broker.t.
Hypothesis orders_through_adapter :
  Broker.submit_order broker = submit_through adapter answer st.

(** A decision, a signal and a price that pass the Executor's checks. *)
Variable signal : StrategySignal.t.
Variable risk_decision : RiskDecision.t.
Variable last_price : pyfloat.
Hypothesis approved : RiskDecision.approved risk_decision = true.
Hypothesis tradable : ExecutionRules.tradable (StrategySignal.signal signal) = true.
Hypothesis price_passes : fle last_price (Fin 0) = false.
Hypothesis qty_passes :
  fle (Rounded.sized_qty risk_decision last_price) (Fin 0) = false.

Let qty : pyfloat := Rounded.sized_qty risk_decision last_price.
Let symbol : string := StrategySignal.symbol signal.
Let side : string := StrategySignal.signal signal.

(** X17. A broker that keeps failing ends in a declined result: when every
    request fails with the same [APIError], and the pause between attempts
    is one [time.sleep] accepts (if there is more than one attempt), the
    adapter makes exactly [max_retries] requests, and [execute] returns a
    result that is not executed, whose reason is the error's message and
    whose qty is the quantity that was sent. *)
Theorem persistent_api_error_is_reported (tr : list event) (error : string) :
  1 <= max_retries adapter ->
  (2 <= max_retries adapter -> Time.sleep (retry_wait_seconds adapter) = Ok tt) ->
  (forall order c k, answer order c k = Raise (Exn "APIError" error)) ->
  Rounded.execute (TradeExecutor.make broker) signal risk_decision last_price tr
  = (Ok (ExecutionResult.make false error qty None),
     (tr ++ [SubmittedOrder symbol qty side;
             LoggedOrderSubmissionFailed error symbol])%list)
  /\ requests (snd (submit_order adapter answer symbol qty side "day" st))
     = (requests st + Z.to_nat (max_retries adapter))%nat.
Proof.
  intros Hmax Hpause Hfail.
  assert (Hsubmit : exists st',
             submit_order adapter answer symbol qty side "day" st
             = (Raise (Exn "APIError" error), st')
             /\ requests st' = (requests st + Z.to_nat (max_retries adapter))%nat).
  { unfold submit_order, with_retry. eexists. split.
    - apply (retry_loop_gives_up adapter "submit_order" "submit_order" _ (answer _)
               (fun c => c) (Z.to_nat (max_retries adapter) - 1) (fun _ => error) st 1);
        [lia | intro Hk; apply Hpause; lia |]. intros i _. apply Hfail.
    - cbn [requests]. lia. }
  destruct Hsubmit as [st' [Hsubmit Hrequests]].
  split.
  - rewrite rounded_execute_unfolds. unfold Rounded.declined.
    rewrite !first_match_cons, approved, tradable, price_passes, qty_passes.
    cbn [negb first_match]. unfold Rounded.submitted.
    cbn [TradeExecutor.broker]. rewrite orders_through_adapter.
    fold qty symbol side. unfold submit_through. rewrite Hsubmit.
    cbn [fst is_Exception existsb String.eqb Ascii.eqb Bool.eqb outside_Exception
         orb negb str_exn].
    now rewrite <- app_assoc.
  - now rewrite Hsubmit.
Qed.

End RoundedOverAdapter.

(** ** The adapter and the Executor on sample brokers *)

Section AdapterSamples.

Import AlpacaAdapter.

(** Three attempts on an API that is down. *)
Lemma get_account_gives_up_witness :
  get_account sample_adapter down_api fresh_state
  = (Raise (Exn "APIError" "service unavailable"),
     make_state 2 3 3
       [BuiltClient 0;
        Called 0 "get_account" None;
        LoggedApiError "get_account" 1 "service unavailable";
        BuiltClient 1; Slept (lit 1.5);
        Called 0 "get_account" None;
        LoggedApiError "get_account" 2 "service unavailable";
        BuiltClient 2; Slept (lit 1.5);
        Called 0 "get_account" None;
        LoggedApiError "get_account" 3 "service unavailable"]).
Proof.
  assert (Hpause : 2 <= max_retries sample_adapter ->
                    Time.sleep (retry_wait_seconds sample_adapter) = Ok tt)
    by (intros _; vm_compute; reflexivity).
  pose proof (get_account_gives_up sample_adapter down_api fresh_state
                (fun _ => "service unavailable") ltac:(cbn; lia) Hpause
                (fun _ => eq_refl)) as H.
  vm_compute in H. vm_compute. exact H.
Defined.

(** Two timeouts, then the order goes through the third client. *)
Lemma submit_order_retries_through_new_clients_witness :
  submit_order sample_adapter flaky_order_api "SPY" (Fin 50) "BUY" "day" fresh_state
  = (Ok (Some (OrderHandle.make (Some "order-1"))),
     make_state 2 3 3
       [BuiltClient 0;
        Called 0 "submit_order" (Some (make_request "SPY" (Fin 50) BUY DAY));
        LoggedApiError "submit_order" 1 "timeout";
        BuiltClient 1; Slept (lit 1.5);
        Called 1 "submit_order" (Some (make_request "SPY" (Fin 50) BUY DAY));
        LoggedApiError "submit_order" 2 "timeout";
        BuiltClient 2; Slept (lit 1.5);
        Called 2 "submit_order" (Some (make_request "SPY" (Fin 50) BUY DAY))]).
Proof.
  assert (Hfail : forall i, (i < 2)%nat ->
             flaky_order_api (order_request "SPY" (Fin 50) "BUY" "day")
               (current_client fresh_state i) (requests fresh_state + i)%nat
             = Raise (Exn "APIError" ((fun _ => "timeout") i))).
  { intros [|[|i]] Hi; [reflexivity|reflexivity|lia]. }
  assert (Hother : forall exc,
             Ok (OrderHandle.make (Some "order-1")) = Raise exc ->
             is_api_error exc = false) by discriminate.
  pose proof (submit_order_retries_through_new_clients sample_adapter flaky_order_api
                "SPY" (Fin 50) "BUY" "day" fresh_state (fun _ => "timeout") 2
                (Ok (OrderHandle.make (Some "order-1")))) as H.
  assert (Hpause : (1 <= 2)%nat ->
                    Time.sleep (retry_wait_seconds sample_adapter) = Ok tt)
    by (intros _; vm_compute; reflexivity).
  cbv zeta in H. specialize (H ltac:(cbn; lia) Hpause Hfail eq_refl Hother).
  destruct H as [_ [_ H]].
  vm_compute in H. vm_compute. exact H.
Defined.

(** Three attempts allowed, a pause of [-1] seconds, an API that is down:
    one request, then the [ValueError] of [time.sleep]. *)
Lemma refused_pause_ends_retries_witness :
  AlpacaAdapter.get_account hasty_adapter down_api fresh_state
  = (Raise (ValueError "sleep length must be non-negative"),
     AlpacaAdapter.make_state 1 2 1
       [AlpacaAdapter.BuiltClient 0;
        AlpacaAdapter.Called 0 "get_account" None;
        AlpacaAdapter.LoggedApiError "get_account" 1 "service unavailable";
        AlpacaAdapter.BuiltClient 1]).
Proof.
  assert (Hpause : Time.sleep (AlpacaAdapter.retry_wait_seconds hasty_adapter)
                   = Raise (ValueError "sleep length must be non-negative"))
    by (vm_compute; reflexivity).
  pose proof (proj1 (refused_pause_ends_retries hasty_adapter down_api down_order_api
                       "SPY" (Fin 50) "BUY" "day" fresh_state "service unavailable"
                       (ValueError "sleep length must be non-negative")
                       ltac:(cbn; lia) Hpause) eq_refl) as H.
  vm_compute in H. vm_compute. exact H.
Defined.

(** An adapter told not to try. *)
Lemma no_retries_no_request_witness :
  get_account idle_adapter down_api fresh_state = (Ok None, fresh_state)
  /\ submit_order idle_adapter flaky_order_api "SPY" (Fin 50) "BUY" "day" fresh_state
     = (Ok None, fresh_state).
Proof.
  pose proof (no_retries_no_request idle_adapter down_api down_api flaky_order_api
                "SPY" (Fin 50) "BUY" "day" fresh_state ltac:(cbn; lia)) as [H1 [_ H3]].
  split; assumption.
Defined.

(** The Executor over an API that is down: three requests, one declined
    result. *)
Lemma persistent_api_error_is_reported_witness :
  Rounded.execute (TradeExecutor.make (broker_over sample_adapter down_order_api))
    buy_signal (approval_of (Fin 5000)) (Fin 100) []
  = (Ok (ExecutionResult.make false "service unavailable" (Fin 50) None),
     [SubmittedOrder "SPY" (Fin 50) "BUY";
      LoggedOrderSubmissionFailed "service unavailable" "SPY"])
  /\ requests (snd (submit_order sample_adapter down_order_api "SPY" (Fin 50) "BUY" "day"
                      fresh_state))
     = 3%nat.
Proof.
  assert (Hpause : 2 <= max_retries sample_adapter ->
                    Time.sleep (retry_wait_seconds sample_adapter) = Ok tt)
    by (intros _; vm_compute; reflexivity).
  assert (Hqty : fle (Rounded.sized_qty (approval_of (Fin 5000)) (Fin 100)) (Fin 0) = false)
    by (vm_compute; reflexivity).
  pose proof (persistent_api_error_is_reported sample_adapter down_order_api fresh_state
                (broker_over sample_adapter down_order_api) eq_refl
                buy_signal (approval_of (Fin 5000)) (Fin 100) eq_refl eq_refl eq_refl Hqty
                [] "service unavailable" ltac:(cbn; lia) Hpause (fun _ _ _ => eq_refl)) as H.
  vm_compute in H. vm_compute. exact H.
Defined.


End AdapterSamples.

(** ** Structured logs *)

Section Logs.

Import Json.

Lemma get_set (d : dict) (key key' : string) (v : value) :
  get (set d key v) key' = if (key =? key')%string then Some v else get d key'.
Proof.
  induction d as [|[k w] rest IH]; cbn [set get].
  - reflexivity.
  - destruct (k =? key)%string eqn:Ek; cbn [get].
    + apply String.eqb_eq in Ek. subst k.
      now destruct (key =? key')%string.
    + rewrite IH. destruct (k =? key')%string eqn:Ek'; [|reflexivity].
      apply String.eqb_eq in Ek'. subst k. now rewrite String.eqb_sym, Ek.
Qed.

(** The copying loop of [format], one key list at a time. *)
Lemma copied_get (record : LogRecord) (wanted : list string) (payload : dict)
    (key : string) :
  get (fold_left
         (fun payload key =>
            match getattr record key with
            | Null => payload
            | v => set payload key v
            end) wanted payload) key
  = if existsb (String.eqb key) wanted
    then match getattr record key with
         | Null => get payload key
         | v => Some v
         end
    else get payload key.
Proof.
  revert payload. induction wanted as [|w wanted IH]; intro payload; cbn [fold_left existsb].
  - reflexivity.
  - rewrite IH. rewrite (String.eqb_sym key w).
    destruct (w =? key)%string eqn:Ew; cbn [orb].
    + apply String.eqb_eq in Ew. subst w.
      destruct (getattr record key) eqn:Eg;
        destruct (existsb (String.eqb key) wanted); try reflexivity;
        now rewrite get_set, String.eqb_refl.
    + destruct (getattr record w); try reflexivity;
        rewrite get_set, Ew; reflexivity.
Qed.

(** X19. What [JsonFormatter.format] puts in a log line, for any record:
    "timestamp" is the formatter's clock, "level", "logger" and "message"
    are the record's, "event" is the record's event or null; each of
    "symbol", "signal", "confidence", "reason", "qty", "order_id" and
    "error" is there exactly when the record has it with a value other than
    [None]; every other attribute of the record is dropped. *)
Theorem format_keeps_only_listed_fields (now : string) (record : LogRecord)
    (key : string) :
  get (format_payload now record) key
  = if (key =? "timestamp")%string then Some (Str now)
    else if (key =? "level")%string then Some (Str (levelname record))
    else if (key =? "logger")%string then Some (Str (name record))
    else if (key =? "message")%string then Some (Str (message record))
    else if (key =? "event")%string then Some (getattr record "event")
    else if existsb (String.eqb key) optional_keys
         then match getattr record key with
              | Null => None
              | v => Some v
              end
         else None.
Proof.
  unfold format_payload. rewrite copied_get. cbn [get].
  rewrite !(String.eqb_sym _ key).
  destruct (key =? "timestamp")%string eqn:E1.
  { apply String.eqb_eq in E1. now subst key. }
  destruct (key =? "level")%string eqn:E2.
  { apply String.eqb_eq in E2. now subst key. }
  destruct (key =? "logger")%string eqn:E3.
  { apply String.eqb_eq in E3. now subst key. }
  destruct (key =? "message")%string eqn:E4.
  { apply String.eqb_eq in E4. now subst key. }
  destruct (key =? "event")%string eqn:E5.
  { apply String.eqb_eq in E5. now subst key. }
  destruct (existsb (String.eqb key) optional_keys); [|reflexivity].
  now destruct (getattr record key).
Qed.

(** X20. What the cycle's three log lines keep of the data contracts.  The
    line of a signal has its symbol, signal and confidence, and the
    formatter's timestamp in place of the signal's; the line of a risk
    decision has its reason only: the approval flag, the position value and
    the stop loss are not logged; the line of an execution result has its
    reason and qty, its order identifier when there is one, and never the
    executed flag. *)
Theorem log_lines_of_a_cycle (now : string) (signal : StrategySignal.t)
    (risk_decision : RiskDecision.t) (execution_result : ExecutionResult.t) :
  format_payload now (signal_record signal)
  = [ ("timestamp", Str now); ("level", Str "INFO"); ("logger", Str "trading_engine");
      ("message", Str "signal_generated"); ("event", Str "signal_generated");
      ("symbol", Str (StrategySignal.symbol signal));
      ("signal", Str (StrategySignal.signal signal));
      ("confidence", Num (StrategySignal.confidence signal)) ]
  /\ format_payload now (decision_record risk_decision)
     = [ ("timestamp", Str now); ("level", Str "INFO"); ("logger", Str "trading_engine");
         ("message", Str "risk_decision"); ("event", Str "risk_decision");
         ("reason", Str (RiskDecision.reason risk_decision)) ]
  /\ format_payload now (result_record execution_result)
     = ([ ("timestamp", Str now); ("level", Str "INFO"); ("logger", Str "trading_engine");
          ("message", Str "execution_result"); ("event", Str "execution_result");
          ("reason", Str (ExecutionResult.reason execution_result));
          ("qty", Num (ExecutionResult.qty execution_result)) ]
        ++ match ExecutionResult.order_id execution_result with
           | Some order_id => [("order_id", Str order_id)]
           | None => []
           end)%list.
Proof.
  split; [reflexivity|]. split; [reflexivity|].
  unfold result_record, format_payload.
  now destruct (ExecutionResult.order_id execution_result).
Qed.

End Logs.

(** ** Market data *)

Section MarketData.

Import MarketDataProvider.

Lemma positions_absent (col : string) (labels : list string) (start : nat) :
  ~ In col labels -> positions_from start col labels = [].
Proof.
  revert start. induction labels as [|label rest IH]; intros start Hnot; cbn.
  - reflexivity.
  - destruct (label =? col)%string eqn:E.
    + apply String.eqb_eq in E. subst. exfalso. apply Hnot. now left.
    + apply IH. intro H. apply Hnot. now right.
Qed.

(** Every position found carries the label. *)
Lemma positions_labelled (col : string) (labels : list string) (start p : nat) :
  In p (positions_from start col labels) ->
  (start <= p)%nat /\ nth (p - start) labels "" = col.
Proof.
  revert start. induction labels as [|label rest IH]; intros start Hp; cbn in Hp.
  - contradiction.
  - destruct (label =? col)%string eqn:E.
    + destruct Hp as [<-|Hp].
      * rewrite Nat.sub_diag. apply String.eqb_eq in E. now split.
      * destruct (IH _ Hp) as [Hle Hnth]. split; [lia|].
        replace (p - start)%nat with (S (p - S start)) by lia. exact Hnth.
    + destruct (IH _ Hp) as [Hle Hnth]. split; [lia|].
      replace (p - start)%nat with (S (p - S start)) by lia. exact Hnth.
Qed.

(** A label that is there has a position. *)
Lemma positions_present (col : string) (labels : list string) (start : nat) :
  In col labels -> exists p, In p (positions_from start col labels).
Proof.
  revert start. induction labels as [|label rest IH]; intros start Hin; cbn.
  - contradiction.
  - destruct (label =? col)%string eqn:E.
    + exists start. now left.
    + destruct Hin as [->|Hin]; [rewrite String.eqb_refl in E; discriminate|].
      apply IH, Hin.
Qed.

(** Among distinct labels, a label that is there has one position. *)
Lemma positions_unique (col : string) (labels : list string) (start : nat) :
  NoDup labels -> In col labels -> exists p, positions_from start col labels = [p].
Proof.
  revert start. induction labels as [|label rest IH]; intros start Hnd Hin; cbn.
  - contradiction.
  - inversion Hnd as [|? ? Hfresh Hrest]; subst.
    destruct (label =? col)%string eqn:E.
    + apply String.eqb_eq in E. subst label.
      exists start. now rewrite positions_absent.
    + destruct Hin as [->|Hin]; [rewrite String.eqb_refl in E; discriminate|].
      now apply IH.
Qed.

Lemma missing_iff (labels : list string) (col : string) :
  In col (filter (fun col => negb (existsb (String.eqb col) labels)) REQUIRED_COLUMNS)
  <-> In col REQUIRED_COLUMNS /\ ~ In col labels.
Proof.
  rewrite filter_In, negb_true_iff. apply and_iff_compat_l.
  split.
  - intros Hex Hin. assert (existsb (String.eqb col) labels = true); [|congruence].
    apply existsb_exists. exists col. split; [assumption|apply String.eqb_refl].
  - intro Hnot. destruct (existsb (String.eqb col) labels) eqn:E; [|reflexivity].
    apply existsb_exists in E. destruct E as [l [Hl El]].
    apply String.eqb_eq in El. now subst.
Qed.

(** The columns [raw_df[cols]] gives carry every requested label that is
    there, and among distinct labels they are the requested ones. *)
Lemma select_covers (cols labels : list string) (col : string) :
  In col cols -> In col labels ->
  In col (map (fun p => nth p labels "") (select cols labels)).
Proof.
  intros Hreq Hin. apply in_map_iff.
  destruct (positions_present col labels 0 Hin) as [p Hp].
  exists p. split.
  - destruct (positions_labelled _ _ _ _ Hp) as [_ H]. now rewrite Nat.sub_0_r in H.
  - unfold select. apply in_flat_map. now exists col.
Qed.

Lemma select_exact (cols labels : list string) :
  NoDup labels -> (forall col, In col cols -> In col labels) ->
  map (fun p => nth p labels "") (select cols labels) = cols.
Proof.
  intro Hnd. unfold select. induction cols as [|col cols IH]; intro Hin; [reflexivity|].
  cbn [flat_map]. rewrite map_app, IH by (intros; apply Hin; now right).
  destruct (positions_unique col labels 0 Hnd (Hin col (or_introl eq_refl))) as [p Ep].
  rewrite Ep. cbn [map app]. f_equal.
  assert (Hp : In p (positions_from 0 col labels)) by (rewrite Ep; now left).
  destruct (positions_labelled _ _ _ _ Hp) as [_ H]. now rewrite Nat.sub_0_r in H.
Qed.

(** X21. [get_ohlcv] refuses a frame that is empty with "No data received
    for symbol=...", and a frame that lacks one of Open, High, Low, Close,
    Volume with a message that lists exactly the labels that are missing; a
    frame that has rows and all five labels is accepted. *)
Theorem get_ohlcv_refuses_bad_frames (raw_df : RawFrame) (symbol : string) :
  (empty raw_df = true ->
   get_ohlcv raw_df symbol = Raise (ValueError ("No data received for symbol=" ++ symbol)))
  /\ (empty raw_df = false ->
      (exists col, In col REQUIRED_COLUMNS /\ ~ In col (flat_labels raw_df)) ->
      exists missing,
        get_ohlcv raw_df symbol
        = Raise (ValueError ("Missing expected OHLCV columns: " ++ repr_names missing))
        /\ forall col, In col missing
                       <-> In col REQUIRED_COLUMNS /\ ~ In col (flat_labels raw_df))
  /\ (empty raw_df = false ->
      (forall col, In col REQUIRED_COLUMNS -> In col (flat_labels raw_df)) ->
      exists df, get_ohlcv raw_df symbol = Ok df).
Proof.
  unfold get_ohlcv. split; [|split].
  - now intros ->.
  - intros -> [col Hcol].
    destruct (filter _ REQUIRED_COLUMNS) as [|m ms] eqn:E.
    + exfalso. apply missing_iff in Hcol. rewrite E in Hcol. contradiction.
    + exists (m :: ms). split; [reflexivity|]. intro c. rewrite <- E. apply missing_iff.
  - intros -> Hall.
    destruct (filter _ REQUIRED_COLUMNS) as [|m ms] eqn:E.
    + eexists. reflexivity.
    + exfalso. assert (Hm : In m (m :: ms)) by now left.
      rewrite <- E in Hm. apply missing_iff in Hm. destruct Hm as [Hreq Hnot].
      exact (Hnot (Hall m Hreq)).
Qed.

(** X22. The frame [get_ohlcv] returns has no missing value: no row holds a
    nan, every row has one value per column, and rows and row labels stay
    aligned.  Each of Open, High, Low, Close, Volume is among its columns,
    and when the downloaded labels are distinct its columns are exactly
    these five, in this order. *)
Theorem get_ohlcv_returns_complete_rows (raw_df : RawFrame) (symbol : string)
    (df : Frame) :
  get_ohlcv raw_df symbol = Ok df ->
  Forall (fun row => Forall (fun x => x <> NaN) row) (values df)
  /\ Forall (fun row => List.length row = List.length (columns df)) (values df)
  /\ List.length (index df) = List.length (values df)
  /\ (forall col, In col REQUIRED_COLUMNS -> In col (columns df))
  /\ (NoDup (flat_labels raw_df) -> columns df = REQUIRED_COLUMNS).
Proof.
  unfold get_ohlcv. destruct (empty raw_df); [discriminate|].
  destruct (filter _ REQUIRED_COLUMNS) as [|m ms] eqn:Emissing; [|discriminate].
  assert (Hall : forall col, In col REQUIRED_COLUMNS -> In col (flat_labels raw_df)).
  { intros col Hreq. destruct (in_dec string_dec col (flat_labels raw_df)) as [H|H];
      [exact H|].
    exfalso. assert (Hm : In col []); [|contradiction].
    rewrite <- Emissing. apply missing_iff. now split. }
  intro Hdf. injection Hdf as <-. cbn [values columns index].
  set (labels := flat_labels raw_df) in *.
  set (positions := select REQUIRED_COLUMNS labels).
  set (kept := filter _ _).
  split; [|split; [|split; [|split]]].
  - apply Forall_forall. intros row Hrow. apply in_map_iff in Hrow.
    destruct Hrow as [[stamp row'] [<- Hkept]]. subst kept.
    apply filter_In in Hkept. destruct Hkept as [_ Hcomplete].
    cbn [snd] in *. unfold complete in Hcomplete. apply negb_true_iff in Hcomplete.
    apply Forall_forall. intros x Hx ->.
    assert (existsb MovingAverageCrossoverStrategy.is_nan row' = true); [|congruence].
    apply existsb_exists. now exists NaN.
  - apply Forall_forall. intros row Hrow. apply in_map_iff in Hrow.
    destruct Hrow as [[stamp row'] [<- Hkept]]. subst kept.
    apply filter_In in Hkept. destruct Hkept as [Hin _].
    apply in_combine_r in Hin. apply in_map_iff in Hin. destruct Hin as [raw [<- _]].
    cbn [snd]. unfold take. now rewrite !length_map.
  - now rewrite !length_map.
  - intros col Hreq.
    exact (select_covers REQUIRED_COLUMNS labels col Hreq (Hall col Hreq)).
  - intro Hnd. exact (select_exact REQUIRED_COLUMNS labels Hnd Hall).
Qed.

(** A download with a gap: the row with the gap goes, the columns come back
    in the required order. *)
Lemma get_ohlcv_returns_complete_rows_witness :
  get_ohlcv sample_download "SPY"
  = Ok (make_frame ["Open"; "High"; "Low"; "Close"; "Volume"]
          [Datetime.make (Datetime.make_date 2023 12 28) 0 0 0;
           Datetime.make (Datetime.make_date 2024 1 2) 0 0 0]
          [[Fin 100; Fin 102; Fin 99; Fin 101; Fin 5000];
           [Fin 102; Fin 104; Fin 101; Fin 103; Fin 6000]])
  /\ columns (make_frame ["Open"; "High"; "Low"; "Close"; "Volume"]
                [Datetime.make (Datetime.make_date 2023 12 28) 0 0 0;
                 Datetime.make (Datetime.make_date 2024 1 2) 0 0 0]
                [[Fin 100; Fin 102; Fin 99; Fin 101; Fin 5000];
                 [Fin 102; Fin 104; Fin 101; Fin 103; Fin 6000]])
     = REQUIRED_COLUMNS.
Proof.
  split; [reflexivity|].
  refine (proj2 (proj2 (proj2 (proj2
            (get_ohlcv_returns_complete_rows sample_download "SPY" _ eq_refl)))) _).
  repeat constructor; cbn; intuition discriminate.
Defined.

End MarketData.
